(** * Model Openness Tool: the missing-models finder and the model scraper

    A shallow embedding of [tools-py/find_missing_models.py] and
    [tools-py/model_scraper.py], and the properties of their matching,
    bucketing, detection and serialization logic.

    Python values are modelled as follows.
    - [str] is [string]; the methods used by the tools ([lower], [upper],
      [title], [replace], [split], [endswith], [rstrip], [join], [in]) are
      defined in [Module Py] on the ASCII range, where they act as CPython
      does; code points above 127 are left unchanged by the case mappings.
    - [int] is [Z]; [len] results are [nat].
    - a [set] of strings is a [gset string].
    - a [dict] that is only read is a record whose optional keys are
      [option] fields ([d.get(k, default)] is [default] on [None]); a
      [dict] that is built and iterated is an association list in
      insertion order.
    - the network and the file system are explicit arguments. *)

From Stdlib Require Import ZArith List Ascii String Bool Lia Permutation Sorted QArith.
From stdpp Require Import gmap strings list pretty.

Local Open Scope Z_scope.
Local Open Scope list_scope.

(** ** Python string primitives *)

Module Py.

Definition is_upper (c : ascii) : bool :=
  let n := nat_of_ascii c in (Nat.leb 65 n && Nat.leb n 90)%bool.

Definition is_lower (c : ascii) : bool :=
  let n := nat_of_ascii c in (Nat.leb 97 n && Nat.leb n 122)%bool.

Definition is_cased (c : ascii) : bool := (is_upper c || is_lower c)%bool.

Definition is_digit (c : ascii) : bool :=
  let n := nat_of_ascii c in (Nat.leb 48 n && Nat.leb n 57)%bool.

Definition lower_char (c : ascii) : ascii :=
  if is_upper c then ascii_of_nat (nat_of_ascii c + 32) else c.

Definition upper_char (c : ascii) : ascii :=
  if is_lower c then ascii_of_nat (nat_of_ascii c - 32) else c.

Fixpoint map_str (f : ascii -> ascii) (s : string) : string :=
  match s with
  | EmptyString => EmptyString
  | String c s' => String (f c) (map_str f s')
  end.

(** [s.lower()] and [s.upper()]. *)
Definition lower (s : string) : string := map_str lower_char s.
Definition upper (s : string) : string := map_str upper_char s.

(** [s.title()]: a cased character is upper-cased when the character
    before it is not cased, and lower-cased otherwise. *)
Fixpoint title_go (previous_is_cased : bool) (s : string) : string :=
  match s with
  | EmptyString => EmptyString
  | String c s' =>
      String (if previous_is_cased then lower_char c else upper_char c)
             (title_go (is_cased c) s')
  end.
Definition title (s : string) : string := title_go false s.

(** [s.startswith(p)]. *)
Fixpoint startswith (p s : string) : bool :=
  match p, s with
  | EmptyString, _ => true
  | String a p', String b s' => if Ascii.eqb a b then startswith p' s' else false
  | String _ _, EmptyString => false
  end.

(** [sub in s]. *)
Fixpoint contains (sub s : string) : bool :=
  if startswith sub s then true
  else match s with
       | EmptyString => false
       | String _ s' => contains sub s'
       end.

(** [s.endswith(suffix)]. *)
Definition endswith (suffix s : string) : bool :=
  startswith (String.rev suffix) (String.rev s).

(** [s.replace(old, new)]: every non-overlapping occurrence, leftmost
    first.  [skip] counts the characters of a matched occurrence that are
    still to be dropped.  For an empty [old] Python puts [new] before
    every character and at the end. *)
Fixpoint replace_go (old new : string) (skip : nat) (s : string) : string :=
  match s with
  | EmptyString => EmptyString
  | String c s' =>
      match skip with
      | S k => replace_go old new k s'
      | O =>
          if startswith old s
          then new +:+ replace_go old new (String.length old - 1) s'
          else String c (replace_go old new 0 s')
      end
  end.

Definition replace (old new s : string) : string :=
  match old with
  | EmptyString =>
      new +:+ String.concat "" (map (fun c => String c new) (list_ascii_of_string s))
  | _ => replace_go old new 0 s
  end.

(** [s.split(sep)] for a one-character separator.  The result is never
    empty: a string without the separator is its own only field. *)
Fixpoint split_go (sep : ascii) (cur : string) (s : string) : list string :=
  match s with
  | EmptyString => [String.rev cur]
  | String c s' =>
      if Ascii.eqb c sep
      then String.rev cur :: split_go sep EmptyString s'
      else split_go sep (String c cur) s'
  end.
Definition split (sep : ascii) (s : string) : list string :=
  split_go sep EmptyString s.

(** [s.split(sep, 1)]: at most one split. *)
Fixpoint split1_go (sep : ascii) (cur : string) (s : string) : list string :=
  match s with
  | EmptyString => [String.rev cur]
  | String c s' =>
      if Ascii.eqb c sep
      then [String.rev cur; s']
      else split1_go sep (String c cur) s'
  end.
Definition split1 (sep : ascii) (s : string) : list string :=
  split1_go sep EmptyString s.

(** [l[0]] and [l[-1]] on the result of a split. *)
Definition first (l : list string) : string := hd "" l.
Definition last (l : list string) : string := List.last l "".

(** [sep.join(l)]. *)
Definition join (sep : string) (l : list string) : string := String.concat sep l.

(** [s.rstrip(chars)] for a one-character set. *)
Fixpoint lstrip1 (c : ascii) (s : string) : string :=
  match s with
  | String d s' => if Ascii.eqb d c then lstrip1 c s' else s
  | EmptyString => EmptyString
  end.
Definition rstrip1 (c : ascii) (s : string) : string :=
  String.rev (lstrip1 c (String.rev s)).

(** Truthiness of a [str]. *)
Definition truthy (s : string) : bool :=
  match s with EmptyString => false | _ => true end.

(** [c * n]. *)
Fixpoint repeat_char (c : ascii) (n : nat) : string :=
  match n with O => EmptyString | S k => String c (repeat_char c k) end.

(** [str(n)] for an [int]. *)
Definition str_of_int (n : Z) : string := pretty n.

(** Thousands separators of the format specifier [,]: a comma between
    groups of three digits, counted from the right. *)
Fixpoint group3 (k : nat) (rev_digits : string) : string :=
  match rev_digits with
  | EmptyString => EmptyString
  | String d rest =>
      match k with
      | O => String "," (String d (group3 2 rest))
      | S k' => String d (group3 k' rest)
      end
  end.

(** [format(n, ',')]. *)
Definition format_comma (n : Z) : string :=
  let digits := str_of_int (Z.abs n) in
  let grouped := String.rev (group3 3 (String.rev digits)) in
  if n <? 0 then String "-" grouped else grouped.

(** [format(s, 'Ns')] pads on the right, [format(x, '>N')] and numeric
    widths pad on the left; neither truncates. *)
Definition ljust (width : nat) (s : string) : string :=
  s +:+ repeat_char " " (width - String.length s).
Definition rjust (width : nat) (s : string) : string :=
  repeat_char " " (width - String.length s) +:+ s.

(** [sorted(l, key=key, reverse=True)]: a stable sort by descending key;
    elements with equal keys keep their order in [l]. *)
Fixpoint insert_desc {A} (key : A -> Z) (x : A) (l : list A) : list A :=
  match l with
  | [] => [x]
  | y :: l' => if key x <? key y then y :: insert_desc key x l' else x :: l
  end.
Definition sorted_desc {A} (key : A -> Z) (l : list A) : list A :=
  fold_right (insert_desc key) [] l.

(** [str.isspace] on one character, which is also what [\s] matches. *)
Definition is_space (c : ascii) : bool :=
  let n := nat_of_ascii c in
  ((Nat.leb 9 n && Nat.leb n 13) || (Nat.leb 28 n && Nat.leb n 32))%bool.

(** The longest prefix of characters satisfying [p], and the rest. *)
Fixpoint span (p : ascii -> bool) (s : string) : string * string :=
  match s with
  | EmptyString => (EmptyString, EmptyString)
  | String c s' =>
      if p c then let '(a, b) := span p s' in (String c a, b)
      else (EmptyString, s)
  end.

(** [repr(s)] for a [str]: double quotes when the string has a single
    quote and no double quote, single quotes otherwise; the quote, the
    backslash and the non-printable characters are escaped. *)
Definition hex_digit (n : nat) : ascii :=
  if Nat.ltb n 10 then ascii_of_nat (48 + n) else ascii_of_nat (87 + n).

Definition repr_char (quote : ascii) (c : ascii) : string :=
  let n := nat_of_ascii c in
  if Ascii.eqb c "\" then "\\"
  else if Ascii.eqb c quote then String "\" (String c "")
  else if Nat.eqb n 9 then "\t"
  else if Nat.eqb n 10 then "\n"
  else if Nat.eqb n 13 then "\r"
  else if (Nat.ltb n 32 || Nat.eqb n 127)%bool
       then String "\" (String "x" (String (hex_digit (n / 16)) (String (hex_digit (n mod 16)) "")))
  else String c "".

Fixpoint repr_body (quote : ascii) (s : string) : string :=
  match s with
  | EmptyString => EmptyString
  | String c s' => repr_char quote c +:+ repr_body quote s'
  end.

Definition dquote : ascii := ascii_of_nat 34.

Definition repr (s : string) : string :=
  let quote : ascii :=
    if (contains "'" s && negb (contains (String dquote "") s))%bool then dquote else "'"%char in
  String quote (repr_body quote s +:+ String quote "").

(** [str(l)] for a list of strings. *)
Definition str_of_list (l : list string) : string :=
  "[" +:+ join ", " (map repr l) +:+ "]".

(** The file system as far as the tools write to it: path to content. *)
Definition file_system := gmap string string.

(** [open(path, 'w').write(text)]. *)
Definition write_file (path text : string) (fs : file_system) : file_system :=
  <[path := text]> fs.

End Py.


(** ** Insertion-ordered dictionaries

    A Python [dict] iterates in insertion order; assigning to a key that is
    already present keeps its position. *)

Module Dict.
Section Dict.
Context {V : Type}.

Fixpoint get (k : string) (d : list (string * V)) : option V :=
  match d with
  | [] => None
  | (k', v) :: d' => if String.eqb k' k then Some v else get k d'
  end.

Definition mem (k : string) (d : list (string * V)) : bool :=
  match get k d with Some _ => true | None => false end.

(** [d[k] = v]. *)
Fixpoint set (k : string) (v : V) (d : list (string * V)) : list (string * V) :=
  match d with
  | [] => [(k, v)]
  | (k', v') :: d' =>
      if String.eqb k' k then (k, v) :: d' else (k', v') :: set k v d'
  end.

Definition keys (d : list (string * V)) : list string := map fst d.
Definition values (d : list (string * V)) : list V := map snd d.

(** The dictionary with the keys [ks], in this order, and the value [f k]
    for the key [k]. *)
Definition tabulate (f : string -> V) (ks : list string) : list (string * V) :=
  map (fun k => (k, f k)) ks.
End Dict.
End Dict.

(** ** find_missing_models.py *)

Module MissingModelsFinder.

(** One entry of the remote listing.  Only the keys [id], [downloads]
    and [tags] are read; each may be absent. *)
Record hf_model := {
  hf_id : option string;
  hf_downloads : option Z;
  hf_tags : option (list string)
}.

(** The [release] mapping of one registry file. *)
Record release := {
  rel_name : option string;
  rel_origin : option string;
  rel_huggingface : option string
}.

(** What reading one registry file gives: an exception inside the [try]
    block, a document that is empty or has no [release] key, or a
    release. *)
Inductive yaml_doc :=
| YamlError
| YamlNoRelease
| YamlRelease (r : release).

(** A directory entry matched by [glob("*.yml")]: [yaml_file.stem],
    [yaml_file.name] and its content. *)
Record yaml_file := {
  yf_stem : string;
  yf_name : string;
  yf_doc : yaml_doc
}.

(** The value stored for one registry file. *)
Record mot_data := {
  mot_name : string;
  mot_origin : string;
  mot_huggingface : string;
  mot_identifiers : gset string;
  mot_file : string
}.

Definition get_str (o : option string) : string := default "" o.

(** The identifier set built for one release. *)
Definition release_identifiers (model_name origin huggingface : string) : gset string :=
  let identifiers : gset string := ∅ in
  let identifiers :=
    if Py.truthy model_name
    then identifiers ∪ {[Py.lower model_name]}
                     ∪ {[Py.replace "-" "_" (Py.lower model_name)]}
                     ∪ {[Py.replace "_" "-" (Py.lower model_name)]}
    else identifiers in
  let identifiers :=
    if Py.truthy origin then identifiers ∪ {[Py.lower origin]} else identifiers in
  if Py.truthy huggingface
  then
    let hf_id := Py.replace "https://huggingface.co/" "" huggingface in
    identifiers ∪ {[Py.lower hf_id]}
  else identifiers.

(** The body of the loop over the registry files. *)
Definition load_file (mot_models : list (string * mot_data)) (f : yaml_file)
  : list (string * mot_data) :=
  match yf_doc f with
  | YamlError => mot_models
  | YamlNoRelease => mot_models
  | YamlRelease r =>
      let model_name := get_str (rel_name r) in
      let origin := get_str (rel_origin r) in
      let huggingface := get_str (rel_huggingface r) in
      Dict.set (yf_stem f)
        {| mot_name := model_name;
           mot_origin := origin;
           mot_huggingface := huggingface;
           mot_identifiers := release_identifiers model_name origin huggingface;
           mot_file := yf_name f |}
        mot_models
  end.

(** [get_mot_models]: [models_dir] is [None] when the directory does not
    exist, and otherwise the files in the order of enumeration. *)
Definition get_mot_models (models_dir : option (list yaml_file))
  : list (string * mot_data) :=
  match models_dir with
  | None => []
  | Some yaml_files => fold_left load_file yaml_files []
  end.

Definition normalize_model_id (model_id : string) : gset string :=
  let variations : gset string := ∅ in
  let variations := variations ∪ {[Py.lower model_id]} in
  let variations :=
    if Py.contains "/" model_id
    then
      let model_name := Py.last (Py.split "/" model_id) in
      variations ∪ {[Py.lower model_name]}
                 ∪ {[Py.replace "-" "_" (Py.lower model_name)]}
                 ∪ {[Py.replace "_" "-" (Py.lower model_name)]}
    else variations in
  let variations := variations ∪ {[Py.replace "-" "_" (Py.lower model_id)]} in
  let variations := variations ∪ {[Py.replace "_" "-" (Py.lower model_id)]} in
  variations.

(** Truthiness of [variations & mot_identifiers]. *)
Definition intersects (a b : gset string) : bool := bool_decide (a ∩ b ≠ ∅).

Fixpoint first_match (variations : gset string) (items : list (string * mot_data))
  : bool * string :=
  match items with
  | [] => (false, "")
  | (mot_file_stem, mot_data) :: rest =>
      if intersects variations (mot_identifiers mot_data)
      then (true, mot_file mot_data)
      else first_match variations rest
  end.

Definition is_model_in_mot (hf_model : hf_model) (mot_models : list (string * mot_data))
  : bool * string :=
  let model_id := default "" (hf_id hf_model) in
  let variations := normalize_model_id model_id in
  first_match variations mot_models.

(** The result of [categorize_missing_models]: three priority lists and
    the [by_type] dictionary. *)
Record Categories := {
  high_priority : list hf_model;
  medium_priority : list hf_model;
  low_priority : list hf_model;
  by_type : list (string * list hf_model)
}.

Definition downloads_of (model : hf_model) : Z := default 0 (hf_downloads model).
Definition tags_of (model : hf_model) : list string := default [] (hf_tags model).

Definition type_tags : list string :=
  ["text-generation"; "text2text-generation";
   "image-to-text"; "text-to-image";
   "automatic-speech-recognition"; "audio-classification";
   "image-classification"; "object-detection"].

(** [tag in type_tags]. *)
Definition in_list (x : string) (l : list string) : bool :=
  existsb (String.eqb x) l.

(** The loop that picks the first tag of the model that is a type tag. *)
Fixpoint pick_type (model_type : string) (tags : list string) : string :=
  match tags with
  | [] => model_type
  | tag :: rest => if in_list tag type_tags then tag else pick_type model_type rest
  end.

(** The body of the loop over the missing models. *)
Definition categorize_step (categories : Categories) (model : hf_model) : Categories :=
  let downloads := downloads_of model in
  let tags := tags_of model in
  let categories :=
    if 100000 <=? downloads then
      {| high_priority := high_priority categories ++ [model];
         medium_priority := medium_priority categories;
         low_priority := low_priority categories;
         by_type := by_type categories |}
    else if 10000 <=? downloads then
      {| high_priority := high_priority categories;
         medium_priority := medium_priority categories ++ [model];
         low_priority := low_priority categories;
         by_type := by_type categories |}
    else
      {| high_priority := high_priority categories;
         medium_priority := medium_priority categories;
         low_priority := low_priority categories ++ [model];
         by_type := by_type categories |} in
  let model_type := pick_type "other" tags in
  let types := by_type categories in
  let types :=
    if negb (Dict.mem model_type types) then Dict.set model_type [] types else types in
  let types :=
    Dict.set model_type (default [] (Dict.get model_type types) ++ [model]) types in
  {| high_priority := high_priority categories;
     medium_priority := medium_priority categories;
     low_priority := low_priority categories;
     by_type := types |}.

Definition categorize_missing_models (missing_models : list hf_model) : Categories :=
  fold_left categorize_step missing_models
    {| high_priority := []; medium_priority := []; low_priority := []; by_type := [] |}.

Definition rule (c : ascii) : string := Py.repeat_char c 80.

Definition id_or_unknown (model : hf_model) : string := default "unknown" (hf_id model).

(** [sorted(categories[...], key=downloads, reverse=True)[:n]]. *)
Definition top_by_downloads (n : nat) (models : list hf_model) : list hf_model :=
  firstn n (Py.sorted_desc downloads_of models).

(** [sorted(by_type.items(), key=lambda x: len(x[1]), reverse=True)]. *)
Definition types_by_count (types : list (string * list hf_model))
  : list (string * list hf_model) :=
  Py.sorted_desc (fun x => Z.of_nat (length (snd x))) types.

Definition type_line (x : string * list hf_model) : string :=
  "  " +:+ Py.ljust 30 (fst x) +:+ " "
       +:+ Py.rjust 5 (Py.format_comma (Z.of_nat (length (snd x)))) +:+ " models".

Definition downloads_line (model : hf_model) : string :=
  "  " +:+ Py.ljust 50 (id_or_unknown model) +:+ " "
       +:+ Py.rjust 10 (Py.format_comma (downloads_of model)) +:+ " downloads".

(** The lines written for one high-priority model. *)
Definition high_block (model : hf_model) : list string :=
  let model_id := id_or_unknown model in
  let tags := Py.join ", " (firstn 3 (tags_of model)) in
  [downloads_line model]
  ++ (if Py.truthy tags then ["    Tags: " +:+ tags] else [])
  ++ ["    URL: https://huggingface.co/" +:+ model_id]
  ++ [""].

Definition command_line (model : hf_model) : string :=
  "python model_scraper.py " +:+ id_or_unknown model.

(** The list [report_lines] at the end of [generate_report]. *)
Definition report_lines_of (missing_models : list hf_model) (mot_models : list (string * mot_data))
  : list string :=
  let categories := categorize_missing_models missing_models in
  let report_lines : list string := [] in
  let report_lines := report_lines ++ [rule "="] in
  let report_lines := report_lines ++ ["MODEL OPENNESS TOOL - MISSING MODELS REPORT"] in
  let report_lines := report_lines ++ [rule "="] in
  let report_lines := report_lines ++ [""] in
  let report_lines := report_lines ++ ["SUMMARY"] in
  let report_lines := report_lines ++ [rule "-"] in
  let report_lines := report_lines ++
    ["Models in MOT database:     " +:+ Py.format_comma (Z.of_nat (length mot_models))] in
  let report_lines := report_lines ++
    ["Missing models found:       " +:+ Py.format_comma (Z.of_nat (length missing_models))] in
  let report_lines := report_lines ++
    ["  - High priority (>100k):  "
       +:+ Py.format_comma (Z.of_nat (length (high_priority categories)))] in
  let report_lines := report_lines ++
    ["  - Medium priority (10k+): "
       +:+ Py.format_comma (Z.of_nat (length (medium_priority categories)))] in
  let report_lines := report_lines ++
    ["  - Low priority (<10k):    "
       +:+ Py.format_comma (Z.of_nat (length (low_priority categories)))] in
  let report_lines := report_lines ++ [""] in
  let report_lines := report_lines ++ ["MISSING MODELS BY TYPE"] in
  let report_lines := report_lines ++ [rule "-"] in
  let report_lines :=
    fold_left (fun report_lines x => report_lines ++ [type_line x])
      (types_by_count (by_type categories)) report_lines in
  let report_lines := report_lines ++ [""] in
  let report_lines :=
    match high_priority categories with
    | [] => report_lines
    | _ =>
        let report_lines := report_lines ++ ["HIGH PRIORITY MODELS (>100,000 downloads)"] in
        let report_lines := report_lines ++ [rule "-"] in
        fold_left (fun report_lines model => report_lines ++ high_block model)
          (top_by_downloads 50 (high_priority categories)) report_lines
    end in
  let report_lines :=
    match medium_priority categories with
    | [] => report_lines
    | _ =>
        let report_lines :=
          report_lines ++ ["MEDIUM PRIORITY MODELS (10,000-100,000 downloads)"] in
        let report_lines := report_lines ++ [rule "-"] in
        let report_lines := report_lines ++
          ["Total: " +:+ Py.str_of_int (Z.of_nat (length (medium_priority categories)))
             +:+ " models"] in
        let report_lines := report_lines ++ ["Top 20:"] in
        let report_lines :=
          fold_left (fun report_lines model => report_lines ++ [downloads_line model])
            (top_by_downloads 20 (medium_priority categories)) report_lines in
        report_lines ++ [""]
    end in
  let report_lines := report_lines ++ ["SUGGESTED SCRAPING COMMANDS"] in
  let report_lines := report_lines ++ [rule "-"] in
  let report_lines := report_lines ++ ["High priority models (copy and run):"] in
  let report_lines := report_lines ++ [""] in
  let report_lines :=
    fold_left (fun report_lines model => report_lines ++ [command_line model])
      (top_by_downloads 10 (high_priority categories)) report_lines in
  let report_lines := report_lines ++ [""] in
  let report_lines := report_lines ++ [rule "="] in
  report_lines.

(** [generate_report]: the report text and the file system after the
    call.  [output_file] is [None] for the default argument. *)
Definition generate_report (missing_models : list hf_model)
  (mot_models : list (string * mot_data)) (output_file : option string)
  (fs : Py.file_system) : string * Py.file_system :=
  let report_text := Py.join (String "010" "") (report_lines_of missing_models mot_models) in
  let fs :=
    match output_file with
    | Some path => if Py.truthy path then Py.write_file path report_text fs else fs
    | None => fs
    end in
  (report_text, fs).

(** The comparison loop of [main]. *)
Definition find_missing (hf_models : list hf_model) (mot_models : list (string * mot_data))
  : list hf_model :=
  List.filter (fun hf_model => negb (fst (is_model_in_mot hf_model mot_models))) hf_models.

(** *** The remote listing *)

(** What the request for one page of the listing gives: a
    [RequestException], or a response with its status code and the
    decoded batch. *)
Inductive page_result :=
| PageError
| Page (status_code : Z) (batch : list hf_model).

(** [response.raise_for_status()] raises on a 4xx or 5xx status. *)
Definition raises_for_status (status_code : Z) : bool :=
  ((400 <=? status_code) && (status_code <? 600))%bool.

(** The loop over one batch: a model at or above the threshold is
    appended, and the loop is left as soon as the limit is reached. *)
Fixpoint take_batch (min_downloads limit : Z) (models batch : list hf_model)
  : list hf_model :=
  match batch with
  | [] => models
  | model :: rest =>
      let downloads := downloads_of model in
      let models := if min_downloads <=? downloads then models ++ [model] else models in
      if limit <=? Z.of_nat (length models) then models
      else take_batch min_downloads limit models rest
  end.

(** The [while] loop of [get_huggingface_models], for at most [fuel]
    requests; [listing page] is the answer to the request with
    [skip = page * 100] (and the type filter, when one is given).  The
    result is [None] when the requests run out before the loop ends. *)
Fixpoint fetch_pages (fuel : nat) (listing : nat -> page_result)
  (min_downloads limit : Z) (models : list hf_model) (page : nat)
  : option (list hf_model) :=
  if Z.of_nat (length models) <? limit then
    match fuel with
    | O => None
    | S fuel' =>
        match listing page with
        | PageError => Some models
        | Page status_code batch =>
            if raises_for_status status_code then Some models
            else
              match batch with
              | [] => Some models
              | _ =>
                  fetch_pages fuel' listing min_downloads limit
                    (take_batch min_downloads limit models batch) (page + 1)
              end
        end
    end
  else Some models.

Definition get_huggingface_models (fuel : nat) (listing : nat -> page_result)
  (min_downloads limit : Z) : option (list hf_model) :=
  fetch_pages fuel listing min_downloads limit [] 0.

(** [main]: the registry is loaded, the listing fetched, the models
    without a match kept, and the report generated with
    [output_file=args.output]; the result is the printed report and the
    file system after the run. *)
Definition main (fuel : nat) (models_dir : option (list yaml_file))
  (listing : nat -> page_result) (min_downloads limit : Z)
  (output : option string) (fs : Py.file_system)
  : option (string * Py.file_system) :=
  let mot_models := get_mot_models models_dir in
  match get_huggingface_models fuel listing min_downloads limit with
  | None => None
  | Some hf_models =>
      let missing_models := find_missing hf_models mot_models in
      Some (generate_report missing_models mot_models output fs)
  end.

End MissingModelsFinder.

(** ** model_scraper.py *)

Module ModelScraper.

(** The [license] entry of the card data as the hub serves it: [null], a
    string, or a list of strings. *)
Inductive license_value :=
| LicenseNone
| LicenseStr (s : string)
| LicenseList (l : list string).

(** [cardData], the front matter of the model card: a mapping whose
    [license] key may be absent. *)
Record card_data := {
  cd_license : option license_value
}.

(** The model-info blob, a mapping: the keys the scraper reads, each
    optional. *)
Record model_info := {
  mi_cardData : option card_data;
  mi_tags : option (list string);
  mi_lastModified : option string
}.

Definition empty_model_info : model_info :=
  {| mi_cardData := None; mi_tags := None; mi_lastModified := None |}.

(** The dictionary returned by [scrape_huggingface_model]; the empty
    dictionary has no key. *)
Record scraped_data := {
  sd_model_id : option string;
  sd_model_info : option model_info;
  sd_model_card : option string;
  sd_repo_files : option (list string);
  sd_confidence : option (list (string * Q))
}.

Definition empty_dict : scraped_data :=
  {| sd_model_id := None; sd_model_info := None; sd_model_card := None;
     sd_repo_files := None; sd_confidence := None |}.

(** [not scraped_data]: a dictionary is falsy when it has no key. *)
Definition is_empty (d : scraped_data) : bool :=
  match sd_model_id d, sd_model_info d, sd_model_card d, sd_repo_files d, sd_confidence d with
  | None, None, None, None, None => true
  | _, _, _, _, _ => false
  end.

(** What a request gives: a [RequestException], or a response with its
    status code and its body, decoded to the shape the scraper reads. *)
Inductive outcome (A : Type) :=
| RequestException
| Response (status_code : Z) (body : A).
Arguments RequestException {A}.
Arguments Response {A} status_code body.

(** One entry of the file-tree listing. *)
Record tree_entry := {
  te_path : string
}.

(** The session: what each endpoint answers for a URL. *)
Record session := {
  get_info : string -> outcome model_info;
  get_text : string -> outcome string;
  get_tree : string -> outcome (list tree_entry);
  head : string -> outcome unit
}.

(** [response.raise_for_status()] raises on a 4xx or 5xx status. *)
Definition raises_for_status (status_code : Z) : bool :=
  ((400 <=? status_code) && (status_code <? 600))%bool.

Definition scrape_huggingface_model (self : session) (model_id : string) : scraped_data :=
  let api_url := "https://huggingface.co/api/models/" +:+ model_id in
  match get_info self api_url with
  | RequestException => empty_dict
  | Response status_code model_info =>
      if raises_for_status status_code then empty_dict
      else
        let card_url := "https://huggingface.co/" +:+ model_id +:+ "/raw/main/README.md" in
        let model_card_content := "" in
        let model_card_content :=
          match get_text self card_url with
          | Response card_status text =>
              if card_status =? 200 then text else model_card_content
          | RequestException => model_card_content
          end in
        let files_url := "https://huggingface.co/api/models/" +:+ model_id +:+ "/tree/main" in
        let repo_files : list string := [] in
        let repo_files :=
          match get_tree self files_url with
          | Response files_status entries =>
              if files_status =? 200 then map te_path entries else repo_files
          | RequestException => repo_files
          end in
        {| sd_model_id := Some model_id;
           sd_model_info := Some model_info;
           sd_model_card := Some model_card_content;
           sd_repo_files := Some repo_files;
           sd_confidence := Some [] |}
  end.

(** A component candidate. *)
Record component := {
  name : string;
  description : string;
  license : license_value;
  confidence : Q;
  location : string
}.

(** Truthiness of a license value, and [license_name != 'other']. *)
Definition license_truthy (v : license_value) : bool :=
  match v with
  | LicenseNone => false
  | LicenseStr s => Py.truthy s
  | LicenseList l => match l with [] => false | _ => true end
  end.

Definition license_is (v : license_value) (s : string) : bool :=
  match v with
  | LicenseStr s' => String.eqb s' s
  | _ => false
  end.

Definition repo_files_of (scraped_data : scraped_data) : list string :=
  default [] (sd_repo_files scraped_data).
Definition model_info_of (scraped_data : scraped_data) : model_info :=
  default empty_model_info (sd_model_info scraped_data).
Definition model_card_of (scraped_data : scraped_data) : string :=
  default "" (sd_model_card scraped_data).
Definition model_id_of (scraped_data : scraped_data) : string :=
  default "" (sd_model_id scraped_data).

Definition _detect_license (scraped_data : scraped_data) : license_value :=
  let model_info := model_info_of scraped_data in
  let from_repo_files :=
    let repo_files := repo_files_of scraped_data in
    if existsb (fun f => (String.eqb (Py.upper f) "LICENSE"
                          || String.eqb (Py.upper f) "LICENSE.md")%bool) repo_files
    then LicenseStr "unlicensed"
    else LicenseStr "unlicensed" in
  match mi_cardData model_info with
  | Some cardData =>
      match cd_license cardData with
      | Some license_name =>
          if (license_truthy license_name && negb (license_is license_name "other"))%bool
          then license_name
          else from_repo_files
      | None => from_repo_files
      end
  | None => from_repo_files
  end.

Definition any_str (p : string -> bool) (l : list string) : bool := existsb p l.

Definition in_list (x : string) (l : list string) : bool := existsb (String.eqb x) l.

Definition detect_components (scraped_data : scraped_data) : list component :=
  let components : list component := [] in
  let repo_files := repo_files_of scraped_data in
  let model_card := Py.lower (model_card_of scraped_data) in
  let components :=
    if any_str (fun f => existsb (fun suffix => Py.endswith suffix f)
                           [".bin"; ".safetensors"; ".pt"; ".pth"; ".ckpt"]) repo_files
    then components ++
      [{| name := "Model parameters (Final)";
          description := "Trained model parameters, weights and biases";
          license := _detect_license scraped_data;
          confidence := 95 # 100;
          location := "HuggingFace repository" |}]
    else components in
  let components :=
    if existsb (fun f => in_list f repo_files)
         ["config.json"; "model_config.json"; "configuration.json"]
    then components ++
      [{| name := "Model metadata";
          description :=
            "Any model metadata including training configuration and optimizer states";
          license := _detect_license scraped_data;
          confidence := 90 # 100;
          location := "HuggingFace repository" |}]
    else components in
  let components :=
    if (any_str (fun f => Py.endswith ".py" f) repo_files
        || Py.contains "modeling" (Py.join " " repo_files))%bool
    then components ++
      [{| name := "Model architecture";
          description := "Well commented code for the model's architecture";
          license := _detect_license scraped_data;
          confidence := 85 # 100;
          location := "HuggingFace repository" |}]
    else components in
  let components :=
    if any_str (fun f => (Py.contains "inference" (Py.lower f)
                          || Py.contains "generate" (Py.lower f))%bool) repo_files
    then components ++
      [{| name := "Inference code";
          description := "Code used for running the model to make predictions";
          license := _detect_license scraped_data;
          confidence := 80 # 100;
          location := "HuggingFace repository" |}]
    else components in
  let components :=
    if (in_list "README.md" repo_files || Py.truthy model_card)%bool
    then components ++
      [{| name := "Model card";
          description :=
            "Model details including performance metrics, intended use, and limitations";
          license := _detect_license scraped_data;
          confidence := 95 # 100;
          location := "HuggingFace repository" |}]
    else components in
  let components :=
    if existsb (fun keyword => Py.contains keyword model_card)
         ["technical report"; "tech report"; "documentation"]
    then components ++
      [{| name := "Technical report";
          description :=
            "Technical report detailing capabilities and usage instructions for the model";
          license := LicenseStr "unlicensed";
          confidence := 60 # 100;
          location := "Referenced in model card" |}]
    else components in
  let components :=
    if existsb (fun keyword => Py.contains keyword model_card)
         ["paper"; "arxiv"; "publication"]
    then components ++
      [{| name := "Research paper";
          description :=
            "Research paper detailing the development and capabilities of the model";
          license := LicenseStr "unlicensed";
          confidence := 70 # 100;
          location := "Referenced in model card" |}]
    else components in
  let components :=
    if existsb (fun keyword => Py.contains keyword model_card)
         ["evaluation"; "benchmark"; "performance"; "results"]
    then components ++
      [{| name := "Evaluation results";
          description := "The results from evaluating the model";
          license := LicenseStr "unlicensed";
          confidence := 75 # 100;
          location := "Model card" |}]
    else components in
  let components :=
    if existsb (fun keyword => Py.contains keyword model_card)
         ["training data"; "trained on"; "dataset"]
    then components ++
      [{| name := "Training dataset";
          description := "The dataset used to train the model";
          license := LicenseStr "unlicensed";
          confidence := 50 # 100;
          location := "Referenced in model card" |}]
    else components in
  components.

(** [_check_repo_exists]: a HEAD request that answers 200; any exception
    counts as absent. *)
Definition _check_repo_exists (self : session) (repo_url : string) : bool :=
  match head self repo_url with
  | Response status_code _ => status_code =? 200
  | RequestException => false
  end.

(** The character class of the repository pattern: anything but a slash,
    white space, a double quote and the angle brackets. *)
Definition url_char (c : ascii) : bool :=
  negb (Ascii.eqb c "/" || Py.is_space c || Ascii.eqb c Py.dquote
        || Ascii.eqb c "<" || Ascii.eqb c ">")%bool.

Definition github_prefix : string := "https://github.com/".

(** A match of the repository pattern at the start of [s]: the prefix
    [https://github.com/], a non-empty run of class characters, a slash and
    another non-empty run.  The class excludes the slash, so the greedy
    runs are the only candidates. *)
Definition match_github (s : string) : option string :=
  if Py.startswith github_prefix s then
    let rest := String.substring (String.length github_prefix)
                  (String.length s - String.length github_prefix) s in
    let '(owner, rest) := Py.span url_char rest in
    match owner, rest with
    | String _ _, String "/" rest =>
        let '(repo, _) := Py.span url_char rest in
        match repo with
        | String _ _ => Some (github_prefix +:+ owner +:+ "/" +:+ repo)
        | EmptyString => None
        end
    | _, _ => None
    end
  else None.

(** [re.findall(github_pattern, s)]: the matches from left to right, the
    scan resuming after each match. *)
Fixpoint findall_github_go (skip : nat) (s : string) : list string :=
  match s with
  | EmptyString => []
  | String _ s' =>
      match skip with
      | S k => findall_github_go k s'
      | O =>
          match match_github s with
          | Some url => url :: findall_github_go (String.length url - 1) s'
          | None => findall_github_go 0 s'
          end
      end
  end.
Definition findall_github (s : string) : list string := findall_github_go 0 s.

(** The first loop of [_detect_repository]: the first link whose
    lower-cased text contains the model name. *)
Fixpoint first_relevant (model_name : string) (github_urls : list string) : option string :=
  match github_urls with
  | [] => None
  | url :: rest =>
      let url := Py.rstrip1 ")" url in
      if Py.contains model_name (Py.lower url) then Some url
      else first_relevant model_name rest
  end.

(** The last loop of [_detect_repository]: the first guessed repository
    that exists. *)
Fixpoint first_existing (self : session) (org : string) (base_names : list string)
  : option string :=
  match base_names with
  | [] => None
  | base_name :: rest =>
      let inferred_repo := "https://github.com/" +:+ org +:+ "/" +:+ base_name in
      if _check_repo_exists self inferred_repo then Some inferred_repo
      else first_existing self org rest
  end.

Definition _detect_repository (self : session) (scraped_data : scraped_data) : string * Q :=
  let model_id := model_id_of scraped_data in
  let model_card := model_card_of scraped_data in
  let github_urls := findall_github model_card in
  match github_urls with
  | first_url :: _ =>
      let model_name := Py.lower (Py.last (Py.split "/" model_id)) in
      match first_relevant model_name github_urls with
      | Some url => (url, 90 # 100)
      | None => (Py.rstrip1 ")" first_url, 70 # 100)
      end
  | [] =>
      let inferred_repo := "https://github.com/" +:+ model_id in
      if _check_repo_exists self inferred_repo then (inferred_repo, 65 # 100)
      else
        let guessed :=
          if Py.contains "/" model_id then
            let parts := Py.split1 "/" model_id in
            let org := Py.first parts in
            let name := Py.last parts in
            let base_names := [Py.first (Py.split "-" name); Py.lower name; name] in
            first_existing self org base_names
          else None in
        match guessed with
        | Some inferred_repo => (inferred_repo, 60 # 100)
        | None => ("", 0 # 100)
        end
  end.

(** The metadata dictionary; [repository], [repository_confidence] and
    [huggingface] are the keys that may be absent. *)
Record metadata := {
  md_name : string;
  md_version : string;
  md_producer : string;
  md_type : string;
  md_architecture : string;
  md_date : string;
  md_origin : string;
  md_huggingface : option string;
  md_repository : option string;
  md_repository_confidence : option Q
}.

Definition type_mapping : list (string * string) :=
  [("text-generation", "language");
   ("text2text-generation", "language");
   ("image-to-text", "multimodal");
   ("text-to-image", "image");
   ("image-classification", "vision");
   ("object-detection", "vision");
   ("automatic-speech-recognition", "audio")].

(** The loop that takes the type of the first tag found in the mapping. *)
Fixpoint pick_type (model_type : string) (tags : list string) : string :=
  match tags with
  | [] => model_type
  | tag :: rest =>
      match Dict.get tag type_mapping with
      | Some t => t
      | None => pick_type model_type rest
      end
  end.

(** A match of [(\d+\.?\d*[BMK]?)] at the start of [s]. *)
Definition match_version (s : string) : option string :=
  let '(whole, rest) := Py.span Py.is_digit s in
  match whole with
  | EmptyString => None
  | String _ _ =>
      let '(dot, rest) :=
        match rest with
        | String "." rest' => (".", rest')
        | _ => ("", rest)
        end in
      let '(frac, rest) := Py.span Py.is_digit rest in
      let suffix :=
        match rest with
        | String c _ =>
            if (Ascii.eqb c "B" || Ascii.eqb c "M" || Ascii.eqb c "K")%bool
            then String c "" else ""
        | EmptyString => ""
        end in
      Some (whole +:+ dot +:+ frac +:+ suffix)
  end.

(** [re.search] of the version pattern: the leftmost match. *)
Fixpoint search_version (s : string) : option string :=
  match match_version s with
  | Some v => Some v
  | None =>
      match s with
      | EmptyString => None
      | String _ s' => search_version s'
      end
  end.

(** [_extract_model_metadata]; [today] is what
    [datetime.now().strftime('%Y-%m-%d')] gives. *)
Definition _extract_model_metadata (self : session) (today : string)
  (scraped_data : scraped_data) : metadata :=
  let model_info := model_info_of scraped_data in
  let model_id := model_id_of scraped_data in
  let producer :=
    if Py.contains "/" model_id then Py.first (Py.split "/" model_id) else "Unknown" in
  let producer := Py.title (Py.replace "_" " " (Py.replace "-" " " producer)) in
  let model_name :=
    if Py.contains "/" model_id then Py.last (Py.split "/" model_id) else model_id in
  let tags := default [] (mi_tags model_info) in
  let model_type := pick_type "" tags in
  let architecture := "" in
  let model_card := Py.lower (model_card_of scraped_data) in
  let architecture :=
    if (Py.contains "transformer" model_card
        || Py.contains "transformer" (Py.lower (Py.str_of_list tags)))%bool
    then
      if Py.contains "decoder" model_card then "transformer decoder"
      else if Py.contains "encoder" model_card then "transformer encoder-decoder"
      else "transformer"
    else if (Py.contains "diffusion" model_card
             || Py.contains "diffusion" (Py.lower (Py.str_of_list tags)))%bool
    then "diffusion"
    else architecture in
  let version := default "1.0" (search_version model_name) in
  let last_modified := default "" (mi_lastModified model_info) in
  let date :=
    if Py.truthy last_modified then Py.first (Py.split "T" last_modified) else today in
  let '(repository, repo_confidence) := _detect_repository self scraped_data in
  let metadata :=
    {| md_name := model_name;
       md_version := version;
       md_producer := producer;
       md_type := model_type;
       md_architecture := architecture;
       md_date := date;
       md_origin := Py.lower model_name;
       md_huggingface := Some ("https://huggingface.co/" +:+ model_id);
       md_repository := None;
       md_repository_confidence := None |} in
  if Py.truthy repository
  then
    {| md_name := md_name metadata;
       md_version := md_version metadata;
       md_producer := md_producer metadata;
       md_type := md_type metadata;
       md_architecture := md_architecture metadata;
       md_date := md_date metadata;
       md_origin := md_origin metadata;
       md_huggingface := md_huggingface metadata;
       md_repository := Some repository;
       md_repository_confidence := Some repo_confidence |}
  else metadata.

(** The string that [license_val] holds after the [isinstance] branch;
    [None] stands for the value [None], which formats as falsy. *)
Definition first_license (license_val : license_value) : option string :=
  match license_val with
  | LicenseList l =>
      match l with
      | first :: _ => Some first
      | [] => Some "unlicensed"
      end
  | LicenseStr s => Some s
  | LicenseNone => None
  end.

(** The lines appended for one component. *)
Definition component_lines (comp : component) : list string :=
  let lines : list string := [] in
  let lines := lines ++ ["    -"] in
  let lines := lines ++ ["      name: '" +:+ name comp +:+ "'"] in
  let lines := lines ++
    ["      description: " +:+ String Py.dquote (description comp +:+ String Py.dquote "")] in
  let license_val := first_license (license comp) in
  match license_val with
  | Some s =>
      if (Py.truthy s && negb (String.eqb s "unlicensed"))%bool
      then lines ++ ["      license: '" +:+ s +:+ "'"]
      else lines ++ ["      license: unlicensed"]
  | None => lines ++ ["      license: unlicensed"]
  end.

(** Truthiness of [metadata.get(key)]. *)
Definition get_truthy (o : option string) : option string :=
  match o with
  | Some s => if Py.truthy s then Some s else None
  | None => None
  end.

(** The list [lines] at the end of [_format_yaml_mot_style]. *)
Definition yaml_lines (metadata : metadata) (components : list component) : list string :=
  let lines : list string := [] in
  let lines := lines ++ ["framework:"] in
  let lines := lines ++ ["  name: 'Model Openness Framework'"] in
  let lines := lines ++ ["  version: '1.0'"] in
  let lines := lines ++ ["  date: '2024-12-15'"] in
  let lines := lines ++ ["release:"] in
  let lines := lines ++ ["  name: " +:+ md_name metadata] in
  let lines := lines ++ ["  version: '" +:+ md_version metadata +:+ "'"] in
  let lines := lines ++ ["  date: '" +:+ md_date metadata +:+ "'"] in
  let lines := lines ++ ["  license: {  }"] in
  let lines := lines ++ ["  type: '" +:+ md_type metadata +:+ "'"] in
  let lines := lines ++ ["  architecture: '" +:+ md_architecture metadata +:+ "'"] in
  let lines := lines ++ ["  origin: " +:+ md_origin metadata] in
  let lines := lines ++ ["  producer: '" +:+ md_producer metadata +:+ "'"] in
  let lines := lines ++ ["  contact: ''"] in
  let lines :=
    match get_truthy (md_repository metadata) with
    | Some repository => lines ++ ["  repository: '" +:+ repository +:+ "'"]
    | None => lines
    end in
  let lines :=
    match get_truthy (md_huggingface metadata) with
    | Some huggingface => lines ++ ["  huggingface: '" +:+ huggingface +:+ "'"]
    | None => lines
    end in
  let lines := lines ++ ["  components:"] in
  fold_left (fun lines comp => lines ++ component_lines comp) components lines.

Definition newline : string := String (ascii_of_nat 10) "".

Definition _format_yaml_mot_style (metadata : metadata) (components : list component)
  : string :=
  Py.join newline (yaml_lines metadata components).

(** [generate_yaml]: the YAML text and the file system after the call. *)
Definition generate_yaml (self : session) (today : string) (scraped_data : scraped_data)
  (output_path : option string) (fs : Py.file_system) : string * Py.file_system :=
  let metadata := _extract_model_metadata self today scraped_data in
  let components := detect_components scraped_data in
  let yaml_output := _format_yaml_mot_style metadata components in
  let fs :=
    match output_path with
    | Some path => if Py.truthy path then Py.write_file path yaml_output fs else fs
    | None => fs
    end in
  (yaml_output, fs).

(** [main]: the exit status and the file system after the run.
    [output_file model_name] is the path of [model_name] with the
    extension [.yml] under [args.output_dir], as a string; the session is
    the one built from [args.hf_token]. *)
Definition main (self : session) (today : string) (output_file : string -> string)
  (model_id : string) (fs : Py.file_system) : Z * Py.file_system :=
  let scraped_data := scrape_huggingface_model self model_id in
  if is_empty scraped_data then (1, fs)
  else
    let model_name := Py.last (Py.split "/" model_id) in
    let output_path := output_file model_name in
    let '(yaml_output, fs) := generate_yaml self today scraped_data (Some output_path) fs in
    (0, fs).

End ModelScraper.

(** ** Vocabulary of the properties *)

Module Spec.
Import MissingModelsFinder.

(** The type bucket of a model: its first tag that is a type tag, else
    [other]. *)
Definition model_type_of (model : hf_model) : string :=
  pick_type "other" (tags_of model).

(** The distinct elements of a list, in the order of their first
    occurrence. *)
Fixpoint first_occurrences (l : list string) : list string :=
  match l with
  | [] => []
  | x :: rest =>
      x :: List.filter (fun y => negb (String.eqb y x)) (first_occurrences rest)
  end.

(** [output] is the stable sort of [input] by descending [key]: sorted,
    and the elements of each key in the order they have in [input]. *)
Definition stable_desc {A} (key : A -> Z) (input output : list A) : Prop :=
  StronglySorted (fun a b => key b <= key a) output /\
  forall k, List.filter (fun x => key x =? k) output
            = List.filter (fun x => key x =? k) input.

(** The types that occur in a list of models, by first occurrence, and the
    models of one type, in the order of the list. *)
Definition types_of (l : list hf_model) : list string :=
  first_occurrences (map model_type_of l).
Definition of_type (l : list hf_model) (t : string) : list hf_model :=
  List.filter (fun m => String.eqb (model_type_of m) t) l.

(** The three priority tests. *)
Definition is_high (model : hf_model) : bool := 100000 <=? downloads_of model.
Definition is_medium (model : hf_model) : bool :=
  ((10000 <=? downloads_of model) && (downloads_of model <? 100000))%bool.
Definition is_low (model : hf_model) : bool := downloads_of model <? 10000.

End Spec.

(** ** Layout of the report *)

Module ReportLayout.
Import MissingModelsFinder.

Definition summary_lines (missing_models : list hf_model)
  (mot_models : list (string * mot_data)) (categories : Categories) : list string :=
  [ rule "=";
    "MODEL OPENNESS TOOL - MISSING MODELS REPORT";
    rule "=";
    "";
    "SUMMARY";
    rule "-";
    "Models in MOT database:     " +:+ Py.format_comma (Z.of_nat (length mot_models));
    "Missing models found:       " +:+ Py.format_comma (Z.of_nat (length missing_models));
    "  - High priority (>100k):  "
      +:+ Py.format_comma (Z.of_nat (length (high_priority categories)));
    "  - Medium priority (10k+): "
      +:+ Py.format_comma (Z.of_nat (length (medium_priority categories)));
    "  - Low priority (<10k):    "
      +:+ Py.format_comma (Z.of_nat (length (low_priority categories)));
    "";
    "MISSING MODELS BY TYPE";
    rule "-" ].

(** The per-type counts, for the types in the given order. *)
Definition type_section (types : list (string * list hf_model)) : list string :=
  map type_line types ++ [""].

(** The high-priority listing, for the models in the given order; it is
    absent when there is no high-priority model. *)
Definition high_section (categories : Categories) (listed : list hf_model) : list string :=
  match high_priority categories with
  | [] => []
  | _ =>
      ["HIGH PRIORITY MODELS (>100,000 downloads)"; rule "-"]
      ++ flat_map high_block listed
  end.

Definition medium_section (categories : Categories) (listed : list hf_model) : list string :=
  match medium_priority categories with
  | [] => []
  | _ =>
      [ "MEDIUM PRIORITY MODELS (10,000-100,000 downloads)";
        rule "-";
        "Total: " +:+ Py.str_of_int (Z.of_nat (length (medium_priority categories)))
          +:+ " models";
        "Top 20:" ]
      ++ map downloads_line listed ++ [""]
  end.

Definition commands_section (listed : list hf_model) : list string :=
  [ "SUGGESTED SCRAPING COMMANDS";
    rule "-";
    "High priority models (copy and run):";
    "" ]
  ++ map command_line listed ++ [""; rule "="].

End ReportLayout.

(** ** Vocabulary of the scraper properties *)

Module ScraperSpec.
Import ModelScraper.

(** The three addresses fetched for one model. *)
Definition api_url (model_id : string) : string :=
  "https://huggingface.co/api/models/" +:+ model_id.
Definition card_url (model_id : string) : string :=
  "https://huggingface.co/" +:+ model_id +:+ "/raw/main/README.md".
Definition files_url (model_id : string) : string :=
  "https://huggingface.co/api/models/" +:+ model_id +:+ "/tree/main".

(** The primary fetch fails on a request error or an error status. *)
Definition primary_failed (o : outcome model_info) : Prop :=
  match o with
  | RequestException => True
  | Response status_code _ => 400 <= status_code < 600
  end.

(** An enrichment fetch fails on a request error or a status other than
    200. *)
Definition fetch_failed {A} (o : outcome A) : Prop :=
  match o with
  | RequestException => True
  | Response status_code _ => status_code <> 200
  end.

(** The explicit license field of the model-info blob, when present. *)
Definition license_field (scraped_data : scraped_data) : option license_value :=
  match mi_cardData (model_info_of scraped_data) with
  | Some cardData => cd_license cardData
  | None => None
  end.

Definition unlicensed : license_value := LicenseStr "unlicensed".

(** The scraped data with another file listing. *)
Definition with_repo_files (files : list string) (scraped_data : scraped_data)
  : ModelScraper.scraped_data :=
  {| sd_model_id := sd_model_id scraped_data;
     sd_model_info := sd_model_info scraped_data;
     sd_model_card := sd_model_card scraped_data;
     sd_repo_files := Some files;
     sd_confidence := sd_confidence scraped_data |}.

(** What holds of every license the scraper reports: it is truthy, it is
    not the sentinel, and it is the literal [unlicensed] or the license
    field of the blob. *)
Definition license_ok (scraped_data : scraped_data) (v : license_value) : Prop :=
  license_truthy v = true /\
  license_is v "other" = false /\
  (v = unlicensed \/ license_field scraped_data = Some v).

(** The two candidates found from the weights and the configuration. *)
Definition parameters_component (scraped_data : scraped_data) : component :=
  {| name := "Model parameters (Final)";
     description := "Trained model parameters, weights and biases";
     license := _detect_license scraped_data;
     confidence := 95 # 100;
     location := "HuggingFace repository" |}.

Definition metadata_component (scraped_data : scraped_data) : component :=
  {| name := "Model metadata";
     description :=
       "Any model metadata including training configuration and optimizer states";
     license := _detect_license scraped_data;
     confidence := 90 # 100;
     location := "HuggingFace repository" |}.

End ScraperSpec.

(** ** Occurrences of a substring *)

Module Occurs.

(** [sub] occurs in [s]. *)
Definition occurs (sub s : string) : Prop :=
  exists a b, s = a +:+ sub +:+ b.

(** [sub] occurs in [s] up to the case of the letters. *)
Definition occurs_ci (sub s : string) : Prop :=
  exists a t b, s = a +:+ t +:+ b /\ Py.lower t = Py.lower sub.

End Occurs.

(** ** Layout of the draft *)

Module YamlLayout.
Import ModelScraper.

Definition framework_lines : list string :=
  [ "framework:";
    "  name: 'Model Openness Framework'";
    "  version: '1.0'";
    "  date: '2024-12-15'" ].

(** The entries of the release that are always written. *)
Definition fixed_release_lines (metadata : metadata) : list string :=
  [ "  name: " +:+ md_name metadata;
    "  version: '" +:+ md_version metadata +:+ "'";
    "  date: '" +:+ md_date metadata +:+ "'";
    "  license: {  }";
    "  type: '" +:+ md_type metadata +:+ "'";
    "  architecture: '" +:+ md_architecture metadata +:+ "'";
    "  origin: " +:+ md_origin metadata;
    "  producer: '" +:+ md_producer metadata +:+ "'";
    "  contact: ''" ].

(** The entry of an optional key: present when the value is truthy. *)
Definition optional_line (key : string) (value : option string) : list string :=
  match get_truthy value with
  | Some v => ["  " +:+ key +:+ ": '" +:+ v +:+ "'"]
  | None => []
  end.

Definition release_lines (metadata : metadata) : list string :=
  fixed_release_lines metadata
  ++ optional_line "repository" (md_repository metadata)
  ++ optional_line "huggingface" (md_huggingface metadata).

(** The lines that follow the first line equal to [marker]. *)
Fixpoint after (marker : string) (lines : list string) : list string :=
  match lines with
  | [] => []
  | line :: rest => if String.eqb line marker then rest else after marker rest
  end.

(** The lines of the release section that carry the key [key] at the
    level of the release. *)
Definition field_lines (key : string) (lines : list string) : list string :=
  List.filter (Py.startswith ("  " +:+ key +:+ ":")) (after "release:" lines).

(** The keys of the metadata dictionary whose value is not empty. *)
Definition present_fields (metadata : metadata) : list string :=
  let present (key value : string) : list string :=
    if Py.truthy value then [key] else [] in
  present "name" (md_name metadata)
  ++ present "version" (md_version metadata)
  ++ present "producer" (md_producer metadata)
  ++ present "type" (md_type metadata)
  ++ present "architecture" (md_architecture metadata)
  ++ present "date" (md_date metadata)
  ++ present "origin" (md_origin metadata)
  ++ present "huggingface" (default "" (md_huggingface metadata))
  ++ present "repository" (default "" (md_repository metadata))
  ++ match md_repository_confidence metadata with
     | Some _ => ["repository_confidence"]
     | None => []
     end.

(** The license entry of a component: the quoted license, or the bare
    token. *)
Definition quoted_license (s : string) : string := "      license: '" +:+ s +:+ "'".
Definition bare_unlicensed : string := "      license: unlicensed".

Definition newline_char : ascii := ascii_of_nat 10.

(** The lines of a text. *)
Definition text_lines (text : string) : list string := Py.split newline_char text.

Definition no_newline (s : string) : Prop :=
  Py.contains (String newline_char "") s = false.

Definition license_strings (v : license_value) : list string :=
  match v with
  | LicenseNone => []
  | LicenseStr s => [s]
  | LicenseList l => l
  end.

(** No value written to the draft has a line break. *)
Definition newline_free (metadata : metadata) (components : list component) : Prop :=
  Forall no_newline
    [ md_name metadata; md_version metadata; md_date metadata; md_type metadata;
      md_architecture metadata; md_origin metadata; md_producer metadata;
      default "" (md_repository metadata); default "" (md_huggingface metadata) ] /\
  Forall (fun comp =>
            no_newline (name comp) /\ no_newline (description comp) /\
            Forall no_newline (license_strings (license comp)))
         components.

(** The string that decides the license entry of a component: the license
    itself, the first license of a list ([unlicensed] for the empty
    list), and the empty string for [None]. *)
Definition effective_license (v : license_value) : string :=
  default "" (first_license v).

(** The license entry of a component. *)
Definition license_line (comp : component) : string :=
  let s := effective_license (license comp) in
  if (Py.truthy s && negb (String.eqb s "unlicensed"))%bool
  then quoted_license s else bare_unlicensed.

(** The claim that every non-empty field has exactly one line. *)
Definition every_present_field_has_one_line (metadata : metadata)
  (components : list component) : Prop :=
  forall key, In key (present_fields metadata) ->
    length (field_lines key (text_lines (_format_yaml_mot_style metadata components)))
    = 1%nat.

End YamlLayout.

(** ** Concrete inputs *)

Module Examples.
Import MissingModelsFinder ModelScraper.

(** Two registry files for the same model. *)
Definition llama_release : release :=
  {| rel_name := Some "Llama-2-7B"; rel_origin := None; rel_huggingface := None |}.

Definition two_llama_files : list yaml_file :=
  [ {| yf_stem := "Llama-2-7B"; yf_name := "Llama-2-7B.yml";
       yf_doc := YamlRelease llama_release |};
    {| yf_stem := "Llama-2-7B-copy"; yf_name := "Llama-2-7B-copy.yml";
       yf_doc := YamlRelease llama_release |} ].

Definition llama_record : mot_data :=
  {| mot_name := "Llama-2-7B"; mot_origin := ""; mot_huggingface := "";
     mot_identifiers := release_identifiers "Llama-2-7B" "" "";
     mot_file := "Llama-2-7B.yml" |}.

Definition llama_copy_record : mot_data :=
  {| mot_name := "Llama-2-7B"; mot_origin := ""; mot_huggingface := "";
     mot_identifiers := release_identifiers "Llama-2-7B" "" "";
     mot_file := "Llama-2-7B-copy.yml" |}.

Definition remote_llama : hf_model :=
  {| hf_id := Some "meta-llama/Llama-2-7B"; hf_downloads := None; hf_tags := None |}.

Definition remote_llama3 : hf_model :=
  {| hf_id := Some "meta-llama/Llama-3-8B"; hf_downloads := None; hf_tags := None |}.

(** Models with equal download counts. *)
Definition tied_models : list hf_model :=
  [ {| hf_id := Some "a/low"; hf_downloads := Some 150000; hf_tags := Some ["text-to-image"] |};
    {| hf_id := Some "b/top"; hf_downloads := Some 900000; hf_tags := Some [] |};
    {| hf_id := Some "c/low"; hf_downloads := Some 150000; hf_tags := Some ["text-generation"] |};
    {| hf_id := Some "d/mid"; hf_downloads := Some 20000; hf_tags := Some ["text-generation"] |} ].

(** A listing at the two thresholds. *)
Definition boundary_models : list hf_model :=
  [ {| hf_id := Some "x/high"; hf_downloads := Some 100000; hf_tags := None |};
    {| hf_id := Some "x/medium"; hf_downloads := Some 10000; hf_tags := None |};
    {| hf_id := Some "x/low"; hf_downloads := Some 9999; hf_tags := None |} ].

(** A session in which every request fails. *)
Definition offline : session :=
  {| get_info := fun _ => RequestException;
     get_text := fun _ => RequestException;
     get_tree := fun _ => RequestException;
     head := fun _ => RequestException |}.

Definition apache_info : model_info :=
  {| mi_cardData := Some {| cd_license := Some (LicenseStr "apache-2.0") |};
     mi_tags := Some ["transformers"; "text-generation"];
     mi_lastModified := Some "2024-01-02T10:00:00.000Z" |}.

(** A session that serves the model info, and neither the card nor the
    file tree. *)
Definition info_only : session :=
  {| get_info := fun _ => Response 200 apache_info;
     get_text := fun _ => Response 404 "Not Found";
     get_tree := fun _ => RequestException;
     head := fun _ => RequestException |}.

(** A session whose model-info endpoint answers 404. *)
Definition info_missing : session :=
  {| get_info := fun _ => Response 404 empty_model_info;
     get_text := fun _ => Response 200 "# Card";
     get_tree := fun _ => Response 200 [ {| te_path := "config.json" |} ];
     head := fun _ => RequestException |}.

Definition models_path (model_name : string) : string :=
  "../models/" +:+ model_name +:+ ".yml".

Definition scraped_with (info : model_info) (card : string) (files : list string)
  : scraped_data :=
  {| sd_model_id := Some "org/model";
     sd_model_info := Some info;
     sd_model_card := Some card;
     sd_repo_files := Some files;
     sd_confidence := Some [] |}.

(** Scraped data with a license field and a LICENSE file. *)
Definition apache_with_license_file : scraped_data :=
  scraped_with apache_info "" ["LICENSE"; "model.bin"].

(** Scraped data with a LICENSE file and no license field. *)
Definition license_file_only : scraped_data :=
  scraped_with empty_model_info "" ["LICENSE"; "LICENSE.md"; "model.bin"].

(** Scraped data whose license field is the sentinel. *)
Definition other_license : scraped_data :=
  scraped_with
    {| mi_cardData := Some {| cd_license := Some (LicenseStr "other") |};
       mi_tags := None; mi_lastModified := None |}
    "" ["LICENSE"; "model.bin"; "config.json"].

Definition safetensors_only : scraped_data :=
  scraped_with empty_model_info "" ["model.safetensors"; "config.json"].

Definition safetensors_with_readme : scraped_data :=
  scraped_with empty_model_info "" ["model.safetensors"; "config.json"; "README.md"].

Definition safetensors_with_modeling_notes : scraped_data :=
  scraped_with empty_model_info ""
    ["model.safetensors"; "config.json"; "modeling_notes.txt"].

(** Descriptions that name an encoder. *)
Definition encoder_only : scraped_data :=
  scraped_with empty_model_info "A Transformer encoder for sentence embeddings." [].

Definition encoder_decoder : scraped_data :=
  scraped_with empty_model_info "An encoder-decoder Transformer for translation." [].

Definition plain_transformer : scraped_data :=
  scraped_with empty_model_info "A small Transformer." [].

(** A description with a link to a repository. *)
Definition linked : scraped_data :=
  scraped_with apache_info "Code: https://github.com/org/training-code" ["model.bin"].

Definition linked_metadata : metadata :=
  _extract_model_metadata offline "2024-06-01" linked.

End Examples.

(** ** Vocabulary of the listing and the registry *)

Module ListingSpec.
Import MissingModelsFinder.

(** The threshold test of the listing. *)
Definition keeps (min_downloads : Z) (model : hf_model) : bool :=
  min_downloads <=? downloads_of model.

(** The batch of a page after which the loop goes on: the request
    succeeds, the status is no error and the batch is not empty. *)
Definition page_batch (r : page_result) : option (list hf_model) :=
  match r with
  | PageError => None
  | Page status_code batch =>
      if raises_for_status status_code then None
      else match batch with [] => None | _ => Some batch end
  end.

(** The models of the [k] pages from [page] on, in order. *)
Fixpoint batches_from (listing : nat -> page_result) (page k : nat) : list hf_model :=
  match k with
  | O => []
  | S k' => default [] (page_batch (listing page)) ++ batches_from listing (S page) k'
  end.

(** The entry loaded for a registry file, when it has a release. *)
Definition loaded_entry (f : yaml_file) : option (string * mot_data) :=
  match yf_doc f with
  | YamlRelease r =>
      let model_name := get_str (rel_name r) in
      let origin := get_str (rel_origin r) in
      let huggingface := get_str (rel_huggingface r) in
      Some (yf_stem f,
            {| mot_name := model_name;
               mot_origin := origin;
               mot_huggingface := huggingface;
               mot_identifiers := release_identifiers model_name origin huggingface;
               mot_file := yf_name f |})
  | _ => None
  end.

(** The entries of the files that have a release, in order. *)
Fixpoint loaded_entries (files : list yaml_file) : list (string * mot_data) :=
  match files with
  | [] => []
  | f :: rest =>
      match loaded_entry f with
      | Some e => e :: loaded_entries rest
      | None => loaded_entries rest
      end
  end.

(** No record of the mapping shares a variant with the identifier. *)
Definition no_match (model_id : string) (mot_models : list (string * mot_data)) : Prop :=
  Forall (fun e => normalize_model_id model_id ∩ mot_identifiers (snd e) = ∅) mot_models.

(** What holds of the list accumulated by the loop. *)
Definition fetched_ok (listing : nat -> page_result) (min_downloads limit : Z)
  (models : list hf_model) : Prop :=
  Forall (fun m => min_downloads <= downloads_of m) models /\
  Z.of_nat (length models) <= Z.max 0 limit /\
  Forall (fun m => exists page status_code batch,
            listing page = Page status_code batch /\
            raises_for_status status_code = false /\ In m batch) models.


End ListingSpec.

(** ** Vocabulary of the detectors *)

Module DetectorSpec.
Import ModelScraper ScraperSpec.

(** The tests of the nine detectors. *)
Definition has_parameters (scraped_data : scraped_data) : bool :=
  any_str (fun f => existsb (fun suffix => Py.endswith suffix f)
                      [".bin"; ".safetensors"; ".pt"; ".pth"; ".ckpt"])
    (repo_files_of scraped_data).

Definition has_config (scraped_data : scraped_data) : bool :=
  existsb (fun f => in_list f (repo_files_of scraped_data))
    ["config.json"; "model_config.json"; "configuration.json"].

Definition has_architecture (scraped_data : scraped_data) : bool :=
  (any_str (fun f => Py.endswith ".py" f) (repo_files_of scraped_data)
   || Py.contains "modeling" (Py.join " " (repo_files_of scraped_data)))%bool.

Definition has_inference (scraped_data : scraped_data) : bool :=
  any_str (fun f => (Py.contains "inference" (Py.lower f)
                     || Py.contains "generate" (Py.lower f))%bool)
    (repo_files_of scraped_data).

Definition has_card (scraped_data : scraped_data) : bool :=
  (in_list "README.md" (repo_files_of scraped_data)
   || Py.truthy (Py.lower (model_card_of scraped_data)))%bool.

Definition mentions (keywords : list string) (scraped_data : scraped_data) : bool :=
  existsb (fun keyword => Py.contains keyword (Py.lower (model_card_of scraped_data)))
    keywords.

(** The candidates other than the two of the weights and the
    configuration. *)
Definition architecture_component (scraped_data : scraped_data) : component :=
  {| name := "Model architecture";
     description := "Well commented code for the model's architecture";
     license := _detect_license scraped_data;
     confidence := 85 # 100;
     location := "HuggingFace repository" |}.

Definition inference_component (scraped_data : scraped_data) : component :=
  {| name := "Inference code";
     description := "Code used for running the model to make predictions";
     license := _detect_license scraped_data;
     confidence := 80 # 100;
     location := "HuggingFace repository" |}.

Definition card_component (scraped_data : scraped_data) : component :=
  {| name := "Model card";
     description :=
       "Model details including performance metrics, intended use, and limitations";
     license := _detect_license scraped_data;
     confidence := 95 # 100;
     location := "HuggingFace repository" |}.

Definition report_component : component :=
  {| name := "Technical report";
     description :=
       "Technical report detailing capabilities and usage instructions for the model";
     license := LicenseStr "unlicensed";
     confidence := 60 # 100;
     location := "Referenced in model card" |}.

Definition paper_component : component :=
  {| name := "Research paper";
     description :=
       "Research paper detailing the development and capabilities of the model";
     license := LicenseStr "unlicensed";
     confidence := 70 # 100;
     location := "Referenced in model card" |}.

Definition evaluation_component : component :=
  {| name := "Evaluation results";
     description := "The results from evaluating the model";
     license := LicenseStr "unlicensed";
     confidence := 75 # 100;
     location := "Model card" |}.

Definition dataset_component : component :=
  {| name := "Training dataset";
     description := "The dataset used to train the model";
     license := LicenseStr "unlicensed";
     confidence := 50 # 100;
     location := "Referenced in model card" |}.

(** The nine detectors in the order they run: the test and the
    candidate. *)
Definition detectors (scraped_data : scraped_data) : list (bool * component) :=
  [ (has_parameters scraped_data, parameters_component scraped_data);
    (has_config scraped_data, metadata_component scraped_data);
    (has_architecture scraped_data, architecture_component scraped_data);
    (has_inference scraped_data, inference_component scraped_data);
    (has_card scraped_data, card_component scraped_data);
    (mentions ["technical report"; "tech report"; "documentation"] scraped_data,
     report_component);
    (mentions ["paper"; "arxiv"; "publication"] scraped_data, paper_component);
    (mentions ["evaluation"; "benchmark"; "performance"; "results"] scraped_data,
     evaluation_component);
    (mentions ["training data"; "trained on"; "dataset"] scraped_data,
     dataset_component) ].

Definition component_names : list string :=
  [ "Model parameters (Final)"; "Model metadata"; "Model architecture";
    "Inference code"; "Model card"; "Technical report"; "Research paper";
    "Evaluation results"; "Training dataset" ].

End DetectorSpec.

(** ** Vocabulary of the repository links *)

Module RepositorySpec.
Import ModelScraper Occurs.

(** The shape of a link found in a text. *)
Definition is_link (text url : string) : Prop :=
  exists owner repo,
    url = github_prefix +:+ owner +:+ "/" +:+ repo /\
    owner <> "" /\ repo <> "" /\ occurs url text.

End RepositorySpec.

(** ** Vocabulary of the metadata *)

Module MetadataSpec.
Import ModelScraper.

(** Some character of the string is a digit. *)
Fixpoint has_digit (s : string) : bool :=
  match s with
  | EmptyString => false
  | String c s' => (Py.is_digit c || has_digit s')%bool
  end.

(** The tag is a key of the type table. *)
Definition typed_tag (tag : string) : bool :=
  match Dict.get tag type_mapping with Some _ => true | None => false end.

(** The tags of the model-info blob. *)
Definition tags_of_info (scraped_data : scraped_data) : list string :=
  default [] (mi_tags (model_info_of scraped_data)).

Definition last_modified_of (scraped_data : scraped_data) : string :=
  default "" (mi_lastModified (model_info_of scraped_data)).

End MetadataSpec.

(** ** Further inputs *)

Module Scenarios.
Import MissingModelsFinder ModelScraper Examples.

Definition remote (id : string) (downloads : Z) : hf_model :=
  {| hf_id := Some id; hf_downloads := Some downloads; hf_tags := None |}.

(** A listing of one page, with models above and below a threshold of
    10,000 downloads; every later page is empty. *)
Definition first_page : list hf_model :=
  [ remote "org/popular" 500000; remote "org/known" 50000; remote "org/rare" 5000 ].

Definition one_page (page : nat) : page_result :=
  match page with
  | O => Page 200 first_page
  | S _ => Page 200 []
  end.

(** A registry directory with a release, a file that cannot be read and a
    file without release. *)
Definition mixed_files : list yaml_file :=
  [ {| yf_stem := "Llama-2-7B"; yf_name := "Llama-2-7B.yml";
       yf_doc := YamlRelease llama_release |};
    {| yf_stem := "broken"; yf_name := "broken.yml"; yf_doc := YamlError |};
    {| yf_stem := "notes"; yf_name := "notes.yml"; yf_doc := YamlNoRelease |} ].


Definition mirrored_llama : hf_model :=
  {| hf_id := Some "mirror/llama_2_7b"; hf_downloads := None; hf_tags := None |}.

(** A session in which every probe of a repository address succeeds. *)
Definition all_found : session :=
  {| get_info := fun _ => RequestException;
     get_text := fun _ => RequestException;
     get_tree := fun _ => RequestException;
     head := fun _ => Response 200 tt |}.

(** A registry file that is tied to its model by the hub link only. *)
Definition mistral_release : release :=
  {| rel_name := Some "Mistral 7B"; rel_origin := None;
     rel_huggingface := Some "https://huggingface.co/mistralai/Mistral-7B-v0.1" |}.

Definition mistral_file : yaml_file :=
  {| yf_stem := "mistral"; yf_name := "mistral.yml"; yf_doc := YamlRelease mistral_release |}.

Definition mistral_record : mot_data :=
  {| mot_name := "Mistral 7B"; mot_origin := "";
     mot_huggingface := "https://huggingface.co/mistralai/Mistral-7B-v0.1";
     mot_identifiers :=
       release_identifiers "Mistral 7B" ""
         "https://huggingface.co/mistralai/Mistral-7B-v0.1";
     mot_file := "mistral.yml" |}.

Definition shouting_mistral : hf_model :=
  {| hf_id := Some "MistralAI/MISTRAL-7B-v0.1"; hf_downloads := None; hf_tags := None |}.

End Scenarios.

(** * Properties *)

(** ** Facts about the string primitives *)

Module PyFacts.

Lemma rev_app_rev_app (s t u : string) :
  String.rev_app (String.rev_app s t) u = String.rev_app t (s +:+ u).
Proof.
  revert t u. induction s as [|c s IH]; intros t u; simpl; [reflexivity|].
  rewrite IH. reflexivity.
Qed.

Lemma append_empty_r (s : string) : s +:+ "" = s.
Proof.
  induction s as [|c s IH]; [reflexivity|].
  change (String c s +:+ "") with (String c (s +:+ "")). now rewrite IH.
Qed.

Lemma rev_rev_app (cur s : string) :
  String.rev (String.rev_app s cur) = String.rev_app cur s.
Proof. unfold String.rev. rewrite rev_app_rev_app. now rewrite append_empty_r. Qed.

Lemma contains_char_cons (sep c : ascii) (s : string) :
  Py.contains (String sep "") (String c s)
  = if Ascii.eqb sep c then true else Py.contains (String sep "") s.
Proof. simpl. destruct (Ascii.eqb sep c); reflexivity. Qed.

Lemma contains_char_app_r (sep : ascii) (a b : string) :
  Py.contains (String sep "") (a +:+ String sep b) = true.
Proof.
  induction a as [|c a IH].
  - simpl. now rewrite Ascii.eqb_refl.
  - change (String c a +:+ String sep b) with (String c (a +:+ String sep b)).
    rewrite contains_char_cons, IH. now destruct (Ascii.eqb sep c).
Qed.

(** Splitting a string that has no separator gives the string itself. *)
Lemma split_go_no_sep (sep : ascii) (s cur : string) :
  Py.contains (String sep "") s = false ->
  Py.split_go sep cur s = [String.rev_app cur s].
Proof.
  revert cur. induction s as [|c s IH]; intros cur H.
  - reflexivity.
  - rewrite contains_char_cons in H.
    destruct (Ascii.eqb sep c) eqn:E; [discriminate|].
    simpl. rewrite Ascii.eqb_sym, E. rewrite (IH _ H). reflexivity.
Qed.

Lemma split_go_nonempty (sep : ascii) (s cur : string) : Py.split_go sep cur s <> [].
Proof.
  revert cur. induction s as [|c s IH]; intros cur; simpl; [discriminate|].
  destruct (Ascii.eqb c sep); [discriminate|apply IH].
Qed.

(** The last field of [a + sep + b] is [b] when [b] has no separator. *)
Lemma last_split_go (sep : ascii) (a b cur : string) :
  Py.contains (String sep "") b = false ->
  Py.last (Py.split_go sep cur (a +:+ String sep b)) = b.
Proof.
  intros Hb. revert cur. induction a as [|c a IH]; intros cur.
  - simpl. rewrite Ascii.eqb_refl. rewrite (split_go_no_sep _ _ _ Hb). reflexivity.
  - change (String c a +:+ String sep b) with (String c (a +:+ String sep b)).
    simpl Py.split_go. destruct (Ascii.eqb c sep).
    + specialize (IH ""). unfold Py.last in *.
      destruct (Py.split_go sep "" (a +:+ String sep b)) eqn:E.
      * now apply split_go_nonempty in E.
      * exact IH.
    + apply IH.
Qed.

Lemma last_split (sep : ascii) (a b : string) :
  Py.contains (String sep "") b = false ->
  Py.last (Py.split sep (a +:+ String sep b)) = b.
Proof. apply last_split_go. Qed.

(** A string with a separator ends in a last field without separator. *)
Lemma last_segment (sep : ascii) (s : string) :
  Py.contains (String sep "") s = true ->
  exists a b, s = a +:+ String sep b /\ Py.contains (String sep "") b = false.
Proof.
  induction s as [|c s IH]; intros H; [discriminate|].
  destruct (Py.contains (String sep "") s) eqn:Hs.
  - destruct (IH eq_refl) as (a & b & -> & Hb).
    exists (String c a), b. split; [reflexivity|exact Hb].
  - rewrite contains_char_cons, Hs in H.
    destruct (Ascii.eqb sep c) eqn:E; [|discriminate].
    apply Ascii.eqb_eq in E. subst c.
    exists "", s. split; [reflexivity|exact Hs].
Qed.

End PyFacts.

(** ** The identifier matcher *)

Module FinderFacts.
Import MissingModelsFinder Examples.

(** The variants of an identifier given by its two parts. *)
Lemma normalize_model_id_of_parts (org name : string) :
  Py.contains "/" name = false ->
  let model_id := org +:+ "/" +:+ name in
  Py.last (Py.split "/" model_id) = name /\
  Py.lower model_id ∈ normalize_model_id model_id /\
  Py.lower name ∈ normalize_model_id model_id /\
  Py.replace "-" "_" (Py.lower model_id) ∈ normalize_model_id model_id /\
  Py.replace "_" "-" (Py.lower model_id) ∈ normalize_model_id model_id /\
  Py.replace "-" "_" (Py.lower name) ∈ normalize_model_id model_id /\
  Py.replace "_" "-" (Py.lower name) ∈ normalize_model_id model_id.
Proof.
  intros Hname model_id.
  assert (Hc : Py.contains "/" model_id = true)
    by apply PyFacts.contains_char_app_r.
  assert (Hl : Py.last (Py.split "/" model_id) = name)
    by (apply PyFacts.last_split; exact Hname).
  split; [exact Hl|].
  unfold normalize_model_id. rewrite Hc, Hl.
  repeat split; set_solver.
Qed.

(** C2: an identifier that contains the organization separator is
    [org/name] for a trailing segment [name] without separator, and its
    variant set holds the lower-cased identifier, the lower-cased trailing
    segment, and the two hyphen and underscore swaps of each. *)
Theorem normalize_model_id_variants (model_id : string) :
  Py.contains "/" model_id = true ->
  exists org name,
    model_id = org +:+ "/" +:+ name /\
    Py.contains "/" name = false /\
    Py.last (Py.split "/" model_id) = name /\
    Py.lower model_id ∈ normalize_model_id model_id /\
    Py.lower name ∈ normalize_model_id model_id /\
    Py.replace "-" "_" (Py.lower model_id) ∈ normalize_model_id model_id /\
    Py.replace "_" "-" (Py.lower model_id) ∈ normalize_model_id model_id /\
    Py.replace "-" "_" (Py.lower name) ∈ normalize_model_id model_id /\
    Py.replace "_" "-" (Py.lower name) ∈ normalize_model_id model_id.
Proof.
  intros H. destruct (PyFacts.last_segment "/" model_id H) as (org & name & -> & Hname).
  exists org, name. split; [reflexivity|]. split; [exact Hname|].
  apply normalize_model_id_of_parts. exact Hname.
Qed.

(** C2 at a concrete identifier. *)
Lemma normalize_model_id_variants_witness :
  Py.contains "/" "meta-llama/Llama_2-7B" = true /\
  "meta-llama/llama_2-7b" ∈ normalize_model_id "meta-llama/Llama_2-7B" /\
  "llama_2-7b" ∈ normalize_model_id "meta-llama/Llama_2-7B" /\
  "meta_llama/llama_2_7b" ∈ normalize_model_id "meta-llama/Llama_2-7B" /\
  "meta-llama/llama-2-7b" ∈ normalize_model_id "meta-llama/Llama_2-7B" /\
  "llama_2_7b" ∈ normalize_model_id "meta-llama/Llama_2-7B" /\
  "llama-2-7b" ∈ normalize_model_id "meta-llama/Llama_2-7B".
Proof.
  split; [reflexivity|].
  destruct (normalize_model_id_variants "meta-llama/Llama_2-7B" eq_refl)
    as (org & name & _ & _ & Hlast & H1 & H2 & H3 & H4 & H5 & H6).
  vm_compute in Hlast. subst name.
  exact (conj H1 (conj H2 (conj H3 (conj H4 (conj H5 H6))))).
Defined.

Lemma intersects_true (a b : gset string) : intersects a b = true <-> a ∩ b ≠ ∅.
Proof. unfold intersects. apply bool_decide_eq_true. Qed.

Lemma intersects_false (a b : gset string) : intersects a b = false <-> a ∩ b = ∅.
Proof.
  unfold intersects. rewrite bool_decide_eq_false.
  split; [|tauto]. intros H. destruct (decide (a ∩ b = ∅)); tauto.
Qed.

(** The loop returns at the first record whose identifiers intersect. *)
Lemma first_match_split (variations : gset string) (before after : list (string * mot_data))
    (stem : string) (R : mot_data) :
  Forall (fun e => variations ∩ mot_identifiers (snd e) = ∅) before ->
  variations ∩ mot_identifiers R ≠ ∅ ->
  first_match variations (before ++ (stem, R) :: after) = (true, mot_file R).
Proof.
  intros Hb HR. induction Hb as [|[k d] before Hd _ IH]; simpl.
  - apply intersects_true in HR. now rewrite HR.
  - apply intersects_false in Hd. simpl in Hd. now rewrite Hd.
Qed.

(** A record that intersects is preceded by a first one that does. *)
Lemma first_intersecting (variations : gset string) (mot_models : list (string * mot_data))
    (stem : string) (R : mot_data) :
  In (stem, R) mot_models ->
  variations ∩ mot_identifiers R ≠ ∅ ->
  exists before stem' R' after,
    mot_models = before ++ (stem', R') :: after /\
    Forall (fun e => variations ∩ mot_identifiers (snd e) = ∅) before /\
    variations ∩ mot_identifiers R' ≠ ∅.
Proof.
  induction mot_models as [|[k d] rest IH]; intros Hin HR; [destruct Hin|].
  destruct (decide (variations ∩ mot_identifiers d = ∅)) as [He|Hne].
  - destruct Hin as [Heq|Hin].
    + inversion Heq; subst. contradiction.
    + destruct (IH Hin HR) as (before & stem' & R' & after & -> & Hb & HR').
      exists ((k, d) :: before), stem', R', after.
      split; [reflexivity|]. split; [constructor; assumption|assumption].
  - exists [], k, d, rest. split; [reflexivity|]. split; [constructor|assumption].
Qed.

(** C1 (as amended): when the variant set of a remote identifier
    intersects the identifier set of a record of the registry mapping, the
    matcher reports the model as present and names the source file of the
    first record, in the iteration order of the mapping, whose identifier
    set intersects the variant set; that file is the record's own whenever
    no record before it intersects. *)
Theorem is_model_in_mot_first_match (mot_models : list (string * mot_data))
    (stem : string) (R : mot_data) (I : string) (hf_model : hf_model) :
  hf_id hf_model = Some I ->
  In (stem, R) mot_models ->
  normalize_model_id I ∩ mot_identifiers R ≠ ∅ ->
  (exists before stem' R' after,
     mot_models = before ++ (stem', R') :: after /\
     Forall (fun e => normalize_model_id I ∩ mot_identifiers (snd e) = ∅) before /\
     normalize_model_id I ∩ mot_identifiers R' ≠ ∅ /\
     is_model_in_mot hf_model mot_models = (true, mot_file R')) /\
  (forall before after,
     mot_models = before ++ (stem, R) :: after ->
     Forall (fun e => normalize_model_id I ∩ mot_identifiers (snd e) = ∅) before ->
     is_model_in_mot hf_model mot_models = (true, mot_file R)).
Proof.
  intros Hid Hin HR. unfold is_model_in_mot. rewrite Hid. simpl.
  split.
  - destruct (first_intersecting _ _ _ _ Hin HR)
      as (before & stem' & R' & after & -> & Hb & HR').
    exists before, stem', R', after.
    repeat split; try assumption. now apply first_match_split.
  - intros before after -> Hb. now apply first_match_split.
Qed.

(** C1 fails as stated: with two registry files for the same model, the
    second record intersects the variant set, yet the matcher names the
    first file. *)
Lemma is_model_in_mot_names_first_file :
  In ("Llama-2-7B-copy", llama_copy_record) (get_mot_models (Some two_llama_files)) /\
  normalize_model_id "meta-llama/Llama-2-7B" ∩ mot_identifiers llama_copy_record ≠ ∅ /\
  is_model_in_mot remote_llama (get_mot_models (Some two_llama_files))
    = (true, "Llama-2-7B.yml") /\
  is_model_in_mot remote_llama (get_mot_models (Some two_llama_files))
    <> (true, mot_file llama_copy_record).
Proof.
  split; [right; left; vm_compute; reflexivity|].
  split; [apply intersects_true; vm_compute; reflexivity|].
  split; [vm_compute; reflexivity|].
  vm_compute. discriminate.
Qed.

(** C1 at the same registry: the first record intersects and its file is
    named. *)
Lemma is_model_in_mot_first_match_witness :
  In ("Llama-2-7B", llama_record) (get_mot_models (Some two_llama_files)) /\
  normalize_model_id "meta-llama/Llama-2-7B" ∩ mot_identifiers llama_record ≠ ∅ /\
  is_model_in_mot remote_llama (get_mot_models (Some two_llama_files))
    = (true, "Llama-2-7B.yml").
Proof.
  assert (Hin : In ("Llama-2-7B", llama_record) (get_mot_models (Some two_llama_files)))
    by (left; vm_compute; reflexivity).
  assert (Hx : normalize_model_id "meta-llama/Llama-2-7B"
                 ∩ mot_identifiers llama_record ≠ ∅)
    by (apply intersects_true; vm_compute; reflexivity).
  split; [exact Hin|]. split; [exact Hx|].
  destruct (is_model_in_mot_first_match (get_mot_models (Some two_llama_files))
              "Llama-2-7B" llama_record "meta-llama/Llama-2-7B" remote_llama
              eq_refl Hin Hx) as [_ H].
  apply (H [] [("Llama-2-7B-copy", llama_copy_record)]).
  - vm_compute. reflexivity.
  - constructor.
Defined.

End FinderFacts.

(** ** Insertion-ordered dictionaries *)

Module DictFacts.
Section DictFacts.
Context {V : Type}.
Implicit Types (d : list (string * V)) (k : string) (v : V).

Lemma get_tabulate (f : string -> V) ks k :
  Dict.get k (Dict.tabulate f ks)
  = if MissingModelsFinder.in_list k ks then Some (f k) else None.
Proof.
  induction ks as [|k' ks IH]; simpl; [reflexivity|].
  rewrite String.eqb_sym.
  destruct (String.eqb k k') eqn:E; simpl; [|exact IH].
  apply String.eqb_eq in E. now subst.
Qed.

Lemma in_list_In k (ks : list string) :
  MissingModelsFinder.in_list k ks = true <-> In k ks.
Proof.
  unfold MissingModelsFinder.in_list. rewrite existsb_exists. split.
  - intros (y & Hy & E). apply String.eqb_eq in E. now subst.
  - intros H. exists k. split; [assumption|apply String.eqb_refl].
Qed.

Lemma in_list_notin k (ks : list string) :
  MissingModelsFinder.in_list k ks = false <-> ~ In k ks.
Proof.
  rewrite <- in_list_In. destruct (MissingModelsFinder.in_list k ks); split; congruence.
Qed.

Lemma set_tabulate_fresh (f : string -> V) ks k v :
  ~ In k ks -> Dict.set k v (Dict.tabulate f ks) = Dict.tabulate f ks ++ [(k, v)].
Proof.
  induction ks as [|k' ks IH]; intros H; simpl; [reflexivity|].
  destruct (String.eqb k' k) eqn:E.
  - apply String.eqb_eq in E. subst. exfalso. apply H. now left.
  - f_equal. apply IH. intros Hin. apply H. now right.
Qed.

Lemma set_snoc_same d k v w :
  ~ In k (Dict.keys d) -> Dict.set k v (d ++ [(k, w)]) = d ++ [(k, v)].
Proof.
  induction d as [|[k' v'] d IH]; intros H; simpl.
  - now rewrite String.eqb_refl.
  - destruct (String.eqb k' k) eqn:E.
    + apply String.eqb_eq in E. subst. exfalso. apply H. now left.
    + f_equal. apply IH. intros Hin. apply H. now right.
Qed.

Lemma get_snoc_same d k w :
  ~ In k (Dict.keys d) -> Dict.get k (d ++ [(k, w)]) = Some w.
Proof.
  induction d as [|[k' v'] d IH]; intros H; simpl.
  - now rewrite String.eqb_refl.
  - destruct (String.eqb k' k) eqn:E.
    + apply String.eqb_eq in E. subst. exfalso. apply H. now left.
    + apply IH. intros Hin. apply H. now right.
Qed.

Lemma keys_tabulate (f : string -> V) ks : Dict.keys (Dict.tabulate f ks) = ks.
Proof.
  unfold Dict.keys, Dict.tabulate. rewrite List.map_map. simpl. apply List.map_id.
Qed.

Lemma set_tabulate_present (f : string -> V) ks k v :
  In k ks -> List.NoDup ks ->
  Dict.set k v (Dict.tabulate f ks)
  = map (fun k' => (k', if String.eqb k' k then v else f k')) ks.
Proof.
  induction ks as [|k' ks IH]; intros Hin Hnd; [destruct Hin|].
  inversion Hnd as [|? ? Hnotin Hnd']; subst. simpl.
  destruct (String.eqb k' k) eqn:E.
  - apply String.eqb_eq in E. subst k'. f_equal.
    apply List.map_ext_in. intros a Ha.
    destruct (String.eqb a k) eqn:E'; [|reflexivity].
    apply String.eqb_eq in E'. subst. contradiction.
  - f_equal. apply IH; [|assumption].
    destruct Hin as [->|Hin]; [|assumption].
    now rewrite String.eqb_refl in E.
Qed.

End DictFacts.
End DictFacts.

Module SpecFacts.
Import Spec.

Lemma first_occurrences_In (x : string) (l : list string) :
  In x (first_occurrences l) <-> In x l.
Proof.
  induction l as [|a l IH]; simpl; [tauto|].
  rewrite List.filter_In, IH.
  destruct (String.eqb x a) eqn:E.
  - apply String.eqb_eq in E. subst. simpl. tauto.
  - simpl. apply String.eqb_neq in E. split.
    + intros [H|[H _]]; [now left|now right].
    + intros [H|H]; [now left|right; tauto].
Qed.

Lemma first_occurrences_NoDup (l : list string) : List.NoDup (first_occurrences l).
Proof.
  induction l as [|a l IH]; simpl; constructor.
  - rewrite List.filter_In. intros [_ H]. now rewrite String.eqb_refl in H.
  - now apply List.NoDup_filter.
Qed.

Lemma first_occurrences_snoc (l : list string) (x : string) :
  first_occurrences (l ++ [x])
  = if MissingModelsFinder.in_list x l then first_occurrences l
    else first_occurrences l ++ [x].
Proof.
  induction l as [|a l IH]; [reflexivity|].
  change ((a :: l) ++ [x]) with (a :: (l ++ [x])).
  cbn [first_occurrences MissingModelsFinder.in_list existsb].
  fold (MissingModelsFinder.in_list x l). rewrite IH.
  destruct (String.eqb x a) eqn:E; simpl.
  - apply String.eqb_eq in E. subst a.
    destruct (MissingModelsFinder.in_list x l); [reflexivity|].
    rewrite List.filter_app. simpl. rewrite String.eqb_refl. simpl.
    now rewrite List.app_nil_r.
  - destruct (MissingModelsFinder.in_list x l); [reflexivity|].
    rewrite List.filter_app. simpl. rewrite E. reflexivity.
Qed.

End SpecFacts.

(** ** Bucketing of the missing models *)

Module CategorizeFacts.
Import MissingModelsFinder Spec.

Lemma categorize_snoc (l : list hf_model) (m : hf_model) :
  categorize_missing_models (l ++ [m])
  = categorize_step (categorize_missing_models l) m.
Proof. unfold categorize_missing_models. now rewrite List.fold_left_app. Qed.

Lemma step_high (c : Categories) (m : hf_model) :
  high_priority (categorize_step c m)
  = high_priority c ++ (if is_high m then [m] else []).
Proof.
  unfold categorize_step, is_high.
  destruct (100000 <=? downloads_of m); simpl; [reflexivity|].
  destruct (10000 <=? downloads_of m); simpl; now rewrite List.app_nil_r.
Qed.

Lemma step_medium (c : Categories) (m : hf_model) :
  medium_priority (categorize_step c m)
  = medium_priority c ++ (if is_medium m then [m] else []).
Proof.
  unfold categorize_step, is_medium.
  destruct (100000 <=? downloads_of m) eqn:H1; simpl.
  - assert ((downloads_of m <? 100000) = false) as -> by lia.
    rewrite andb_false_r. now rewrite List.app_nil_r.
  - assert ((downloads_of m <? 100000) = true) as -> by lia.
    rewrite andb_true_r.
    destruct (10000 <=? downloads_of m); simpl; [reflexivity|now rewrite List.app_nil_r].
Qed.

Lemma step_low (c : Categories) (m : hf_model) :
  low_priority (categorize_step c m)
  = low_priority c ++ (if is_low m then [m] else []).
Proof.
  unfold categorize_step, is_low.
  destruct (100000 <=? downloads_of m) eqn:H1; simpl.
  - assert ((downloads_of m <? 10000) = false) as -> by lia. now rewrite List.app_nil_r.
  - destruct (10000 <=? downloads_of m) eqn:H2; simpl.
    + assert ((downloads_of m <? 10000) = false) as -> by lia. now rewrite List.app_nil_r.
    + assert ((downloads_of m <? 10000) = true) as -> by lia. reflexivity.
Qed.

Lemma step_by_type (c : Categories) (m : hf_model) :
  by_type (categorize_step c m)
  = let model_type := model_type_of m in
    let types :=
      if negb (Dict.mem model_type (by_type c))
      then Dict.set model_type [] (by_type c) else by_type c in
    Dict.set model_type (default [] (Dict.get model_type types) ++ [m]) types.
Proof.
  unfold categorize_step.
  destruct (100000 <=? downloads_of m); [|destruct (10000 <=? downloads_of m)]; reflexivity.
Qed.

Lemma filter_snoc {A} (p : A -> bool) (l : list A) (x : A) :
  List.filter p (l ++ [x]) = List.filter p l ++ (if p x then [x] else []).
Proof. rewrite List.filter_app. simpl. now destruct (p x). Qed.

Lemma high_is_filter (l : list hf_model) :
  high_priority (categorize_missing_models l) = List.filter is_high l.
Proof.
  induction l as [|m l IH] using rev_ind; [reflexivity|].
  now rewrite categorize_snoc, step_high, IH, filter_snoc.
Qed.

Lemma medium_is_filter (l : list hf_model) :
  medium_priority (categorize_missing_models l) = List.filter is_medium l.
Proof.
  induction l as [|m l IH] using rev_ind; [reflexivity|].
  now rewrite categorize_snoc, step_medium, IH, filter_snoc.
Qed.

Lemma low_is_filter (l : list hf_model) :
  low_priority (categorize_missing_models l) = List.filter is_low l.
Proof.
  induction l as [|m l IH] using rev_ind; [reflexivity|].
  now rewrite categorize_snoc, step_low, IH, filter_snoc.
Qed.

(** Exactly one of the three priority tests holds. *)
Lemma priority_tests_exclusive (m : hf_model) :
  (is_high m = true /\ is_medium m = false /\ is_low m = false) \/
  (is_high m = false /\ is_medium m = true /\ is_low m = false) \/
  (is_high m = false /\ is_medium m = false /\ is_low m = true).
Proof. unfold is_high, is_medium, is_low. lia. Qed.

Lemma three_filters_permutation (l : list hf_model) :
  Permutation (List.filter is_high l ++ List.filter is_medium l ++ List.filter is_low l) l.
Proof.
  induction l as [|m l IH]; [constructor|]. simpl.
  destruct (priority_tests_exclusive m) as [(-> & -> & ->)|[(-> & -> & ->)|(-> & -> & ->)]].
  - simpl. now constructor.
  - simpl. rewrite <- Permutation_middle. now constructor.
  - simpl. rewrite List.app_assoc, <- Permutation_middle, <- List.app_assoc. now constructor.
Qed.

Lemma of_type_absent (l : list hf_model) (t : string) :
  ~ In t (map model_type_of l) -> of_type l t = [].
Proof.
  induction l as [|m l IH]; intros H; [reflexivity|].
  unfold of_type in *. simpl.
  destruct (String.eqb (model_type_of m) t) eqn:E.
  - apply String.eqb_eq in E. exfalso. apply H. now left.
  - apply IH. intros Hin. apply H. now right.
Qed.

Lemma by_type_is_tabulate (l : list hf_model) :
  by_type (categorize_missing_models l) = Dict.tabulate (of_type l) (types_of l).
Proof.
  induction l as [|m l IH] using rev_ind; [reflexivity|].
  rewrite categorize_snoc, step_by_type, IH. cbv zeta.
  set (t := model_type_of m).
  unfold types_of. rewrite List.map_app. simpl map.
  rewrite SpecFacts.first_occurrences_snoc. fold t. fold (types_of l).
  unfold Dict.mem. rewrite DictFacts.get_tabulate.
  assert (Hks : MissingModelsFinder.in_list t (types_of l)
                = MissingModelsFinder.in_list t (map model_type_of l)).
  { destruct (MissingModelsFinder.in_list t (map model_type_of l)) eqn:E.
    - apply DictFacts.in_list_In. apply SpecFacts.first_occurrences_In.
      now apply DictFacts.in_list_In.
    - apply DictFacts.in_list_notin. intros H. unfold types_of in H.
      apply -> SpecFacts.first_occurrences_In in H.
      apply DictFacts.in_list_notin in E. contradiction. }
  rewrite Hks.
  destruct (MissingModelsFinder.in_list t (map model_type_of l)) eqn:E; simpl negb; cbv iota.
  - rewrite DictFacts.get_tabulate, Hks. simpl default.
    rewrite DictFacts.set_tabulate_present.
    + unfold Dict.tabulate. apply List.map_ext. intros k.
      unfold of_type. rewrite filter_snoc. fold t.
      rewrite (String.eqb_sym t k).
      destruct (String.eqb k t) eqn:Ek.
      * apply String.eqb_eq in Ek. now subst k.
      * now rewrite List.app_nil_r.
    + apply SpecFacts.first_occurrences_In. now apply DictFacts.in_list_In.
    + apply SpecFacts.first_occurrences_NoDup.
  - assert (Hnot : ~ In t (types_of l)).
    { intros H. unfold types_of in H. apply -> SpecFacts.first_occurrences_In in H.
      apply DictFacts.in_list_notin in E. contradiction. }
    rewrite (DictFacts.set_tabulate_fresh _ _ _ _ Hnot).
    rewrite DictFacts.get_snoc_same by now rewrite DictFacts.keys_tabulate.
    rewrite DictFacts.set_snoc_same by now rewrite DictFacts.keys_tabulate.
    simpl default. unfold Dict.tabulate. rewrite List.map_app. simpl map.
    f_equal.
    + apply List.map_ext_in. intros k Hk. f_equal.
      unfold of_type. rewrite filter_snoc. fold t.
      destruct (String.eqb t k) eqn:Ek; [|now rewrite List.app_nil_r].
      apply String.eqb_eq in Ek. subst k. contradiction.
    + f_equal. f_equal. unfold of_type at 1. rewrite filter_snoc. fold t.
      rewrite String.eqb_refl. f_equal. symmetry.
      apply of_type_absent. now apply DictFacts.in_list_notin.
Qed.

Lemma of_type_In (l : list hf_model) (t : string) (m : hf_model) :
  In m (of_type l t) <-> In m l /\ model_type_of m = t.
Proof. unfold of_type. rewrite List.filter_In, String.eqb_eq. reflexivity. Qed.

Lemma In_tabulate {V} (f : string -> V) (ks : list string) (k : string) (v : V) :
  In (k, v) (Dict.tabulate f ks) <-> In k ks /\ v = f k.
Proof.
  unfold Dict.tabulate. rewrite List.in_map_iff. split.
  - intros (k' & E & H). inversion E; subst. tauto.
  - intros (H & ->). now exists k.
Qed.

(** Taking one key first and the others in order lists the same values. *)
Lemma flat_map_key_first {V} (f : string -> list V) (ks : list string) (t : string) :
  List.NoDup ks -> (~ In t ks -> f t = []) ->
  Permutation
    (f t ++ flat_map f (List.filter (fun y => negb (String.eqb y t)) ks))
    (flat_map f ks).
Proof.
  intros Hnd. induction Hnd as [|k ks Hk Hnd IH]; intros Ht.
  - simpl. rewrite Ht by tauto. constructor.
  - simpl. destruct (String.eqb k t) eqn:E; simpl.
    + apply String.eqb_eq in E. subst k.
      apply Permutation_app_head.
      assert (Hid : List.filter (fun y => negb (String.eqb y t)) ks = ks).
      { clear IH Ht Hnd. induction ks as [|a ks IH]; [reflexivity|]. simpl.
        destruct (String.eqb a t) eqn:Ea.
        - apply String.eqb_eq in Ea. subst. exfalso. apply Hk. now left.
        - simpl. f_equal. apply IH. intros H. apply Hk. now right. }
      now rewrite Hid.
    + rewrite Permutation_app_swap_app. apply Permutation_app_head.
      destruct (in_dec string_dec t ks) as [Hin|Hnin].
      * apply IH. intros H. contradiction.
      * apply IH. intros _. apply Ht. intros [->|H]; [|contradiction].
        now rewrite String.eqb_refl in E.
Qed.

Lemma flat_map_ext_In {A B} (f g : A -> list B) (l : list A) :
  (forall a, In a l -> f a = g a) -> flat_map f l = flat_map g l.
Proof.
  induction l as [|a l IH]; intros H; [reflexivity|]. simpl.
  rewrite (H a) by now left. f_equal. apply IH. intros b Hb. apply H. now right.
Qed.

Lemma type_lists_permutation (l : list hf_model) :
  Permutation (flat_map (of_type l) (types_of l)) l.
Proof.
  induction l as [|m l IH]; [constructor|].
  unfold types_of. simpl map. cbn [first_occurrences]. fold (types_of l).
  set (t := model_type_of m). cbn [flat_map].
  assert (Ht : of_type (m :: l) t = m :: of_type l t).
  { unfold of_type. simpl. fold t. now rewrite String.eqb_refl. }
  rewrite Ht. simpl. constructor.
  rewrite (flat_map_ext_In (of_type (m :: l)) (of_type l)).
  - rewrite flat_map_key_first; [exact IH|apply SpecFacts.first_occurrences_NoDup|].
    intros H. apply of_type_absent. intros Hin. apply H.
    now apply SpecFacts.first_occurrences_In.
  - intros k Hk. apply List.filter_In in Hk. destruct Hk as [_ Hk].
    unfold of_type. simpl. fold t. rewrite String.eqb_sym.
    now destruct (String.eqb k t).
Qed.

(** C3: every model goes to exactly one of the three priority lists, by
    its download count alone (100000 and above to high, 10000 to 99999 to
    medium, below 10000 to low, so that exactly 100000 is high and exactly
    10000 is medium), the three lists partition the input, and every model
    goes to exactly one type list. *)
Theorem categorize_missing_models_partition (missing_models : list hf_model) :
  let categories := categorize_missing_models missing_models in
  let high := high_priority categories in
  let medium := medium_priority categories in
  let low := low_priority categories in
  high = List.filter (fun m => 100000 <=? downloads_of m) missing_models /\
  medium = List.filter (fun m => (10000 <=? downloads_of m) && (downloads_of m <? 100000))
             missing_models /\
  low = List.filter (fun m => downloads_of m <? 10000) missing_models /\
  Permutation (high ++ medium ++ low) missing_models /\
  (forall m, In m missing_models ->
     (In m high /\ ~ In m medium /\ ~ In m low) \/
     (~ In m high /\ In m medium /\ ~ In m low) \/
     (~ In m high /\ ~ In m medium /\ In m low)) /\
  (forall m, In m missing_models -> downloads_of m = 100000 -> In m high) /\
  (forall m, In m missing_models -> downloads_of m = 10000 -> In m medium) /\
  by_type categories
    = map (fun t => (t, List.filter (fun m => String.eqb (model_type_of m) t) missing_models))
          (first_occurrences (map model_type_of missing_models)) /\
  List.NoDup (Dict.keys (by_type categories)) /\
  (forall m, In m missing_models ->
     exists ms, In (model_type_of m, ms) (by_type categories) /\ In m ms) /\
  (forall m t ms, In (t, ms) (by_type categories) -> In m ms ->
     In m missing_models /\ t = model_type_of m) /\
  Permutation (concat (Dict.values (by_type categories))) missing_models.
Proof.
  cbv zeta.
  rewrite high_is_filter, medium_is_filter, low_is_filter, by_type_is_tabulate.
  split; [reflexivity|]. split; [reflexivity|]. split; [reflexivity|].
  split; [apply three_filters_permutation|].
  split.
  { intros m Hm. rewrite !List.filter_In.
    destruct (priority_tests_exclusive m) as [(H1 & H2 & H3)|[(H1 & H2 & H3)|(H1 & H2 & H3)]];
      rewrite H1, H2, H3; [left|right; left|right; right];
      repeat split; try tauto; intros [_ H]; discriminate. }
  split.
  { intros m Hm Hd. apply List.filter_In. split; [assumption|]. unfold is_high. lia. }
  split.
  { intros m Hm Hd. apply List.filter_In. split; [assumption|]. unfold is_medium. lia. }
  split; [reflexivity|].
  split; [rewrite DictFacts.keys_tabulate; apply SpecFacts.first_occurrences_NoDup|].
  split.
  { intros m Hm. exists (of_type missing_models (model_type_of m)). split.
    - apply In_tabulate. split; [|reflexivity].
      apply SpecFacts.first_occurrences_In. now apply List.in_map.
    - now apply of_type_In. }
  split.
  { intros m t ms Hin Hm. apply In_tabulate in Hin. destruct Hin as [_ ->].
    apply of_type_In in Hm. destruct Hm as [Hm Ht]. now split. }
  unfold Dict.values, Dict.tabulate. rewrite List.map_map. simpl.
  rewrite <- List.flat_map_concat_map. apply type_lists_permutation.
Qed.

End CategorizeFacts.

(** ** The stable descending sort *)

Module SortFacts.
Import Spec.

Section Sorted.
Context {A : Type} (key : A -> Z).

Lemma insert_desc_In (x y : A) (l : list A) :
  In y (Py.insert_desc key x l) <-> y = x \/ In y l.
Proof.
  induction l as [|a l IH]; simpl; [intuition|].
  destruct (key x <? key a); simpl; [rewrite IH|]; intuition.
Qed.

Lemma insert_desc_sorted (x : A) (l : list A) :
  StronglySorted (fun a b => key b <= key a) l ->
  StronglySorted (fun a b => key b <= key a) (Py.insert_desc key x l).
Proof.
  induction 1 as [|a l Hs IH Ha]; simpl.
  - repeat constructor.
  - destruct (key x <? key a) eqn:E.
    + constructor; [assumption|].
      apply List.Forall_forall. intros y Hy. apply insert_desc_In in Hy.
      destruct Hy as [->|Hy]; [lia|].
      rewrite List.Forall_forall in Ha. now apply Ha.
    + constructor; [now constructor|].
      constructor; [lia|].
      rewrite List.Forall_forall in Ha |- *. intros y Hy.
      specialize (Ha y Hy). lia.
Qed.

Lemma sorted_desc_sorted (l : list A) :
  StronglySorted (fun a b => key b <= key a) (Py.sorted_desc key l).
Proof.
  induction l as [|x l IH]; simpl; [constructor|now apply insert_desc_sorted].
Qed.

(** Inserting keeps the elements of every key in order, the new element
    before those of its own key. *)
Lemma filter_insert_desc (k : Z) (x : A) (l : list A) :
  List.filter (fun y => key y =? k) (Py.insert_desc key x l)
  = List.filter (fun y => key y =? k) (x :: l).
Proof.
  induction l as [|a l IH]; [reflexivity|].
  cbn [Py.insert_desc]. destruct (key x <? key a) eqn:E; [|reflexivity].
  cbn [List.filter] in *. rewrite IH.
  destruct (key a =? k) eqn:Ea; [|reflexivity].
  assert ((key x =? k) = false) as -> by lia. reflexivity.
Qed.

Lemma filter_sorted_desc (k : Z) (l : list A) :
  List.filter (fun y => key y =? k) (Py.sorted_desc key l)
  = List.filter (fun y => key y =? k) l.
Proof.
  induction l as [|x l IH]; [reflexivity|].
  cbn [Py.sorted_desc fold_right]. fold (Py.sorted_desc key l).
  rewrite filter_insert_desc. cbn [List.filter]. now rewrite IH.
Qed.

Lemma sorted_desc_stable (l : list A) : stable_desc key l (Py.sorted_desc key l).
Proof. split; [apply sorted_desc_sorted|intros k; apply filter_sorted_desc]. Qed.

Lemma sorted_desc_permutation (l : list A) : Permutation (Py.sorted_desc key l) l.
Proof.
  induction l as [|x l IH]; [constructor|].
  cbn [Py.sorted_desc fold_right]. fold (Py.sorted_desc key l).
  transitivity (x :: Py.sorted_desc key l); [|now constructor].
  clear IH. induction (Py.sorted_desc key l) as [|a s IH]; simpl; [reflexivity|].
  destruct (key x <? key a); [|reflexivity].
  rewrite IH. apply perm_swap.
Qed.

End Sorted.
End SortFacts.

(** ** The report *)

Module ReportFacts.
Import MissingModelsFinder Spec ReportLayout Examples.

Lemma fold_left_append_one {A} (f : A -> string) (l : list A) (init : list string) :
  fold_left (fun report_lines x => report_lines ++ [f x]) l init = init ++ map f l.
Proof.
  revert init. induction l as [|x l IH]; intros init; simpl.
  - now rewrite List.app_nil_r.
  - rewrite IH, <- List.app_assoc. reflexivity.
Qed.

Lemma fold_left_append_block {A} (f : A -> list string) (l : list A) (init : list string) :
  fold_left (fun report_lines x => report_lines ++ f x) l init = init ++ flat_map f l.
Proof.
  revert init. induction l as [|x l IH]; intros init; simpl.
  - now rewrite List.app_nil_r.
  - rewrite IH, <- List.app_assoc. reflexivity.
Qed.

(** The lines of the report, section by section. *)
Lemma report_lines_layout (missing_models : list hf_model)
    (mot_models : list (string * mot_data)) :
  let categories := categorize_missing_models missing_models in
  report_lines_of missing_models mot_models
  = summary_lines missing_models mot_models categories
    ++ type_section (types_by_count (by_type categories))
    ++ high_section categories (top_by_downloads 50 (high_priority categories))
    ++ medium_section categories (top_by_downloads 20 (medium_priority categories))
    ++ commands_section (top_by_downloads 10 (high_priority categories)).
Proof.
  cbv zeta. unfold report_lines_of.
  set (categories := categorize_missing_models missing_models).
  rewrite !fold_left_append_one.
  unfold high_section, medium_section, type_section, commands_section, summary_lines.
  destruct (high_priority categories) as [|h hs] eqn:Hh;
    destruct (medium_priority categories) as [|md mds] eqn:Hm;
    rewrite ?fold_left_append_block, ?fold_left_append_one;
    repeat rewrite <- List.app_assoc; reflexivity.
Qed.

(** The registry enters the report through its size only. *)
Lemma report_depends_on_registry_size (missing_models : list hf_model)
    (mot1 mot2 : list (string * mot_data)) :
  length mot1 = length mot2 ->
  report_lines_of missing_models mot1 = report_lines_of missing_models mot2.
Proof.
  intros H. rewrite !report_lines_layout. cbv zeta. unfold summary_lines. now rewrite H.
Qed.

(** C8: the report text is a function of the missing-model list and the
    registry mapping alone, whatever the output file and the state of the
    file system; its per-type counts are in descending order of count,
    types of equal count in the order of their first occurrence in the
    list; the high-priority listing is the first 50 and the medium-priority
    listing the first 20 of the models in descending order of downloads,
    models of equal downloads in their original order. *)
Theorem generate_report_deterministic (missing_models : list hf_model)
    (mot_models : list (string * mot_data)) :
  let categories := categorize_missing_models missing_models in
  let count := fun x : string * list hf_model => Z.of_nat (length (snd x)) in
  let types := types_by_count (by_type categories) in
  let high := Py.sorted_desc downloads_of (high_priority categories) in
  let medium := Py.sorted_desc downloads_of (medium_priority categories) in
  (forall output_file1 output_file2 fs1 fs2,
     fst (generate_report missing_models mot_models output_file1 fs1)
     = fst (generate_report missing_models mot_models output_file2 fs2)) /\
  (forall output_file fs,
     fst (generate_report missing_models mot_models output_file fs)
     = Py.join (String "010" "")
         (summary_lines missing_models mot_models categories
          ++ type_section types
          ++ high_section categories (firstn 50 high)
          ++ medium_section categories (firstn 20 medium)
          ++ commands_section (firstn 10 high))) /\
  Dict.keys (by_type categories) = first_occurrences (map model_type_of missing_models) /\
  stable_desc count (by_type categories) types /\
  stable_desc downloads_of (List.filter is_high missing_models) high /\
  stable_desc downloads_of (List.filter is_medium missing_models) medium.
Proof.
  cbv zeta. split; [reflexivity|].
  split.
  { intros output_file fs. unfold generate_report. cbn [fst].
    now rewrite report_lines_layout. }
  split.
  { rewrite CategorizeFacts.by_type_is_tabulate. apply DictFacts.keys_tabulate. }
  split; [apply SortFacts.sorted_desc_stable|].
  rewrite <- CategorizeFacts.high_is_filter, <- CategorizeFacts.medium_is_filter.
  split; apply SortFacts.sorted_desc_stable.
Qed.

(** Ties keep the order of the list: [a/low] before [c/low], and the type
    [text-to-image], seen first, before [other] of the same count. *)
Example report_of_tied_models :
  map hf_id (top_by_downloads 50 (high_priority (categorize_missing_models tied_models)))
    = [Some "b/top"; Some "a/low"; Some "c/low"] /\
  map fst (types_by_count (by_type (categorize_missing_models tied_models)))
    = ["text-generation"; "text-to-image"; "other"].
Proof. split; reflexivity. Qed.

End ReportFacts.

(** ** The single-model scrape *)

Module ScrapeFacts.
Import ModelScraper ScraperSpec.

Lemma raises_for_status_iff (status_code : Z) :
  raises_for_status status_code = true <-> 400 <= status_code < 600.
Proof. unfold raises_for_status. lia. Qed.

(** C4: when the primary fetch fails the scrape returns the empty
    dictionary and the command-line tool exits with status 1; when it
    succeeds the scrape returns a populated dictionary, in which a failed
    model-card fetch leaves the empty string and a failed file-tree fetch
    leaves the empty list. *)
Theorem scrape_failure_modes (self : session) (model_id : string) :
  let scraped_data := scrape_huggingface_model self model_id in
  (primary_failed (get_info self (api_url model_id)) ->
     scraped_data = empty_dict /\
     is_empty scraped_data = true /\
     forall today output_file fs,
       main self today output_file model_id fs = (1, fs)) /\
  (~ primary_failed (get_info self (api_url model_id)) ->
     is_empty scraped_data = false /\
     sd_model_id scraped_data = Some model_id /\
     (exists status_code model_info,
        get_info self (api_url model_id) = Response status_code model_info /\
        sd_model_info scraped_data = Some model_info) /\
     (exists text, sd_model_card scraped_data = Some text) /\
     (exists files, sd_repo_files scraped_data = Some files) /\
     (fetch_failed (get_text self (card_url model_id)) ->
        sd_model_card scraped_data = Some "") /\
     (fetch_failed (get_tree self (files_url model_id)) ->
        sd_repo_files scraped_data = Some []) /\
     forall today output_file fs,
       fst (main self today output_file model_id fs) = 0).
Proof.
  cbv zeta. unfold main, scrape_huggingface_model.
  fold (api_url model_id). fold (card_url model_id). fold (files_url model_id).
  destruct (get_info self (api_url model_id)) as [|status_code model_info]; simpl.
  - split; [intros _|intros H; exfalso; apply H; exact I].
    repeat split; reflexivity.
  - destruct (raises_for_status status_code) eqn:E.
    + apply raises_for_status_iff in E.
      split; [intros _|intros H; contradiction].
      repeat split; reflexivity.
    + split.
      { intros H. apply raises_for_status_iff in H. congruence. }
      intros _. simpl.
      split; [reflexivity|]. split; [reflexivity|].
      split; [exists status_code, model_info; split; reflexivity|].
      split; [eexists; reflexivity|]. split; [eexists; reflexivity|].
      split.
      { destruct (get_text self (card_url model_id)) as [|card_status text]; simpl.
        - reflexivity.
        - intros H. apply Z.eqb_neq in H. now rewrite H. }
      split.
      { destruct (get_tree self (files_url model_id)) as [|files_status entries]; simpl.
        - reflexivity.
        - intros H. apply Z.eqb_neq in H. now rewrite H. }
      intros today output_file fs. reflexivity.
Qed.

End ScrapeFacts.

(** ** License detection *)

Module LicenseFacts.
Import ModelScraper ScraperSpec.

(** The license is decided by the license field of the blob alone. *)
Lemma detect_license_by_field (scraped_data : scraped_data) :
  _detect_license scraped_data
  = match license_field scraped_data with
    | Some v =>
        if (license_truthy v && negb (license_is v "other"))%bool then v else unlicensed
    | None => unlicensed
    end.
Proof.
  unfold _detect_license, license_field, unlicensed.
  destruct (mi_cardData (model_info_of scraped_data)) as [cardData|].
  - destruct (cd_license cardData) as [v|].
    + destruct (license_truthy v && negb (license_is v "other"))%bool; [reflexivity|].
      now destruct (existsb _ _).
    + now destruct (existsb _ _).
  - now destruct (existsb _ _).
Qed.

Lemma license_field_with_repo_files (files : list string) (scraped_data : scraped_data) :
  license_field (with_repo_files files scraped_data) = license_field scraped_data.
Proof. reflexivity. Qed.

(** C5: the license is the value of the explicit license field when the
    field is present, truthy and not [other]; it is [unlicensed] when the
    field is absent, falsy or [other]; and the file listing, with or
    without a LICENSE file, has no part in it. *)
Theorem detect_license_cases (scraped_data : scraped_data) :
  (forall v, license_field scraped_data = Some v ->
     license_truthy v = true -> license_is v "other" = false ->
     _detect_license scraped_data = v) /\
  (license_field scraped_data = None ->
     _detect_license scraped_data = LicenseStr "unlicensed") /\
  (forall v, license_field scraped_data = Some v ->
     license_truthy v = false \/ license_is v "other" = true ->
     _detect_license scraped_data = LicenseStr "unlicensed") /\
  (forall files,
     _detect_license (with_repo_files files scraped_data)
     = _detect_license scraped_data) /\
  (forall files,
     _detect_license (with_repo_files files scraped_data) <> LicenseStr "unlicensed" ->
     license_field scraped_data = Some (_detect_license (with_repo_files files scraped_data))).
Proof.
  split; [|split; [|split; [|split]]].
  - intros v Hf Ht Ho. rewrite detect_license_by_field, Hf, Ht, Ho. reflexivity.
  - intros Hf. rewrite detect_license_by_field, Hf. reflexivity.
  - intros v Hf [Ht|Ho]; rewrite detect_license_by_field, Hf.
    + now rewrite Ht.
    + rewrite Ho. now rewrite andb_false_r.
  - intros files. now rewrite !detect_license_by_field, license_field_with_repo_files.
  - intros files. rewrite !detect_license_by_field, license_field_with_repo_files.
    destruct (license_field scraped_data) as [v|]; [|intros H; now elim H].
    destruct (license_truthy v && negb (license_is v "other"))%bool;
      [reflexivity|intros H; now elim H].
Qed.

(** The invariant of the detected license. *)
Lemma detect_license_ok (scraped_data : scraped_data) :
  license_ok scraped_data (_detect_license scraped_data).
Proof.
  unfold license_ok. rewrite detect_license_by_field.
  destruct (license_field scraped_data) as [v|].
  - destruct (license_truthy v) eqn:Ht; simpl.
    + destruct (license_is v "other") eqn:Ho; simpl.
      * repeat split; try reflexivity. now left.
      * repeat split; try assumption. now right.
    + repeat split; try reflexivity. now left.
  - repeat split; try reflexivity. now left.
Qed.

Lemma unlicensed_ok (scraped_data : scraped_data) : license_ok scraped_data unlicensed.
Proof. repeat split; try reflexivity. now left. Qed.

Lemma Forall_append_if {A} (P : A -> Prop) (b : bool) (l : list A) (x : A) :
  Forall P l -> P x -> Forall P (if b then l ++ [x] else l).
Proof.
  intros Hl Hx. destruct b; [|assumption].
  apply List.Forall_app. split; [assumption|]. now constructor.
Qed.

Lemma components_license_ok (scraped_data : scraped_data) :
  Forall (fun c => license_ok scraped_data (license c)) (detect_components scraped_data).
Proof.
  unfold detect_components. cbv zeta.
  repeat (apply Forall_append_if;
          [|first [apply detect_license_ok|apply unlicensed_ok]]).
  constructor.
Qed.

(** C10: the detected license is never [other] and never falsy: it is the
    truthy license field of the blob, different from [other], or exactly
    [unlicensed]; and the license of every detected component is such a
    value. *)
Theorem detect_license_invariant (scraped_data : scraped_data) :
  let v := _detect_license scraped_data in
  v <> LicenseStr "other" /\
  v <> LicenseStr "" /\ v <> LicenseNone /\ v <> LicenseList [] /\
  license_truthy v = true /\
  (v = LicenseStr "unlicensed" \/
   (license_field scraped_data = Some v /\
    license_truthy v = true /\ license_is v "other" = false)) /\
  Forall (fun c =>
            license c <> LicenseStr "other" /\
            license_truthy (license c) = true /\
            (license c = LicenseStr "unlicensed" \/
             license_field scraped_data = Some (license c)))
         (detect_components scraped_data).
Proof.
  cbv zeta.
  destruct (detect_license_ok scraped_data) as (Ht & Ho & Hv).
  split; [intros E; rewrite E in Ho; discriminate|].
  split; [intros E; rewrite E in Ht; discriminate|].
  split; [intros E; rewrite E in Ht; discriminate|].
  split; [intros E; rewrite E in Ht; discriminate|].
  split; [assumption|].
  split; [destruct Hv; [now left|now right]|].
  eapply List.Forall_impl; [|apply components_license_ok].
  intros c (Hct & Hco & Hcv). simpl in *.
  split; [intros E; rewrite E in Hco; discriminate|]. split; assumption.
Qed.

End LicenseFacts.

(** ** Component detection *)

Module ComponentFacts.
Import ModelScraper ScraperSpec Examples.

Lemma scraper_in_list_In (x : string) (l : list string) : in_list x l = true <-> In x l.
Proof.
  unfold in_list. rewrite existsb_exists. split.
  - intros (y & Hy & E). apply String.eqb_eq in E. now subst.
  - intros H. exists x. split; [assumption|apply String.eqb_refl].
Qed.

Lemma any_str_false (p : string -> bool) (l : list string) :
  (forall f, In f l -> p f = false) -> any_str p l = false.
Proof.
  intros H. unfold any_str. induction l as [|a l IH]; [reflexivity|]. simpl.
  rewrite (H a) by now left. apply IH. intros f Hf. apply H. now right.
Qed.

(** C9 (as amended): a file listing with [model.safetensors] and
    [config.json], with no file ending in [.py], without [modeling] in the
    listing joined by spaces, without [inference] or [generate] in a
    lower-cased file name and without [README.md], together with an empty
    description, gives exactly the two candidates for the model parameters
    and the model metadata. *)
Theorem detect_components_parameters_and_metadata (scraped_data : scraped_data)
    (files : list string) :
  sd_repo_files scraped_data = Some files ->
  model_card_of scraped_data = "" ->
  In "model.safetensors" files ->
  In "config.json" files ->
  (forall f, In f files -> Py.endswith ".py" f = false) ->
  Py.contains "modeling" (Py.join " " files) = false ->
  (forall f, In f files ->
     Py.contains "inference" (Py.lower f) = false /\
     Py.contains "generate" (Py.lower f) = false) ->
  ~ In "README.md" files ->
  detect_components scraped_data
    = [parameters_component scraped_data; metadata_component scraped_data] /\
  map name (detect_components scraped_data)
    = ["Model parameters (Final)"; "Model metadata"] /\
  ~ In "Model architecture" (map name (detect_components scraped_data)).
Proof.
  intros Hfiles Hcard Hsafe Hconfig Hpy Hmodeling Hinference Hreadme.
  assert (E : detect_components scraped_data
              = [parameters_component scraped_data; metadata_component scraped_data]).
  { unfold detect_components. cbv zeta.
    unfold repo_files_of. rewrite Hfiles, Hcard. cbn [default from_option id].
    assert (H1 : any_str (fun f => existsb (fun suffix => Py.endswith suffix f)
                            [".bin"; ".safetensors"; ".pt"; ".pth"; ".ckpt"]) files = true).
    { apply existsb_exists. exists "model.safetensors". split; [assumption|reflexivity]. }
    assert (H2 : existsb (fun f => in_list f files)
                   ["config.json"; "model_config.json"; "configuration.json"] = true).
    { cbn [existsb]. apply scraper_in_list_In in Hconfig. now rewrite Hconfig. }
    assert (H3 : any_str (fun f => Py.endswith ".py" f) files = false)
      by now apply any_str_false.
    assert (H4 : any_str (fun f => (Py.contains "inference" (Py.lower f)
                                    || Py.contains "generate" (Py.lower f))%bool) files
                 = false).
    { apply any_str_false. intros f Hf. destruct (Hinference f Hf) as [-> ->]. reflexivity. }
    assert (H5 : in_list "README.md" files = false).
    { destruct (in_list "README.md" files) eqn:E; [|reflexivity].
      apply scraper_in_list_In in E. contradiction. }
    rewrite H1, H2, H3, Hmodeling, H4, H5. reflexivity. }
  rewrite E. split; [reflexivity|]. split; [reflexivity|].
  simpl. intros [H|[H|[]]]; discriminate.
Qed.

(** C9 at the listing with exactly the two files. *)
Lemma detect_components_parameters_and_metadata_witness :
  map name (detect_components safetensors_only)
    = ["Model parameters (Final)"; "Model metadata"].
Proof.
  refine (proj1 (proj2 (detect_components_parameters_and_metadata safetensors_only
            ["model.safetensors"; "config.json"] eq_refl eq_refl _ _ _ eq_refl _ _))).
  - simpl. tauto.
  - simpl. tauto.
  - intros f [<-|[<-|[]]]; reflexivity.
  - intros f [<-|[<-|[]]]; split; reflexivity.
  - intros [H|[H|[]]]; discriminate.
Defined.

(** C9 fails as stated: a listing with the two files, no [.py] file and an
    empty description gives a third candidate when it also has
    [README.md], and a [Model architecture] candidate when a file name
    contains [modeling]. *)
Lemma detect_components_more_than_two :
  (In "model.safetensors" (repo_files_of safetensors_with_readme) /\
   In "config.json" (repo_files_of safetensors_with_readme) /\
   forallb (fun f => negb (Py.endswith ".py" f)) (repo_files_of safetensors_with_readme)
     = true /\
   model_card_of safetensors_with_readme = "" /\
   map name (detect_components safetensors_with_readme)
     = ["Model parameters (Final)"; "Model metadata"; "Model card"]) /\
  (In "model.safetensors" (repo_files_of safetensors_with_modeling_notes) /\
   In "config.json" (repo_files_of safetensors_with_modeling_notes) /\
   forallb (fun f => negb (Py.endswith ".py" f))
     (repo_files_of safetensors_with_modeling_notes) = true /\
   model_card_of safetensors_with_modeling_notes = "" /\
   map name (detect_components safetensors_with_modeling_notes)
     = ["Model parameters (Final)"; "Model metadata"; "Model architecture"]).
Proof.
  split; (split; [simpl; tauto|]); (split; [simpl; tauto|]); repeat split; reflexivity.
Qed.

End ComponentFacts.

(** ** Substrings and case *)

Module OccursFacts.
Import Occurs.

Lemma append_cons (c : ascii) (a b : string) : String c a +:+ b = String c (a +:+ b).
Proof. reflexivity. Qed.

Lemma append_assoc (a b c : string) : (a +:+ b) +:+ c = a +:+ b +:+ c.
Proof.
  induction a as [|x a IH]; [reflexivity|]. rewrite !append_cons. now rewrite IH.
Qed.

Lemma startswith_iff (p s : string) :
  Py.startswith p s = true <-> exists b, s = p +:+ b.
Proof.
  revert s. induction p as [|c p IH]; intros s; simpl.
  - split; [intros _; now exists s|reflexivity].
  - destruct s as [|d s]; [split; [discriminate|intros [b H]; discriminate]|].
    destruct (Ascii.eqb c d) eqn:E.
    + apply Ascii.eqb_eq in E. subst d. rewrite IH. split.
      * intros [b ->]. now exists b.
      * intros [b H]. rewrite append_cons in H. inversion H. now exists b.
    + split; [discriminate|]. intros [b H]. rewrite append_cons in H.
      inversion H. subst. now rewrite Ascii.eqb_refl in E.
Qed.

Lemma contains_unfold (sub s : string) :
  Py.contains sub s
  = if Py.startswith sub s then true
    else match s with EmptyString => false | String _ s' => Py.contains sub s' end.
Proof. destruct s; reflexivity. Qed.

Lemma contains_iff (sub s : string) : Py.contains sub s = true <-> occurs sub s.
Proof.
  unfold occurs. induction s as [|c s IH]; rewrite contains_unfold.
  - destruct (Py.startswith sub "") eqn:E.
    + apply startswith_iff in E. destruct E as [b E].
      split; [intros _; now exists "", b|reflexivity].
    + split; [discriminate|]. intros (a & b & H).
      destruct a; [|discriminate]. simpl in H.
      assert (Py.startswith sub "" = true) by (apply startswith_iff; now exists b).
      congruence.
  - destruct (Py.startswith sub (String c s)) eqn:E.
    + apply startswith_iff in E. destruct E as [b E].
      split; [intros _; now exists "", b|reflexivity].
    + rewrite IH. split.
      * intros (a & b & ->). exists (String c a), b. reflexivity.
      * intros (a & b & H). destruct a as [|d a].
        -- assert (Py.startswith sub (String c s) = true)
             by (apply startswith_iff; now exists b).
           congruence.
        -- rewrite append_cons in H. inversion H. now exists a, b.
Qed.

Lemma lower_app (a b : string) : Py.lower (a +:+ b) = Py.lower a +:+ Py.lower b.
Proof.
  induction a as [|c a IH]; [reflexivity|].
  rewrite append_cons. unfold Py.lower in *. simpl. rewrite IH. reflexivity.
Qed.

Lemma lower_split (s a' b' : string) :
  Py.lower s = a' +:+ b' ->
  exists a b, s = a +:+ b /\ Py.lower a = a' /\ Py.lower b = b'.
Proof.
  revert s. induction a' as [|c a' IH]; intros s H.
  - exists "", s. repeat split. exact H.
  - destruct s as [|d s]; [discriminate|].
    rewrite append_cons in H. unfold Py.lower in H. simpl in H. inversion H as [[Hc Hs]].
    destruct (IH s Hs) as (a & b & -> & Ha & Hb).
    exists (String d a), b. repeat split; [|assumption].
    unfold Py.lower. simpl. fold (Py.lower a). now rewrite Ha.
Qed.

(** Looking for a lower-case word in the lower-cased text is looking for
    the word whatever its case. *)
Lemma contains_lower_iff (sub s : string) :
  Py.lower sub = sub ->
  Py.contains sub (Py.lower s) = true <-> occurs_ci sub s.
Proof.
  intros Hsub. rewrite contains_iff. unfold occurs, occurs_ci. split.
  - intros (a' & b' & H).
    destruct (lower_split _ _ _ H) as (a & rest & -> & Ha & Hrest).
    destruct (lower_split _ _ _ Hrest) as (t & b & -> & Ht & Hb).
    exists a, t, b. split; [reflexivity|]. now rewrite Hsub.
  - intros (a & t & b & -> & Ht).
    exists (Py.lower a), (Py.lower b). rewrite !lower_app, Ht, Hsub. reflexivity.
Qed.

Lemma contains_lower_false_iff (sub s : string) :
  Py.lower sub = sub ->
  Py.contains sub (Py.lower s) = false <-> ~ occurs_ci sub s.
Proof.
  intros Hsub. rewrite <- (contains_lower_iff sub s Hsub).
  destruct (Py.contains sub (Py.lower s)); split; congruence.
Qed.

End OccursFacts.

(** ** The architecture field *)

Module ArchitectureFacts.
Import ModelScraper ScraperSpec Occurs.

(** The architecture as the extractor computes it. *)
Lemma architecture_eq (self : session) (today : string) (scraped_data : scraped_data) :
  md_architecture (_extract_model_metadata self today scraped_data)
  = let model_card := Py.lower (model_card_of scraped_data) in
    let tags := default [] (mi_tags (model_info_of scraped_data)) in
    if (Py.contains "transformer" model_card
        || Py.contains "transformer" (Py.lower (Py.str_of_list tags)))%bool
    then
      if Py.contains "decoder" model_card then "transformer decoder"
      else if Py.contains "encoder" model_card then "transformer encoder-decoder"
      else "transformer"
    else if (Py.contains "diffusion" model_card
             || Py.contains "diffusion" (Py.lower (Py.str_of_list tags)))%bool
    then "diffusion"
    else "".
Proof.
  unfold _extract_model_metadata. cbv zeta.
  destruct (_detect_repository self scraped_data) as [repository repo_confidence].
  destruct (Py.truthy repository); reflexivity.
Qed.

(** C7 (as amended): the architecture is non-empty exactly when
    [transformer] or [diffusion] occurs, whatever the case, in the
    description or in the printed tag list.  When [transformer] occurs the
    architecture is [transformer decoder] if [decoder] occurs in the
    description, otherwise [transformer encoder-decoder] if [encoder]
    occurs in it, otherwise [transformer]; when only [diffusion] occurs it
    is [diffusion]. *)
Theorem architecture_detection (self : session) (today : string)
    (scraped_data : scraped_data) :
  let architecture := md_architecture (_extract_model_metadata self today scraped_data) in
  let card := model_card_of scraped_data in
  let tags := default [] (mi_tags (model_info_of scraped_data)) in
  let found := fun word => occurs_ci word card \/ occurs_ci word (Py.str_of_list tags) in
  (architecture <> "" <-> found "transformer" \/ found "diffusion") /\
  (found "transformer" ->
     (occurs_ci "decoder" card -> architecture = "transformer decoder") /\
     (~ occurs_ci "decoder" card -> occurs_ci "encoder" card ->
        architecture = "transformer encoder-decoder") /\
     (~ occurs_ci "decoder" card -> ~ occurs_ci "encoder" card ->
        architecture = "transformer")) /\
  (~ found "transformer" -> found "diffusion" -> architecture = "diffusion") /\
  (~ found "transformer" -> ~ found "diffusion" -> architecture = "").
Proof.
  cbv zeta. rewrite architecture_eq. cbv zeta.
  set (card := model_card_of scraped_data).
  set (tags := Py.str_of_list (default [] (mi_tags (model_info_of scraped_data)))).
  rewrite <- !(OccursFacts.contains_lower_iff "transformer") by reflexivity.
  rewrite <- !(OccursFacts.contains_lower_iff "diffusion") by reflexivity.
  rewrite <- !(OccursFacts.contains_lower_iff "decoder") by reflexivity.
  rewrite <- !(OccursFacts.contains_lower_iff "encoder") by reflexivity.
  destruct (Py.contains "transformer" (Py.lower card)) eqn:T1;
    destruct (Py.contains "transformer" (Py.lower tags)) eqn:T2;
    destruct (Py.contains "diffusion" (Py.lower card)) eqn:D1;
    destruct (Py.contains "diffusion" (Py.lower tags)) eqn:D2;
    destruct (Py.contains "decoder" (Py.lower card)) eqn:E1;
    destruct (Py.contains "encoder" (Py.lower card)) eqn:E2;
    cbn [orb];
    repeat split; intros; try reflexivity;
    intuition (try discriminate; try congruence).
Qed.

End ArchitectureFacts.

(** ** The draft serializer *)

Module YamlFacts.
Import ModelScraper ScraperSpec YamlLayout.

Lemma fold_left_component_lines (components : list component) (init : list string) :
  fold_left (fun lines comp => lines ++ component_lines comp) components init
  = init ++ flat_map component_lines components.
Proof.
  revert init. induction components as [|c cs IH]; intros init; simpl.
  - now rewrite List.app_nil_r.
  - rewrite IH, <- List.app_assoc. reflexivity.
Qed.

(** The lines of the draft, section by section. *)
Lemma yaml_lines_layout (metadata : metadata) (components : list component) :
  yaml_lines metadata components
  = framework_lines ++ ["release:"] ++ release_lines metadata
    ++ ["  components:"] ++ flat_map component_lines components.
Proof.
  unfold yaml_lines. cbv zeta. rewrite fold_left_component_lines.
  unfold release_lines, optional_line, fixed_release_lines, framework_lines.
  destruct (get_truthy (md_repository metadata));
    destruct (get_truthy (md_huggingface metadata)); reflexivity.
Qed.

Lemma component_lines_eq (comp : component) :
  component_lines comp
  = [ "    -";
      "      name: '" +:+ name comp +:+ "'";
      "      description: " +:+ String Py.dquote (description comp +:+ String Py.dquote "");
      license_line comp ].
Proof.
  unfold component_lines, license_line, effective_license. cbv zeta.
  destruct (first_license (license comp)) as [s|]; [|reflexivity].
  simpl default.
  destruct (Py.truthy s && negb (String.eqb s "unlicensed"))%bool; reflexivity.
Qed.

(** Every line of a component is indented by more than two spaces. *)
Lemma component_line_indented (comp : component) (line : string) :
  In line (component_lines comp) ->
  exists rest, line = String " " (String " " (String " " rest)).
Proof.
  rewrite component_lines_eq. unfold license_line, quoted_license, bare_unlicensed.
  destruct (Py.truthy _ && negb _)%bool;
    intros [<-|[<-|[<-|[<-|[]]]]]; eexists; reflexivity.
Qed.

Lemma filter_none {A} (p : A -> bool) (l : list A) :
  (forall x, In x l -> p x = false) -> List.filter p l = [].
Proof.
  induction l as [|a l IH]; intros H; [reflexivity|]. simpl.
  rewrite (H a) by now left. apply IH. intros x Hx. apply H. now right.
Qed.

(** No line of a component carries a key at the level of the release. *)
Lemma release_key_not_in_components (c : ascii) (key : string)
    (components : list component) :
  Ascii.eqb c " " = false ->
  List.filter (Py.startswith (String " " (String " " (String c key))))
    (flat_map component_lines components) = [].
Proof.
  intros Hc. apply filter_none. intros line Hline.
  apply List.in_flat_map in Hline. destruct Hline as (comp & _ & Hline).
  destruct (component_line_indented comp line Hline) as [rest ->].
  simpl. now rewrite Hc.
Qed.

Lemma after_release (metadata : metadata) (components : list component) :
  after "release:" (yaml_lines metadata components)
  = release_lines metadata ++ ["  components:"] ++ flat_map component_lines components.
Proof. rewrite yaml_lines_layout. reflexivity. Qed.

Ltac field_lines_by_layout key :=
  unfold field_lines; rewrite after_release;
  let p := eval vm_compute in ("  " +:+ key +:+ ":") in
  change ("  " +:+ key +:+ ":") with p;
  rewrite !List.filter_app;
  rewrite release_key_not_in_components by reflexivity;
  unfold release_lines, optional_line;
  rewrite !List.filter_app;
  repeat match goal with
         | |- context [get_truthy ?o] => destruct (get_truthy o)
         end;
  reflexivity.

Lemma field_lines_name md comps :
  field_lines "name" (yaml_lines md comps) = ["  name: " +:+ md_name md].
Proof. field_lines_by_layout "name". Qed.

Lemma field_lines_version md comps :
  field_lines "version" (yaml_lines md comps) = ["  version: '" +:+ md_version md +:+ "'"].
Proof. field_lines_by_layout "version". Qed.

Lemma field_lines_date md comps :
  field_lines "date" (yaml_lines md comps) = ["  date: '" +:+ md_date md +:+ "'"].
Proof. field_lines_by_layout "date". Qed.

Lemma field_lines_type md comps :
  field_lines "type" (yaml_lines md comps) = ["  type: '" +:+ md_type md +:+ "'"].
Proof. field_lines_by_layout "type". Qed.

Lemma field_lines_architecture md comps :
  field_lines "architecture" (yaml_lines md comps)
  = ["  architecture: '" +:+ md_architecture md +:+ "'"].
Proof. field_lines_by_layout "architecture". Qed.

Lemma field_lines_origin md comps :
  field_lines "origin" (yaml_lines md comps) = ["  origin: " +:+ md_origin md].
Proof. field_lines_by_layout "origin". Qed.

Lemma field_lines_producer md comps :
  field_lines "producer" (yaml_lines md comps)
  = ["  producer: '" +:+ md_producer md +:+ "'"].
Proof. field_lines_by_layout "producer". Qed.

Lemma field_lines_repository md comps :
  field_lines "repository" (yaml_lines md comps)
  = optional_line "repository" (md_repository md).
Proof. field_lines_by_layout "repository". Qed.

Lemma field_lines_huggingface md comps :
  field_lines "huggingface" (yaml_lines md comps)
  = optional_line "huggingface" (md_huggingface md).
Proof. field_lines_by_layout "huggingface". Qed.

Lemma field_lines_repository_confidence md comps :
  field_lines "repository_confidence" (yaml_lines md comps) = [].
Proof. field_lines_by_layout "repository_confidence". Qed.

(** *** The text and its lines *)

Lemma contains_char_app (c : ascii) (a b : string) :
  Py.contains (String c "") (a +:+ b)
  = (Py.contains (String c "") a || Py.contains (String c "") b)%bool.
Proof.
  induction a as [|d a IH].
  - change ("" +:+ b) with b. now destruct b.
  - change (String d a +:+ b) with (String d (a +:+ b)).
    rewrite !PyFacts.contains_char_cons, IH. now destruct (Ascii.eqb c d).
Qed.

Lemma no_newline_app (a b : string) :
  no_newline a -> no_newline b -> no_newline (a +:+ b).
Proof. unfold no_newline. intros Ha Hb. now rewrite contains_char_app, Ha, Hb. Qed.

Lemma split_go_field (sep : ascii) (x rest cur : string) :
  Py.contains (String sep "") x = false ->
  Py.split_go sep cur (x +:+ String sep rest)
  = String.rev_app cur x :: Py.split_go sep "" rest.
Proof.
  revert cur. induction x as [|c x IH]; intros cur H.
  - change ("" +:+ String sep rest) with (String sep rest).
    simpl. now rewrite Ascii.eqb_refl.
  - rewrite PyFacts.contains_char_cons in H.
    destruct (Ascii.eqb sep c) eqn:E; [discriminate|].
    change (String c x +:+ String sep rest) with (String c (x +:+ String sep rest)).
    simpl. rewrite Ascii.eqb_sym, E. now rewrite IH.
Qed.

(** Splitting the joined lines gives the lines back. *)
Lemma split_join (sep : ascii) (lines : list string) :
  lines <> [] ->
  Forall (fun line => Py.contains (String sep "") line = false) lines ->
  Py.split sep (Py.join (String sep "") lines) = lines.
Proof.
  intros Hne Hall. unfold Py.split, Py.join.
  induction Hall as [|x rest Hx Hrest IH]; [now elim Hne|].
  destruct rest as [|y rest].
  - simpl. now rewrite PyFacts.split_go_no_sep.
  - change (String.concat (String sep "") (x :: y :: rest))
      with (x +:+ String sep (String.concat (String sep "") (y :: rest))).
    rewrite split_go_field by assumption. simpl String.rev_app.
    f_equal. apply IH. discriminate.
Qed.

Lemma no_newline_get_truthy (o : option string) (v : string) :
  no_newline (default "" o) -> get_truthy o = Some v -> no_newline v.
Proof.
  destruct o as [s|]; simpl; [|discriminate].
  destruct (Py.truthy s); [|discriminate]. intros H E. now inversion E; subst.
Qed.

Lemma component_lines_no_newline (comp : component) :
  no_newline (name comp) -> no_newline (description comp) ->
  Forall no_newline (license_strings (license comp)) ->
  Forall no_newline (component_lines comp).
Proof.
  intros Hn Hd Hl. rewrite component_lines_eq.
  repeat constructor.
  - repeat apply no_newline_app; [reflexivity|assumption|reflexivity].
  - apply no_newline_app; [reflexivity|].
    change (String Py.dquote (description comp +:+ String Py.dquote ""))
      with (String Py.dquote "" +:+ description comp +:+ String Py.dquote "").
    repeat apply no_newline_app; [reflexivity|assumption|reflexivity].
  - unfold license_line, effective_license, quoted_license, bare_unlicensed.
    destruct (license comp) as [|s|[|s l]]; simpl in *; try reflexivity.
    + destruct (Py.truthy s && negb (String.eqb s "unlicensed"))%bool; [|reflexivity].
      inversion Hl; subst.
      repeat apply no_newline_app; [reflexivity|assumption|reflexivity].
    + destruct (Py.truthy s && negb (String.eqb s "unlicensed"))%bool; [|reflexivity].
      inversion Hl; subst.
      repeat apply no_newline_app; [reflexivity|assumption|reflexivity].
Qed.

Lemma yaml_lines_no_newline (metadata : metadata) (components : list component) :
  newline_free metadata components ->
  Forall no_newline (yaml_lines metadata components).
Proof.
  intros [Hmd Hcomps]. rewrite yaml_lines_layout.
  repeat match goal with
         | H : Forall _ (_ :: _) |- _ => inversion H; clear H; subst
         end.
  unfold release_lines.
  repeat (apply List.Forall_app; split).
  - repeat constructor.
  - repeat constructor.
  - unfold fixed_release_lines.
    repeat constructor; repeat apply no_newline_app; try reflexivity; assumption.
  - unfold optional_line.
    destruct (get_truthy (md_repository metadata)) as [v|] eqn:E; constructor; [|constructor].
    repeat apply no_newline_app; try reflexivity.
    eapply no_newline_get_truthy; [|exact E]; assumption.
  - unfold optional_line.
    destruct (get_truthy (md_huggingface metadata)) as [v|] eqn:E; constructor; [|constructor].
    repeat apply no_newline_app; try reflexivity.
    eapply no_newline_get_truthy; [|exact E]; assumption.
  - repeat constructor.
  - apply List.Forall_forall. intros line Hline.
    apply List.in_flat_map in Hline. destruct Hline as (comp & Hcomp & Hline).
    rewrite List.Forall_forall in Hcomps.
    destruct (Hcomps comp Hcomp) as (Hn & Hd & Hl).
    pose proof (component_lines_no_newline comp Hn Hd Hl) as Hall.
    rewrite List.Forall_forall in Hall. now apply Hall.
Qed.

Lemma text_lines_yaml (metadata : metadata) (components : list component) :
  newline_free metadata components ->
  text_lines (_format_yaml_mot_style metadata components) = yaml_lines metadata components.
Proof.
  intros H. unfold text_lines, _format_yaml_mot_style, newline.
  apply split_join.
  - rewrite yaml_lines_layout. discriminate.
  - apply yaml_lines_no_newline. exact H.
Qed.

(** *** The entries of the draft *)

Lemma quoted_license_nonempty (s : string) :
  s <> "" -> quoted_license s <> quoted_license "".
Proof.
  intros Hs E. unfold quoted_license in E.
  apply String.app_inj in E. destruct s as [|c s]; [now elim Hs|].
  destruct s; discriminate.
Qed.

Lemma truthy_iff (s : string) : Py.truthy s = true <-> s <> "".
Proof. destruct s; simpl; split; congruence. Qed.

Lemma license_line_cases (comp : component) :
  let s := effective_license (license comp) in
  (s <> "" -> s <> "unlicensed" -> license_line comp = quoted_license s) /\
  (s = "" \/ s = "unlicensed" -> license_line comp = bare_unlicensed) /\
  license_line comp <> quoted_license "".
Proof.
  cbv zeta. unfold license_line. cbv zeta.
  set (s := effective_license (license comp)).
  destruct (Py.truthy s) eqn:Ht; destruct (String.eqb s "unlicensed") eqn:Hu; simpl.
  - apply String.eqb_eq in Hu. repeat split; try reflexivity; try discriminate.
    intros _ H. contradiction.
  - apply truthy_iff in Ht. apply String.eqb_neq in Hu.
    repeat split; try reflexivity.
    + intros [H|H]; contradiction.
    + now apply quoted_license_nonempty.
  - apply String.eqb_eq in Hu. repeat split; try reflexivity; try discriminate.
    intros _ H. contradiction.
  - assert (s = "") by (destruct s; [reflexivity|discriminate]).
    repeat split; try reflexivity; try discriminate. intros H'. contradiction.
Qed.

Lemma present_fields_cases (metadata : metadata) (key : string) :
  In key (present_fields metadata) ->
  In key ["name"; "version"; "producer"; "type"; "architecture"; "date"; "origin"] \/
  (key = "huggingface" /\ get_truthy (md_huggingface metadata) <> None) \/
  (key = "repository" /\ get_truthy (md_repository metadata) <> None) \/
  key = "repository_confidence".
Proof.
  unfold present_fields. cbv zeta. rewrite !List.in_app_iff.
  intros H.
  repeat match goal with
         | H : _ \/ _ |- _ => destruct H as [H|H]
         end.
  1-7: left;
    match type of H with
    | In _ (if ?b then _ else _) => destruct b; [destruct H as [<-|[]]|destruct H]
    end; simpl; tauto.
  - right; left.
    destruct (md_huggingface metadata) as [s|]; simpl in *; [|destruct H].
    destruct (Py.truthy s); [destruct H as [<-|[]]|destruct H]. split; [reflexivity|discriminate].
  - right; right; left.
    destruct (md_repository metadata) as [s|]; simpl in *; [|destruct H].
    destruct (Py.truthy s); [destruct H as [<-|[]]|destruct H]. split; [reflexivity|discriminate].
  - right; right; right.
    destruct (md_repository_confidence metadata); [destruct H as [<-|[]]|destruct H].
    reflexivity.
Qed.

(** C6 (as amended): the draft is the lines of the serializer joined by
    line breaks, and they are the lines of the text when no value has a
    line break.  The release section has exactly one line for each of
    name, version, date, type, architecture, origin and producer, exactly
    one for repository and for huggingface when the value is non-empty and
    none otherwise, and none for the repository confidence; so every
    non-empty field other than the repository confidence has exactly one
    line.  The components follow in detection order, one block each, whose
    license entry quotes the license string (the first one of a list) when
    it is non-empty and not [unlicensed], and is the bare token
    [unlicensed] otherwise, never an empty quoted string. *)
Theorem yaml_key_presence (metadata : metadata) (components : list component) :
  let lines := yaml_lines metadata components in
  _format_yaml_mot_style metadata components = Py.join (String newline_char "") lines /\
  (newline_free metadata components ->
     text_lines (_format_yaml_mot_style metadata components) = lines) /\
  field_lines "name" lines = ["  name: " +:+ md_name metadata] /\
  field_lines "version" lines = ["  version: '" +:+ md_version metadata +:+ "'"] /\
  field_lines "date" lines = ["  date: '" +:+ md_date metadata +:+ "'"] /\
  field_lines "type" lines = ["  type: '" +:+ md_type metadata +:+ "'"] /\
  field_lines "architecture" lines
    = ["  architecture: '" +:+ md_architecture metadata +:+ "'"] /\
  field_lines "origin" lines = ["  origin: " +:+ md_origin metadata] /\
  field_lines "producer" lines = ["  producer: '" +:+ md_producer metadata +:+ "'"] /\
  field_lines "repository" lines = optional_line "repository" (md_repository metadata) /\
  field_lines "huggingface" lines = optional_line "huggingface" (md_huggingface metadata) /\
  field_lines "repository_confidence" lines = [] /\
  (forall key, In key (present_fields metadata) -> key <> "repository_confidence" ->
     length (field_lines key lines) = 1%nat) /\
  lines = framework_lines ++ ["release:"] ++ release_lines metadata
          ++ ["  components:"] ++ flat_map component_lines components /\
  (forall comp,
     component_lines comp
     = [ "    -";
         "      name: '" +:+ name comp +:+ "'";
         "      description: "
           +:+ String Py.dquote (description comp +:+ String Py.dquote "");
         license_line comp ]) /\
  (forall comp,
     let s := effective_license (license comp) in
     (s <> "" -> s <> "unlicensed" -> license_line comp = quoted_license s) /\
     (s = "" \/ s = "unlicensed" -> license_line comp = bare_unlicensed) /\
     license_line comp <> quoted_license "") /\
  (forall s, effective_license (LicenseStr s) = s).
Proof.
  cbv zeta.
  split; [reflexivity|].
  split; [apply text_lines_yaml|].
  split; [apply field_lines_name|].
  split; [apply field_lines_version|].
  split; [apply field_lines_date|].
  split; [apply field_lines_type|].
  split; [apply field_lines_architecture|].
  split; [apply field_lines_origin|].
  split; [apply field_lines_producer|].
  split; [apply field_lines_repository|].
  split; [apply field_lines_huggingface|].
  split; [apply field_lines_repository_confidence|].
  split.
  { intros key Hkey Hne.
    destruct (present_fields_cases metadata key Hkey) as [H|[[-> H]|[[-> H]|H]]].
    - simpl in H.
      destruct H as [<-|[<-|[<-|[<-|[<-|[<-|[<-|[]]]]]]]].
      + now rewrite field_lines_name.
      + now rewrite field_lines_version.
      + now rewrite field_lines_producer.
      + now rewrite field_lines_type.
      + now rewrite field_lines_architecture.
      + now rewrite field_lines_date.
      + now rewrite field_lines_origin.
    - rewrite field_lines_huggingface. unfold optional_line.
      destruct (get_truthy (md_huggingface metadata)); [reflexivity|now elim H].
    - rewrite field_lines_repository. unfold optional_line.
      destruct (get_truthy (md_repository metadata)); [reflexivity|now elim H].
    - contradiction. }
  split; [apply yaml_lines_layout|].
  split; [apply component_lines_eq|].
  split; [apply license_line_cases|].
  reflexivity.
Qed.

End YamlFacts.

(** ** The string primitives at concrete inputs *)

Module PyExamples.

Example lower_mixed : Py.lower "Meta-Llama/Llama_2-7B" = "meta-llama/llama_2-7b".
Proof. reflexivity. Qed.

Example title_words : Py.title "meta llama 3b-xY" = "Meta Llama 3B-Xy".
Proof. reflexivity. Qed.

Example replace_all : Py.replace "-" "_" "a-b--c" = "a_b__c".
Proof. reflexivity. Qed.

Example replace_prefix :
  Py.replace "https://huggingface.co/" "" "https://huggingface.co/org/M" = "org/M".
Proof. reflexivity. Qed.

Example replace_non_overlapping : Py.replace "aa" "b" "aaaaa" = "bba".
Proof. reflexivity. Qed.

Example split_fields : Py.split "/" "a/b//c" = ["a"; "b"; ""; "c"].
Proof. reflexivity. Qed.

Example split_none : Py.split "/" "abc" = ["abc"].
Proof. reflexivity. Qed.

Example split_once : Py.split1 "/" "a/b/c" = ["a"; "b/c"].
Proof. reflexivity. Qed.

Example endswith_py : Py.endswith ".py" "modeling_llama.py" = true.
Proof. reflexivity. Qed.

Example rstrip_paren : Py.rstrip1 ")" "https://github.com/a/b))" = "https://github.com/a/b".
Proof. reflexivity. Qed.

Example format_comma_groups :
  map Py.format_comma [0; 999; 1000; 1234567; -1234]
  = ["0"; "999"; "1,000"; "1,234,567"; "-1,234"].
Proof. reflexivity. Qed.

Example sorted_desc_is_stable :
  Py.sorted_desc (fun x => Z.of_nat (fst x))
    [(1%nat, "a"); (3%nat, "b"); (1%nat, "c"); (3%nat, "d"); (2%nat, "e")]
  = [(3%nat, "b"); (3%nat, "d"); (2%nat, "e"); (1%nat, "a"); (1%nat, "c")].
Proof. reflexivity. Qed.

Example findall_github_links :
  ModelScraper.findall_github
    "x https://github.com/a/b) y https://github.com/c/ https://github.com/d/e/f"
  = ["https://github.com/a/b)"; "https://github.com/d/e"].
Proof. reflexivity. Qed.

Example search_version_first_match :
  map ModelScraper.search_version ["Llama-3.1-8B-Instruct"; "abc"; "v7B"; "gpt2"]
  = [Some "3.1"; None; Some "7B"; Some "2"].
Proof. reflexivity. Qed.

End PyExamples.

(** ** Worked examples *)

Module Worked.
Import MissingModelsFinder ModelScraper ScraperSpec YamlLayout Examples.

(** C4 at concrete sessions: a 404 on the model info ends the run with
    status 1; with the model info served, a 404 on the card and a failed
    request for the file tree leave both fields empty and the run ends
    with status 0. *)
Lemma scrape_failure_modes_witness :
  scrape_huggingface_model info_missing "org/model" = empty_dict /\
  main info_missing "2024-06-01" models_path "org/model" ∅ = (1, ∅) /\
  is_empty (scrape_huggingface_model info_only "org/model") = false /\
  sd_model_card (scrape_huggingface_model info_only "org/model") = Some "" /\
  sd_repo_files (scrape_huggingface_model info_only "org/model") = Some [] /\
  fst (main info_only "2024-06-01" models_path "org/model" ∅) = 0.
Proof.
  pose proof (ScrapeFacts.scrape_failure_modes info_missing "org/model") as [Hfail _].
  pose proof (ScrapeFacts.scrape_failure_modes info_only "org/model") as [_ Hok].
  cbv zeta in Hfail, Hok.
  assert (F : primary_failed (get_info info_missing (api_url "org/model")))
    by (simpl; lia).
  assert (S : ~ primary_failed (get_info info_only (api_url "org/model")))
    by (simpl; lia).
  destruct (Hfail F) as (E & _ & Hmain).
  destruct (Hok S) as (Hne & _ & _ & _ & _ & Hcard & Htree & Hexit).
  split; [exact E|]. split; [apply Hmain|]. split; [exact Hne|].
  split; [apply Hcard; simpl; lia|]. split; [apply Htree; exact I|]. apply Hexit.
Defined.

(** C5 at concrete inputs: the license field wins over a LICENSE file, and
    a LICENSE file alone, or the sentinel, gives [unlicensed]. *)
Lemma detect_license_cases_witness :
  _detect_license apache_with_license_file = LicenseStr "apache-2.0" /\
  _detect_license license_file_only = LicenseStr "unlicensed" /\
  _detect_license other_license = LicenseStr "unlicensed".
Proof.
  destruct (LicenseFacts.detect_license_cases apache_with_license_file) as (H1 & _).
  destruct (LicenseFacts.detect_license_cases license_file_only) as (_ & H2 & _).
  destruct (LicenseFacts.detect_license_cases other_license) as (_ & _ & H3 & _).
  split; [apply (H1 (LicenseStr "apache-2.0")); reflexivity|].
  split; [apply H2; reflexivity|].
  apply (H3 (LicenseStr "other")); [reflexivity|right; reflexivity].
Defined.

(** C6 fails as stated: the metadata extracted for a model whose
    description links a repository has a repository confidence, and the
    draft has no line for it. *)
Lemma yaml_no_line_for_repository_confidence :
  md_repository_confidence linked_metadata = Some (70 # 100) /\
  In "repository_confidence" (present_fields linked_metadata) /\
  field_lines "repository_confidence"
    (text_lines (_format_yaml_mot_style linked_metadata (detect_components linked))) = [] /\
  ~ every_present_field_has_one_line linked_metadata (detect_components linked).
Proof.
  split; [reflexivity|].
  split; [vm_compute; tauto|].
  split; [vm_compute; reflexivity|].
  intros H. specialize (H "repository_confidence").
  assert (Hin : In "repository_confidence" (present_fields linked_metadata))
    by (vm_compute; tauto).
  specialize (H Hin). vm_compute in H. discriminate.
Qed.

(** C6 at the same input: the name, the repository and the hub link have
    one line each, the repository confidence none. *)
Lemma yaml_key_presence_witness :
  newline_free linked_metadata (detect_components linked) /\
  map (fun key =>
         field_lines key
           (text_lines (_format_yaml_mot_style linked_metadata (detect_components linked))))
      ["name"; "repository"; "huggingface"; "repository_confidence"]
  = [ ["  name: model"];
      ["  repository: 'https://github.com/org/training-code'"];
      ["  huggingface: 'https://huggingface.co/org/model'"];
      [] ].
Proof.
  assert (Hfree : newline_free linked_metadata (detect_components linked)).
  { split; vm_compute; repeat constructor. }
  split; [exact Hfree|].
  destruct (YamlFacts.yaml_key_presence linked_metadata (detect_components linked))
    as (_ & Htext & Hname & _ & _ & _ & _ & _ & _ & Hrepo & Hhf & Hconf & _).
  cbv zeta in *. rewrite (Htext Hfree). cbn [map].
  rewrite Hname, Hrepo, Hhf, Hconf. reflexivity.
Defined.

(** C7 fails as stated: a description with [transformer] and [encoder],
    and neither [decoder] nor [encoder-decoder], gives the encoder-decoder
    variant and not the plain one; and a description with
    [encoder-decoder] gives the decoder variant. *)
Lemma architecture_encoder_counterexample :
  (Py.contains "transformer" (Py.lower (model_card_of encoder_only)) = true /\
   Py.contains "decoder" (Py.lower (model_card_of encoder_only)) = false /\
   Py.contains "encoder-decoder" (Py.lower (model_card_of encoder_only)) = false /\
   md_architecture (_extract_model_metadata offline "2024-06-01" encoder_only)
     = "transformer encoder-decoder" /\
   md_architecture (_extract_model_metadata offline "2024-06-01" encoder_only)
     <> "transformer") /\
  (Py.contains "transformer" (Py.lower (model_card_of encoder_decoder)) = true /\
   Py.contains "encoder-decoder" (Py.lower (model_card_of encoder_decoder)) = true /\
   md_architecture (_extract_model_metadata offline "2024-06-01" encoder_decoder)
     = "transformer decoder" /\
   md_architecture (_extract_model_metadata offline "2024-06-01" encoder_decoder)
     <> "transformer encoder-decoder").
Proof. repeat split; try reflexivity; vm_compute; discriminate. Qed.

(** C7 at a concrete input: a description that names a transformer and
    neither a decoder nor an encoder. *)
Lemma architecture_detection_witness :
  md_architecture (_extract_model_metadata offline "2024-06-01" plain_transformer)
    = "transformer".
Proof.
  destruct (ArchitectureFacts.architecture_detection offline "2024-06-01" plain_transformer)
    as (_ & H & _).
  cbv zeta in H.
  assert (T : Occurs.occurs_ci "transformer" (model_card_of plain_transformer)).
  { exists "A small ", "Transformer", ".". split; reflexivity. }
  destruct (H (or_introl T)) as (_ & _ & Hplain).
  apply Hplain.
  - apply OccursFacts.contains_lower_false_iff; reflexivity.
  - apply OccursFacts.contains_lower_false_iff; reflexivity.
Defined.

(** C10 at a concrete input: the sentinel is replaced by [unlicensed] in
    every component. *)
Lemma detect_license_invariant_witness :
  length (detect_components other_license) = 2%nat /\
  Forall (fun c => license c = LicenseStr "unlicensed") (detect_components other_license).
Proof.
  split; [reflexivity|].
  destruct (LicenseFacts.detect_license_invariant other_license)
    as (_ & _ & _ & _ & _ & _ & H).
  eapply List.Forall_impl; [|exact H]. intros c (Hne & _ & [Hu|Hf]); [exact Hu|].
  change (Some (LicenseStr "other") = Some (license c)) in Hf.
  inversion Hf as [E]. now rewrite <- E in Hne.
Defined.

(** The scenario of the registry with one record: the remote model of the
    same name is present, another one is missing. *)
Example llama_present_and_missing :
  is_model_in_mot remote_llama (get_mot_models (Some (firstn 1 two_llama_files)))
    = (true, "Llama-2-7B.yml") /\
  is_model_in_mot remote_llama3 (get_mot_models (Some (firstn 1 two_llama_files)))
    = (false, "") /\
  find_missing [remote_llama; remote_llama3]
    (get_mot_models (Some (firstn 1 two_llama_files))) = [remote_llama3].
Proof. repeat split; vm_compute; reflexivity. Qed.

(** The thresholds: exactly 100000 is high, exactly 10000 is medium. *)
Example boundary_buckets :
  map hf_id (high_priority (categorize_missing_models boundary_models)) = [Some "x/high"] /\
  map hf_id (medium_priority (categorize_missing_models boundary_models))
    = [Some "x/medium"] /\
  map hf_id (low_priority (categorize_missing_models boundary_models)) = [Some "x/low"].
Proof. repeat split; reflexivity. Qed.

End Worked.

(** * Further properties *)

(** ** The remote listing *)

Module ListingFacts.
Import MissingModelsFinder ListingSpec.

Ltac zbool :=
  repeat match goal with
         | H : (_ <=? _) = true |- _ => apply Z.leb_le in H
         | H : (_ <=? _) = false |- _ => apply Z.leb_gt in H
         | H : (_ <? _) = true |- _ => apply Z.ltb_lt in H
         | H : (_ <? _) = false |- _ => apply Z.ltb_ge in H
         end.

Lemma take_batch_firstn (min_downloads limit : Z) (batch models : list hf_model) :
  Z.of_nat (length models) < limit ->
  take_batch min_downloads limit models batch
  = models ++ firstn (Z.to_nat limit - length models)
                (List.filter (keeps min_downloads) batch).
Proof.
  revert models. induction batch as [|m batch IH]; intros models Hlt.
  - simpl. now rewrite List.firstn_nil, List.app_nil_r.
  - cbn [take_batch List.filter]. cbv zeta. unfold keeps at 1.
    destruct (min_downloads <=? downloads_of m) eqn:Hk.
    + destruct (limit <=? Z.of_nat (length (models ++ [m]))) eqn:Hl.
      * rewrite List.length_app in Hl. change (length [m]) with 1%nat in Hl. zbool.
        replace (Z.to_nat limit - length models)%nat with 1%nat by lia.
        simpl. now rewrite List.firstn_O.
      * rewrite List.length_app in Hl. change (length [m]) with 1%nat in Hl. zbool.
        rewrite IH by (rewrite List.length_app; change (length [m]) with 1%nat; lia).
        rewrite List.length_app. change (length [m]) with 1%nat.
        replace (Z.to_nat limit - length models)%nat
          with (S (Z.to_nat limit - (length models + 1)))%nat by lia.
        simpl. now rewrite <- List.app_assoc.
    + assert ((limit <=? Z.of_nat (length models)) = false) as -> by (apply Z.leb_gt; lia).
      now apply IH.
Qed.

Lemma batches_from_filter (listing : nat -> page_result) (min_downloads : Z)
    (page k : nat) (batch : list hf_model) :
  page_batch (listing page) = Some batch ->
  List.filter (keeps min_downloads) (batches_from listing page (S k))
  = List.filter (keeps min_downloads) batch
    ++ List.filter (keeps min_downloads) (batches_from listing (S page) k).
Proof. intros H. cbn [batches_from]. rewrite H. simpl default. apply List.filter_app. Qed.

Lemma page_batch_Some (r : page_result) (batch : list hf_model) :
  page_batch r = Some batch ->
  exists status_code, r = Page status_code batch /\
    raises_for_status status_code = false /\ batch <> [].
Proof.
  destruct r as [|status_code b]; [discriminate|]. simpl.
  destruct (raises_for_status status_code) eqn:E; [discriminate|].
  destruct b; [discriminate|]. intros H. inversion H; subst.
  exists status_code. repeat split; [assumption|discriminate].
Qed.

(** The loop from any page and any accumulated list. *)
Lemma fetch_pages_prefix (listing : nat -> page_result) (min_downloads limit : Z)
    (k : nat) :
  forall (fuel page : nat) (models : list hf_model),
    (forall i, (i < k)%nat -> page_batch (listing (page + i)%nat) <> None) ->
    (page_batch (listing (page + k)%nat) = None \/
     limit <= Z.of_nat (length models
                        + length (List.filter (keeps min_downloads)
                                    (batches_from listing page k)))) ->
    (k < fuel)%nat ->
    fetch_pages fuel listing min_downloads limit models page
    = Some (models ++ firstn (Z.to_nat limit - length models)
                        (List.filter (keeps min_downloads)
                           (batches_from listing page k))).
Proof.
  induction k as [|k IH]; intros fuel page models Hgood Hstop Hfuel.
  - destruct fuel as [|fuel]; [lia|]. cbn [fetch_pages batches_from List.filter].
    rewrite List.firstn_nil, List.app_nil_r.
    destruct (Z.of_nat (length models) <? limit) eqn:Hlt; [|reflexivity]. zbool.
    destruct Hstop as [Hbad|Hlim]; [|simpl in Hlim; lia].
    rewrite Nat.add_0_r in Hbad.
    destruct (listing page) as [|status_code batch]; [reflexivity|].
    simpl in Hbad. destruct (raises_for_status status_code); [reflexivity|].
    destruct batch; [reflexivity|discriminate].
  - destruct fuel as [|fuel]; [lia|]. cbn [fetch_pages].
    destruct (Z.of_nat (length models) <? limit) eqn:Hlt; zbool.
    + destruct (page_batch (listing page)) as [batch|] eqn:Hpage.
      2:{ exfalso. apply (Hgood 0%nat); [lia|]. now rewrite Nat.add_0_r. }
      destruct (page_batch_Some _ _ Hpage) as (status_code & -> & Hst & Hne).
      rewrite Hst. destruct batch as [|m batch]; [now elim Hne|].
      rewrite Nat.add_1_r.
      rewrite (IH fuel (S page)).
      * rewrite (batches_from_filter _ _ _ _ _ Hpage).
        rewrite take_batch_firstn by lia.
        rewrite <- List.app_assoc. do 2 f_equal.
        rewrite List.firstn_app. f_equal.
        rewrite List.length_app, List.length_firstn.
        match goal with
        | |- context [Nat.min ?a ?b] => destruct (Nat.min_spec a b) as [[? ->]|[? ->]]
        end;
        match goal with
        | |- firstn ?a _ = firstn ?b _ => replace a with b by lia
        end;
        reflexivity.
      * intros i Hi. replace (S page + i)%nat with (page + S i)%nat by lia.
        apply Hgood. lia.
      * destruct Hstop as [Hbad|Hlim].
        -- left. now replace (S page + k)%nat with (page + S k)%nat by lia.
        -- right. rewrite (batches_from_filter _ _ _ _ _ Hpage) in Hlim.
           rewrite take_batch_firstn by lia.
           rewrite List.length_app in Hlim.
           rewrite List.length_app, List.length_firstn.
           match goal with
           | |- context [Nat.min ?a ?b] => destruct (Nat.min_spec a b) as [[? ->]|[? ->]]
           end; lia.
      * lia.
    + replace (Z.to_nat limit - length models)%nat with 0%nat by lia.
      now rewrite List.firstn_O, List.app_nil_r.
Qed.

(** X1: when the first [k] pages are served with a non-empty batch, and
    page [k] fails, is an error status or is empty, or the limit is
    already reached by then, the listing returns with [k + 1] requests at
    most, and what it returns is the models of those pages at or above the
    threshold, in order, cut at the limit. *)
Theorem get_huggingface_models_pages (listing : nat -> page_result)
    (min_downloads limit : Z) (k fuel : nat) :
  (forall i, (i < k)%nat -> page_batch (listing i) <> None) ->
  (page_batch (listing k) = None \/
   limit <= Z.of_nat (length (List.filter (keeps min_downloads)
                                (batches_from listing 0 k)))) ->
  (k < fuel)%nat ->
  get_huggingface_models fuel listing min_downloads limit
  = Some (firstn (Z.to_nat limit)
            (List.filter (keeps min_downloads) (batches_from listing 0 k))).
Proof.
  intros Hgood Hstop Hfuel. unfold get_huggingface_models.
  rewrite (fetch_pages_prefix listing min_downloads limit k fuel 0 [] Hgood Hstop Hfuel).
  simpl. now rewrite Nat.sub_0_r.
Qed.

Lemma In_firstn {A} (n : nat) (l : list A) (x : A) : In x (firstn n l) -> In x l.
Proof.
  revert n. induction l as [|a l IH]; intros [|n] H; simpl in *; try tauto.
  destruct H as [H|H]; [now left|right; eauto].
Qed.

Lemma take_batch_ok (listing : nat -> page_result) (min_downloads limit : Z)
    (page : nat) (status_code : Z) (batch models : list hf_model) :
  listing page = Page status_code batch ->
  raises_for_status status_code = false ->
  Z.of_nat (length models) < limit ->
  fetched_ok listing min_downloads limit models ->
  fetched_ok listing min_downloads limit (take_batch min_downloads limit models batch).
Proof.
  intros Hpage Hst Hlt (Hk & Hlen & Hfrom). rewrite take_batch_firstn by assumption.
  split; [|split].
  - apply List.Forall_app. split; [assumption|].
    apply List.Forall_forall. intros m Hm. apply In_firstn in Hm.
    apply List.filter_In in Hm. destruct Hm as [_ Hm]. unfold keeps in Hm. lia.
  - rewrite List.length_app, List.length_firstn.
    match goal with
    | |- context [Nat.min ?a ?b] => destruct (Nat.min_spec a b) as [[? ->]|[? ->]]
    end; lia.
  - apply List.Forall_app. split; [assumption|].
    apply List.Forall_forall. intros m Hm. apply In_firstn in Hm.
    apply List.filter_In in Hm. destruct Hm as [Hm _].
    exists page, status_code, batch. repeat split; assumption.
Qed.

Lemma fetch_pages_ok (listing : nat -> page_result) (min_downloads limit : Z)
    (fuel : nat) :
  forall (page : nat) (models result : list hf_model),
    fetched_ok listing min_downloads limit models ->
    fetch_pages fuel listing min_downloads limit models page = Some result ->
    fetched_ok listing min_downloads limit result.
Proof.
  induction fuel as [|fuel IH]; intros page models result Hok; cbn [fetch_pages].
  - destruct (Z.of_nat (length models) <? limit); [discriminate|].
    intros H. now inversion H; subst.
  - destruct (Z.of_nat (length models) <? limit) eqn:Hlt;
      [|intros H; now inversion H; subst].
    zbool.
    destruct (listing page) as [|status_code batch] eqn:Hpage;
      [intros H; now inversion H; subst|].
    destruct (raises_for_status status_code) eqn:Hst;
      [intros H; now inversion H; subst|].
    destruct batch as [|m batch]; [intros H; now inversion H; subst|].
    apply IH. eapply take_batch_ok; eassumption.
Qed.

(** X2: whatever the pages hold and however the loop ends, every model
    the listing returns is at or above the download threshold and comes
    from a page that was served without an error status, and there are no
    more of them than the limit (none when the limit is not positive). *)
Theorem get_huggingface_models_bounds (listing : nat -> page_result)
    (min_downloads limit : Z) (fuel : nat) (models : list hf_model) :
  get_huggingface_models fuel listing min_downloads limit = Some models ->
  Forall (fun m => min_downloads <= downloads_of m) models /\
  Z.of_nat (length models) <= Z.max 0 limit /\
  Forall (fun m => exists page status_code batch,
            listing page = Page status_code batch /\
            raises_for_status status_code = false /\ In m batch) models.
Proof.
  intros H. eapply (fetch_pages_ok listing min_downloads limit fuel 0 []); [|exact H].
  repeat split; try constructor. simpl. lia.
Qed.

End ListingFacts.

(** ** The registry loader *)

Module LoaderFacts.
Import MissingModelsFinder ListingSpec.

Lemma set_fresh {V} (k : string) (v : V) (d : list (string * V)) :
  ~ In k (Dict.keys d) -> Dict.set k v d = d ++ [(k, v)].
Proof.
  induction d as [|[k' v'] d IH]; intros H; simpl; [reflexivity|].
  destruct (String.eqb k' k) eqn:E.
  - apply String.eqb_eq in E. subst. exfalso. apply H. now left.
  - f_equal. apply IH. intros Hin. apply H. now right.
Qed.

Lemma load_file_entry (mot_models : list (string * mot_data)) (f : yaml_file) :
  load_file mot_models f
  = match loaded_entry f with
    | Some (k, v) => Dict.set k v mot_models
    | None => mot_models
    end.
Proof. unfold load_file, loaded_entry. now destruct (yf_doc f). Qed.

Lemma loaded_entry_stem (f : yaml_file) (e : string * mot_data) :
  loaded_entry f = Some e -> fst e = yf_stem f /\ mot_file (snd e) = yf_name f.
Proof.
  unfold loaded_entry. destruct (yf_doc f); try discriminate.
  intros H. inversion H. split; reflexivity.
Qed.

Lemma fold_load_files (files : list yaml_file) :
  forall acc : list (string * mot_data),
    List.NoDup (map yf_stem files) ->
    (forall f, In f files -> ~ In (yf_stem f) (Dict.keys acc)) ->
    fold_left load_file files acc = acc ++ loaded_entries files.
Proof.
  induction files as [|f files IH]; intros acc Hnd Hfresh.
  - simpl. now rewrite List.app_nil_r.
  - inversion Hnd as [|? ? Hnotin Hnd']; subst.
    cbn [fold_left loaded_entries]. rewrite load_file_entry.
    destruct (loaded_entry f) as [[k v]|] eqn:E.
    + destruct (loaded_entry_stem f _ E) as [Hk _]. simpl in Hk. subst k.
      rewrite set_fresh by (apply Hfresh; now left).
      rewrite IH; [now rewrite <- List.app_assoc|assumption|].
      intros g Hg. unfold Dict.keys. rewrite List.map_app, List.in_app_iff. simpl.
      intros [H|[H|[]]].
      * apply (Hfresh g); [now right|exact H].
      * apply Hnotin. rewrite H. now apply List.in_map.
    + apply IH; [assumption|]. intros g Hg. apply Hfresh. now right.
Qed.

(** X3: a directory that does not exist gives the empty mapping; for a
    directory whose file stems are distinct, the mapping holds, in the
    order of enumeration, one entry for each file that has a release,
    under the stem of the file and with the name of the file, and nothing
    for a file that cannot be read or has no release. *)
Theorem get_mot_models_entries (files : list yaml_file) :
  List.NoDup (map yf_stem files) ->
  get_mot_models None = [] /\
  get_mot_models (Some files) = loaded_entries files /\
  (length (get_mot_models (Some files)) <= length files)%nat /\
  (forall f, In f files -> loaded_entry f = None ->
     ~ In (yf_stem f) (Dict.keys (get_mot_models (Some files)))) /\
  (forall f r, In f files -> yf_doc f = YamlRelease r ->
     exists R, In (yf_stem f, R) (get_mot_models (Some files)) /\
       mot_file R = yf_name f /\
       mot_identifiers R
       = release_identifiers (get_str (rel_name r)) (get_str (rel_origin r))
           (get_str (rel_huggingface r))).
Proof.
  intros Hnd.
  assert (E : get_mot_models (Some files) = loaded_entries files).
  { unfold get_mot_models. rewrite fold_load_files; [reflexivity|assumption|].
    intros f _ []. }
  split; [reflexivity|]. split; [exact E|]. rewrite E. clear E.
  split; [|split].
  - clear Hnd. induction files as [|f files IH]; simpl; [lia|].
    destruct (loaded_entry f); simpl; lia.
  - induction files as [|g files IH]; intros f Hf Hnone; [destruct Hf|].
    inversion Hnd as [|? ? Hnotin Hnd']; subst.
    assert (Hkeys : forall k, In k (Dict.keys (loaded_entries files)) ->
                      In k (map yf_stem files)).
    { clear. induction files as [|h files IH]; simpl; [tauto|].
      intros k. destruct (loaded_entry h) as [e|] eqn:E; simpl.
      - destruct (loaded_entry_stem h e E) as [<- _]. intros [H|H]; [now left|right; auto].
      - intros H. right. auto. }
    cbn [loaded_entries]. destruct Hf as [->|Hf].
    + rewrite Hnone. intros H. apply Hnotin. now apply Hkeys.
    + destruct (loaded_entry g) as [e|] eqn:E.
      * simpl. intros [H|H]; [|now apply (IH Hnd' f Hf Hnone)].
        destruct (loaded_entry_stem g e E) as [He _]. rewrite He in H.
        apply Hnotin. rewrite H. now apply List.in_map.
      * now apply (IH Hnd' f Hf Hnone).
  - clear Hnd. induction files as [|g files IH]; intros f r Hf Hdoc; [destruct Hf|].
    cbn [loaded_entries]. destruct Hf as [->|Hf].
    + unfold loaded_entry at 1. rewrite Hdoc. eexists. split; [now left|].
      split; reflexivity.
    + destruct (IH f r Hf Hdoc) as (R & Hin & HR).
      exists R. split; [|exact HR].
      destruct (loaded_entry g); [now right|exact Hin].
Qed.

End LoaderFacts.

(** ** Case and the matcher *)

Module MatchFacts.
Import MissingModelsFinder ListingSpec.















End MatchFacts.

(** ** Answers of the matcher *)

Module AnswerFacts.
Import MissingModelsFinder ListingSpec Spec.

Lemma first_match_false (variations : gset string) (items : list (string * mot_data)) :
  Forall (fun e => variations ∩ mot_identifiers (snd e) = ∅) items ->
  first_match variations items = (false, "").
Proof.
  induction 1 as [|[k d] items Hd _ IH]; [reflexivity|]. simpl.
  apply FinderFacts.intersects_false in Hd. simpl in Hd. now rewrite Hd.
Qed.

Lemma first_match_cases (variations : gset string) (items : list (string * mot_data)) :
  (first_match variations items = (false, "") /\
   Forall (fun e => variations ∩ mot_identifiers (snd e) = ∅) items) \/
  (exists stem R, In (stem, R) items /\ variations ∩ mot_identifiers R ≠ ∅ /\
     first_match variations items = (true, mot_file R)).
Proof.
  induction items as [|[k d] items IH]; [left; split; [reflexivity|constructor]|].
  simpl. destruct (intersects variations (mot_identifiers d)) eqn:E.
  - right. exists k, d. split; [now left|]. split; [|reflexivity].
    now apply FinderFacts.intersects_true.
  - apply FinderFacts.intersects_false in E.
    destruct IH as [[H1 H2]|(stem & R & Hin & Hx & Hr)].
    + left. split; [assumption|]. now constructor.
    + right. exists stem, R. split; [now right|]. split; assumption.
Qed.

(** X6: the matcher answers present only for a record of the mapping that
    shares a variant with the identifier, and then names the file of such
    a record; it answers missing, with the empty file name, exactly when
    no record shares a variant. *)
Theorem is_model_in_mot_answers (hf_model : hf_model)
    (mot_models : list (string * mot_data)) :
  let model_id := default "" (hf_id hf_model) in
  (forall file, is_model_in_mot hf_model mot_models = (true, file) ->
     exists stem R, In (stem, R) mot_models /\ mot_file R = file /\
       normalize_model_id model_id ∩ mot_identifiers R ≠ ∅) /\
  (forall file, is_model_in_mot hf_model mot_models = (false, file) ->
     file = "" /\ no_match model_id mot_models) /\
  (no_match model_id mot_models ->
     is_model_in_mot hf_model mot_models = (false, "")) /\
  is_model_in_mot hf_model [] = (false, "").
Proof.
  cbv zeta. unfold is_model_in_mot, no_match. cbv zeta.
  set (variations := normalize_model_id (default "" (hf_id hf_model))).
  split; [|split; [|split]].
  - intros file H.
    destruct (first_match_cases variations mot_models)
      as [[H1 _]|(stem & R & Hin & Hx & Hr)]; [congruence|].
    rewrite Hr in H. inversion H. exists stem, R. repeat split; assumption.
  - intros file H.
    destruct (first_match_cases variations mot_models)
      as [[H1 H2]|(stem & R & Hin & Hx & Hr)]; [|congruence].
    rewrite H1 in H. inversion H. split; [reflexivity|assumption].
  - apply first_match_false.
  - reflexivity.
Qed.

(** X7: a record loaded from a release with a non-empty name is found for
    every remote identifier whose trailing segment is that name up to the
    case of the letters and the choice between hyphen and underscore. *)
Theorem is_model_in_mot_by_name (mot_models : list (string * mot_data))
    (stem : string) (R : mot_data) (model_name origin huggingface : string)
    (org name : string) (hf_model : hf_model) :
  In (stem, R) mot_models ->
  mot_identifiers R = release_identifiers model_name origin huggingface ->
  model_name <> "" ->
  Py.contains "/" name = false ->
  Py.replace "-" "_" (Py.lower name) = Py.replace "-" "_" (Py.lower model_name) ->
  hf_id hf_model = Some (org +:+ "/" +:+ name) ->
  fst (is_model_in_mot hf_model mot_models) = true.
Proof.
  intros Hin Hids Hne Hname Heq Hid.
  assert (Hx : normalize_model_id (org +:+ "/" +:+ name) ∩ mot_identifiers R ≠ ∅).
  { destruct (FinderFacts.normalize_model_id_of_parts org name Hname)
      as (_ & _ & _ & _ & _ & H & _).
    cbv zeta in H. rewrite Hids. unfold release_identifiers. cbv zeta.
    assert (Py.truthy model_name = true) as ->
      by (destruct model_name; [now elim Hne|reflexivity]).
    rewrite Heq in H.
    intros E. apply (not_elem_of_empty (C := gset string)
                       (Py.replace "-" "_" (Py.lower model_name))).
    rewrite <- E. apply elem_of_intersection. split; [exact H|].
    destruct (Py.truthy origin), (Py.truthy huggingface);
      repeat rewrite elem_of_union; rewrite ?elem_of_singleton; tauto. }
  destruct (FinderFacts.first_intersecting _ _ _ _ Hin Hx)
    as (before & stem' & R' & after & -> & Hb & HR').
  unfold is_model_in_mot. rewrite Hid. simpl default. cbv zeta.
  now rewrite FinderFacts.first_match_split.
Qed.

(** With an empty registry nothing is matched. *)
Lemma find_missing_nil (hf_models : list hf_model) :
  find_missing hf_models [] = hf_models.
Proof.
  unfold find_missing. induction hf_models as [|m l IH]; [reflexivity|].
  cbn [List.filter]. unfold is_model_in_mot at 1. cbn [first_match fst negb].
  now rewrite IH.
Qed.

(** X8: the models reported missing are the fetched models no record of
    the registry matches, in the order they were fetched; with an empty
    registry every fetched model is missing. *)
Theorem find_missing_members (hf_models : list hf_model)
    (mot_models : list (string * mot_data)) :
  (forall m, In m (find_missing hf_models mot_models) <->
     In m hf_models /\ no_match (default "" (hf_id m)) mot_models) /\
  sublist (find_missing hf_models mot_models) hf_models /\
  find_missing hf_models [] = hf_models.
Proof.
  split; [|split].
  - intros m. unfold find_missing. rewrite List.filter_In.
    unfold is_model_in_mot, no_match. cbv zeta.
    destruct (first_match_cases (normalize_model_id (default "" (hf_id m))) mot_models)
      as [[H1 H2]|(stem & R & Hin & Hx & Hr)].
    + rewrite H1. simpl. tauto.
    + rewrite Hr. simpl. split; [intros [_ H]; discriminate|].
      intros [_ H]. exfalso. rewrite List.Forall_forall in H.
      apply Hx. apply (H (stem, R) Hin).
  - unfold find_missing.
    induction hf_models as [|m l IH]; simpl; [constructor|].
    destruct (negb _); [now constructor|now apply sublist_cons].
  - apply find_missing_nil.
Qed.

(** X9: the three priority counts of the summary add up to the number of
    missing models, and so do the per-type counts. *)
Theorem report_counts_add_up (missing_models : list hf_model) :
  let categories := categorize_missing_models missing_models in
  (length (high_priority categories) + length (medium_priority categories)
   + length (low_priority categories) = length missing_models)%nat /\
  (list_sum (map (fun x => length (snd x)) (by_type categories))
   = length missing_models)%nat.
Proof.
  cbv zeta. split.
  - rewrite CategorizeFacts.high_is_filter, CategorizeFacts.medium_is_filter,
      CategorizeFacts.low_is_filter.
    rewrite <- (Permutation_length (CategorizeFacts.three_filters_permutation missing_models)).
    rewrite !List.length_app. lia.
  - rewrite CategorizeFacts.by_type_is_tabulate.
    rewrite <- (Permutation_length (CategorizeFacts.type_lists_permutation missing_models)).
    unfold Dict.tabulate. rewrite List.map_map. simpl.
    generalize (types_of missing_models). intros ks.
    induction ks as [|k ks IH]; [reflexivity|].
    simpl. rewrite List.length_app. now rewrite IH.
Qed.

End AnswerFacts.

(** ** The detectors *)

Module DetectorFacts.
Import ModelScraper ScraperSpec DetectorSpec.

Lemma append_if_split {A} (b : bool) (l : list A) (x : A) :
  (if b then l ++ [x] else l) = l ++ (if b then [x] else []).
Proof. destruct b; [reflexivity|now rewrite List.app_nil_r]. Qed.

Lemma filter_detector {A} (b : bool) (x : A) (l : list (bool * A)) :
  map snd (List.filter fst ((b, x) :: l))
  = (if b then [x] else []) ++ map snd (List.filter fst l).
Proof. now destruct b. Qed.

(** The candidates are those of the detectors whose test holds. *)
Lemma detect_components_detectors (scraped_data : scraped_data) :
  detect_components scraped_data
  = map snd (List.filter fst (detectors scraped_data)).
Proof.
  unfold detect_components. cbv zeta. rewrite !append_if_split.
  unfold detectors.
  fold (has_parameters scraped_data). fold (has_config scraped_data).
  fold (has_architecture scraped_data). fold (has_inference scraped_data).
  fold (has_card scraped_data).
  fold (mentions ["technical report"; "tech report"; "documentation"] scraped_data).
  fold (mentions ["paper"; "arxiv"; "publication"] scraped_data).
  fold (mentions ["evaluation"; "benchmark"; "performance"; "results"] scraped_data).
  fold (mentions ["training data"; "trained on"; "dataset"] scraped_data).
  rewrite !filter_detector. cbn [List.filter map].
  rewrite List.app_nil_r, <- !List.app_assoc. reflexivity.
Qed.

Lemma sublist_map_filter {A B} (f : A -> B) (p : A -> bool) (l : list A) :
  sublist (map f (List.filter p l)) (map f l).
Proof.
  induction l as [|a l IH]; simpl; [constructor|].
  destruct (p a); simpl; [now constructor|now apply sublist_cons].
Qed.

Lemma NoDup_map_filter {A B} (f : A -> B) (p : A -> bool) (l : list A) :
  List.NoDup (map f l) -> List.NoDup (map f (List.filter p l)).
Proof.
  induction l as [|a l IH]; simpl; intros H; [constructor|].
  inversion H as [|? ? Hnotin Hnd]; subst.
  destruct (p a); simpl; [|now apply IH].
  constructor; [|now apply IH].
  intros Hin. apply Hnotin. apply List.in_map_iff in Hin.
  destruct Hin as (x & Hx & Hin). apply List.filter_In in Hin.
  apply List.in_map_iff. exists x. tauto.
Qed.

Lemma NoDup_map_inj {A B} (g : A -> B) (l : list A) (x y : A) :
  List.NoDup (map g l) -> In x l -> In y l -> g x = g y -> x = y.
Proof.
  induction l as [|a l IH]; intros Hnd Hx Hy E; [destruct Hx|].
  simpl in Hnd. inversion Hnd as [|? ? Hnotin Hnd']; subst.
  destruct Hx as [->|Hx], Hy as [->|Hy]; try reflexivity.
  - exfalso. apply Hnotin. rewrite E. now apply List.in_map.
  - exfalso. apply Hnotin. rewrite <- E. now apply List.in_map.
  - now apply IH.
Qed.

Lemma detector_names (scraped_data : scraped_data) :
  map (fun d => name (snd d)) (detectors scraped_data) = component_names.
Proof. reflexivity. Qed.

Lemma component_names_NoDup : List.NoDup component_names.
Proof.
  unfold component_names.
  repeat (constructor; [simpl; intuition discriminate|]). constructor.
Qed.

(** X10: each of the nine detectors decides alone whether its candidate is
    reported: a candidate is in the result exactly when its own test
    holds, whatever the other tests give.  The candidates come in the
    order of the detectors, their names are distinct, there are nine at
    most, and a model without files and with an empty description has
    none. *)
Theorem detect_components_independent (scraped_data : scraped_data) :
  (forall test comp, In (test, comp) (detectors scraped_data) ->
     (In comp (detect_components scraped_data) <-> test = true)) /\
  sublist (map name (detect_components scraped_data)) component_names /\
  List.NoDup (map name (detect_components scraped_data)) /\
  (length (detect_components scraped_data) <= 9)%nat /\
  (repo_files_of scraped_data = [] -> model_card_of scraped_data = "" ->
     detect_components scraped_data = []).
Proof.
  rewrite detect_components_detectors.
  split; [|split; [|split; [|split]]].
  - intros test comp Hin. rewrite List.in_map_iff. split.
    + intros ([t c] & Hc & Hf). simpl in Hc. subst c.
      apply List.filter_In in Hf. destruct Hf as [Hf Ht]. simpl in Ht. subst t.
      assert (E : (true, comp) = (test, comp)).
      { apply (NoDup_map_inj (fun d => name (snd d)) (detectors scraped_data));
          [rewrite detector_names; apply component_names_NoDup|assumption..|reflexivity]. }
      now inversion E.
    + intros ->. exists (true, comp). split; [reflexivity|].
      apply List.filter_In. split; [assumption|reflexivity].
  - rewrite List.map_map, <- (detector_names scraped_data).
    apply sublist_map_filter.
  - rewrite List.map_map. apply NoDup_map_filter.
    rewrite detector_names. apply component_names_NoDup.
  - rewrite List.length_map.
    etransitivity; [apply List.filter_length_le|]. reflexivity.
  - intros Hfiles Hcard.
    unfold detectors, has_parameters, has_config, has_architecture, has_inference,
      has_card, mentions.
    rewrite Hfiles, Hcard. reflexivity.
Qed.

(** X11: every candidate has a confidence from 0.50 to 0.95 and a
    non-empty name, description and location; the candidates found in the
    repository carry the detected license and those found in the
    description are unlicensed. *)
Theorem detect_components_fields (scraped_data : scraped_data) :
  Forall (fun c =>
            (50 # 100 <= confidence c)%Q /\ (confidence c <= 95 # 100)%Q /\
            name c <> "" /\ description c <> "" /\
            ((location c = "HuggingFace repository" /\
              license c = _detect_license scraped_data) \/
             ((location c = "Referenced in model card" \/ location c = "Model card") /\
              license c = LicenseStr "unlicensed")))
         (detect_components scraped_data).
Proof.
  rewrite detect_components_detectors.
  apply List.Forall_forall. intros c Hc. apply List.in_map_iff in Hc.
  destruct Hc as ([t c'] & <- & Hin). apply List.filter_In in Hin.
  destruct Hin as [Hin _]. unfold detectors in Hin. simpl in Hin.
  repeat match goal with
         | H : _ \/ _ |- _ => destruct H as [H|H]
         end; try contradiction; inversion Hin; subst; simpl;
    (split; [unfold Qle; simpl; lia|]); (split; [unfold Qle; simpl; lia|]);
    (split; [discriminate|]); (split; [discriminate|]); tauto.
Qed.

End DetectorFacts.

(** ** Prefixes, spans and stripping *)

Module TextFacts.
Import Occurs.

Lemma rev_app_append (s t : string) :
  String.rev_app s t = String.rev_app s "" +:+ t.
Proof.
  revert t. induction s as [|c s IH]; intros t; [reflexivity|].
  simpl. rewrite (IH (String c t)), (IH (String c "")).
  now rewrite OccursFacts.append_assoc.
Qed.

Lemma rev_app_app (a b t : string) :
  String.rev_app (a +:+ b) t = String.rev_app b (String.rev_app a t).
Proof.
  revert t. induction a as [|c a IH]; intros t; [reflexivity|].
  rewrite OccursFacts.append_cons. simpl. apply IH.
Qed.

Lemma rev_append (a b : string) :
  String.rev (a +:+ b) = String.rev b +:+ String.rev a.
Proof. unfold String.rev. rewrite rev_app_app. apply rev_app_append. Qed.

Lemma rev_involutive (s : string) : String.rev (String.rev s) = s.
Proof. unfold String.rev at 2. rewrite PyFacts.rev_rev_app. reflexivity. Qed.

Lemma rev_cons (c : ascii) (s : string) :
  String.rev (String c s) = String.rev s +:+ String c "".
Proof. apply (rev_append (String c "") s). Qed.

Lemma lstrip1_stop (c d : ascii) (x y : string) :
  Ascii.eqb d c = false ->
  Py.lstrip1 c (x +:+ String d y) = Py.lstrip1 c x +:+ String d y.
Proof.
  intros Hd. induction x as [|e x IH].
  - simpl. now rewrite Hd.
  - rewrite OccursFacts.append_cons. simpl. destruct (Ascii.eqb e c); [exact IH|reflexivity].
Qed.

(** Stripping on the right stops at a character that is not stripped. *)
Lemma rstrip1_stop (c d : ascii) (a b : string) :
  Ascii.eqb d c = false ->
  Py.rstrip1 c (a +:+ String d b) = a +:+ String d (Py.rstrip1 c b).
Proof.
  intros Hd. unfold Py.rstrip1.
  rewrite rev_append, rev_cons, OccursFacts.append_assoc.
  change (String d "" +:+ String.rev a) with (String d (String.rev a)).
  rewrite lstrip1_stop by assumption.
  rewrite rev_append, rev_cons, rev_involutive, OccursFacts.append_assoc.
  reflexivity.
Qed.

Lemma startswith_app (p s : string) : Py.startswith p (p +:+ s) = true.
Proof. apply OccursFacts.startswith_iff. now exists s. Qed.

Lemma span_app (p : ascii -> bool) (s a b : string) :
  Py.span p s = (a, b) -> s = a +:+ b.
Proof.
  revert a b. induction s as [|c s IH]; intros a b H; simpl in H.
  - now inversion H.
  - destruct (p c).
    + destruct (Py.span p s) as [a' b']. inversion H; subst.
      rewrite OccursFacts.append_cons. f_equal. now apply IH.
    + now inversion H.
Qed.

Lemma substring_all (s : string) : String.substring 0 (String.length s) s = s.
Proof. induction s as [|c s IH]; [reflexivity|]. simpl. now rewrite IH. Qed.

Lemma substring_drop (p s : string) :
  String.substring (String.length p) (String.length (p +:+ s) - String.length p) (p +:+ s)
  = s.
Proof.
  induction p as [|c p IH].
  - change ("" +:+ s) with s. change (String.length "") with 0%nat.
    rewrite Nat.sub_0_r. apply substring_all.
  - rewrite OccursFacts.append_cons. simpl. exact IH.
Qed.

Lemma occurs_cons (c : ascii) (sub s : string) : occurs sub s -> occurs sub (String c s).
Proof. intros (a & b & ->). exists (String c a), b. reflexivity. Qed.

Lemma occurs_prefix (sub rest : string) : occurs sub (sub +:+ rest).
Proof. exists "", rest. reflexivity. Qed.

End TextFacts.

(** ** Repository links *)

Module RepositoryFacts.
Import ModelScraper ScraperSpec Occurs RepositorySpec.

(** A match of the repository pattern is the prefix, an owner, a slash
    and a repository name, and it starts the text. *)
Lemma match_github_shape (s url : string) :
  match_github s = Some url ->
  exists owner repo rest,
    url = github_prefix +:+ owner +:+ "/" +:+ repo /\
    owner <> "" /\ repo <> "" /\ s = url +:+ rest.
Proof.
  unfold match_github.
  destruct (Py.startswith github_prefix s) eqn:Hp; [|discriminate].
  apply OccursFacts.startswith_iff in Hp. destruct Hp as [b ->].
  rewrite TextFacts.substring_drop.
  destruct (Py.span url_char b) as [owner rest1] eqn:H1.
  apply TextFacts.span_app in H1. subst b.
  destruct owner as [|o owner]; [discriminate|].
  destruct rest1 as [|c rest1]; [discriminate|].
  destruct (Ascii.eqb c "/") eqn:Ec.
  2:{ destruct c as [[] [] [] [] [] [] [] []]; try discriminate. }
  apply Ascii.eqb_eq in Ec. subst c.
  destruct (Py.span url_char rest1) as [repo rest2] eqn:H2.
  apply TextFacts.span_app in H2. subst rest1.
  destruct repo as [|r repo]; [discriminate|].
  intros H. inversion H. clear H.
  exists (String o owner), (String r repo), rest2.
  split; [reflexivity|]. split; [discriminate|]. split; [discriminate|].
  rewrite !OccursFacts.append_assoc. reflexivity.
Qed.

Lemma is_link_cons (c : ascii) (text url : string) :
  is_link text url -> is_link (String c text) url.
Proof.
  intros (owner & repo & H1 & H2 & H3 & H4).
  exists owner, repo. repeat split; try assumption. now apply TextFacts.occurs_cons.
Qed.

Lemma findall_github_go_links (s : string) :
  forall skip, Forall (is_link s) (findall_github_go skip s).
Proof.
  induction s as [|c s IH]; intros skip; [constructor|].
  cbn [findall_github_go]. destruct skip as [|k].
  - destruct (match_github (String c s)) as [url|] eqn:E.
    + constructor.
      * destruct (match_github_shape _ _ E) as (owner & repo & rest & H1 & H2 & H3 & H4).
        exists owner, repo. repeat split; try assumption.
        rewrite H4. apply TextFacts.occurs_prefix.
      * eapply List.Forall_impl; [|apply IH]. intros u. apply is_link_cons.
    + eapply List.Forall_impl; [|apply IH]. intros u. apply is_link_cons.
  - eapply List.Forall_impl; [|apply IH]. intros u. apply is_link_cons.
Qed.

Lemma findall_github_go_none (s : string) :
  Py.contains github_prefix s = false ->
  forall skip, findall_github_go skip s = [].
Proof.
  induction s as [|c s IH]; intros H skip; [reflexivity|].
  rewrite OccursFacts.contains_unfold in H.
  destruct (Py.startswith github_prefix (String c s)) eqn:Hp; [discriminate|].
  cbn [findall_github_go]. destruct skip as [|k]; [|now apply IH].
  unfold match_github. rewrite Hp. now apply IH.
Qed.

(** X12: every link the scan of a description finds is the text
    [https://github.com/], a non-empty owner, a slash and a non-empty
    repository name, and occurs in the description; a description in which
    [https://github.com/] does not occur has no link. *)
Theorem findall_github_shape (text : string) :
  Forall (fun url =>
            exists owner repo,
              url = "https://github.com/" +:+ owner +:+ "/" +:+ repo /\
              owner <> "" /\ repo <> "" /\ occurs url text)
         (findall_github text) /\
  (Py.contains "https://github.com/" text = false -> findall_github text = []).
Proof.
  split.
  - apply (findall_github_go_links text 0).
  - intros H. now apply findall_github_go_none.
Qed.

Lemma rstrip_link (text url : string) :
  is_link text url -> Py.startswith github_prefix (Py.rstrip1 ")" url) = true.
Proof.
  intros (owner & repo & -> & _).
  change github_prefix with ("https://github.com" +:+ "/").
  rewrite OccursFacts.append_assoc.
  change ("/" +:+ owner +:+ "/" +:+ repo) with (String "/" (owner +:+ "/" +:+ repo)).
  rewrite TextFacts.rstrip1_stop by reflexivity.
  apply (TextFacts.startswith_app ("https://github.com" +:+ "/")).
Qed.

Lemma first_relevant_In (model_name : string) (github_urls : list string) (url : string) :
  first_relevant model_name github_urls = Some url ->
  (exists u, In u github_urls /\ url = Py.rstrip1 ")" u) /\
  Py.contains model_name (Py.lower url) = true.
Proof.
  induction github_urls as [|u rest IH]; [discriminate|]. cbn [first_relevant]. cbv zeta.
  destruct (Py.contains model_name (Py.lower (Py.rstrip1 ")" u))) eqn:E.
  - intros H. inversion H; subst. split; [exists u; split; [now left|reflexivity]|exact E].
  - intros H. destruct (IH H) as [(u' & Hin & ->) Hc].
    split; [exists u'; split; [now right|reflexivity]|exact Hc].
Qed.

Lemma first_existing_shape (self : session) (org : string) (base_names : list string)
    (url : string) :
  first_existing self org base_names = Some url ->
  Py.startswith github_prefix url = true /\ _check_repo_exists self url = true.
Proof.
  induction base_names as [|b rest IH]; [discriminate|]. cbn [first_existing]. cbv zeta.
  destruct (_check_repo_exists self ("https://github.com/" +:+ org +:+ "/" +:+ b)) eqn:E.
  - intros H. inversion H; subst. split; [apply TextFacts.startswith_app|exact E].
  - exact IH.
Qed.

(** What the repository detection can give. *)
Lemma detect_repository_cases (self : session) (scraped_data : scraped_data) :
  let '(repository, repo_confidence) := _detect_repository self scraped_data in
  (repository = "" /\ repo_confidence = 0 # 100) \/
  (Py.startswith "https://github.com/" repository = true /\
   In repo_confidence [90 # 100; 70 # 100; 65 # 100; 60 # 100]).
Proof.
  unfold _detect_repository. cbv zeta.
  pose proof (findall_github_go_links (model_card_of scraped_data) 0) as Hlinks.
  fold (findall_github (model_card_of scraped_data)) in Hlinks.
  destruct (findall_github (model_card_of scraped_data)) as [|first_url rest] eqn:Hurls.
  - destruct (_check_repo_exists self _) eqn:E.
    + right. split; [apply TextFacts.startswith_app|simpl; tauto].
    + destruct (Py.contains "/" (model_id_of scraped_data)).
      * destruct (first_existing self _ _) as [url|] eqn:F.
        -- right. destruct (first_existing_shape _ _ _ _ F) as [Hp _].
           split; [exact Hp|simpl; tauto].
        -- left. split; reflexivity.
      * left. split; reflexivity.
  - destruct (first_relevant _ (first_url :: rest)) as [url|] eqn:F.
    + right. destruct (first_relevant_In _ _ _ F) as [(u & Hin & ->) _].
      rewrite List.Forall_forall in Hlinks.
      split; [eapply rstrip_link; now apply Hlinks|simpl; tauto].
    + right. rewrite List.Forall_forall in Hlinks.
      split; [eapply rstrip_link; apply Hlinks; now left|simpl; tauto].
Qed.

(** X13: the repository detection gives either no repository with
    confidence 0, or an address that starts with [https://github.com/]
    with a confidence of 0.90, 0.70, 0.65 or 0.60.  The metadata record
    the address and its confidence together in the second case, and
    neither of them in the first. *)
Theorem detect_repository_outcome (self : session) (today : string)
    (scraped_data : scraped_data) :
  let md := _extract_model_metadata self today scraped_data in
  let '(repository, repo_confidence) := _detect_repository self scraped_data in
  (repository = "" /\ repo_confidence = 0 # 100 /\
   md_repository md = None /\ md_repository_confidence md = None) \/
  (Py.startswith "https://github.com/" repository = true /\
   In repo_confidence [90 # 100; 70 # 100; 65 # 100; 60 # 100] /\
   md_repository md = Some repository /\
   md_repository_confidence md = Some repo_confidence).
Proof.
  cbv zeta. pose proof (detect_repository_cases self scraped_data) as H.
  unfold _extract_model_metadata. cbv zeta.
  destruct (_detect_repository self scraped_data) as [repository repo_confidence].
  destruct H as [[-> ->]|[Hp Hc]].
  - left. repeat split; reflexivity.
  - right. destruct repository as [|c r]; [discriminate Hp|].
    repeat split; assumption.
Qed.

(** X14: when the description has a link, no request is made: the result
    is the same for every session.  It is a link of the description
    without its closing parentheses; its confidence is 0.90 when the
    lower-cased link contains the lower-cased trailing segment of the
    identifier, and otherwise it is the first link, with confidence
    0.70. *)
Theorem detect_repository_from_description (self1 self2 : session)
    (scraped_data : scraped_data) :
  findall_github (model_card_of scraped_data) <> [] ->
  _detect_repository self1 scraped_data = _detect_repository self2 scraped_data /\
  exists link,
    In link (findall_github (model_card_of scraped_data)) /\
    let model_name := Py.lower (Py.last (Py.split "/" (model_id_of scraped_data))) in
    ((_detect_repository self1 scraped_data = (Py.rstrip1 ")" link, 90 # 100) /\
      Py.contains model_name (Py.lower (Py.rstrip1 ")" link)) = true) \/
     (_detect_repository self1 scraped_data = (Py.rstrip1 ")" link, 70 # 100) /\
      link = hd "" (findall_github (model_card_of scraped_data)) /\
      Forall (fun u => Py.contains model_name (Py.lower (Py.rstrip1 ")" u)) = false)
        (findall_github (model_card_of scraped_data)))).
Proof.
  intros Hne. unfold _detect_repository. cbv zeta.
  destruct (findall_github (model_card_of scraped_data)) as [|first_url rest] eqn:Hurls;
    [now elim Hne|].
  split; [reflexivity|].
  set (model_name := Py.lower (Py.last (Py.split "/" (model_id_of scraped_data)))).
  destruct (first_relevant model_name (first_url :: rest)) as [url|] eqn:F.
  - destruct (first_relevant_In _ _ _ F) as [(u & Hin & ->) Hc].
    exists u. split; [exact Hin|]. left. split; [reflexivity|exact Hc].
  - exists first_url. split; [now left|]. right.
    split; [reflexivity|]. split; [reflexivity|].
    clear Hurls Hne. revert F. generalize (first_url :: rest). intros l.
    induction l as [|u l IH]; [constructor|]. cbn [first_relevant]. cbv zeta.
    destruct (Py.contains model_name (Py.lower (Py.rstrip1 ")" u))) eqn:E; [discriminate|].
    intros F. constructor; [exact E|now apply IH].
Qed.

Lemma first_existing_base (self : session) (org : string) (base_names : list string)
    (url : string) :
  first_existing self org base_names = Some url ->
  exists base, In base base_names /\
    url = "https://github.com/" +:+ org +:+ "/" +:+ base.
Proof.
  induction base_names as [|b rest IH]; [discriminate|]. cbn [first_existing]. cbv zeta.
  destruct (_check_repo_exists self ("https://github.com/" +:+ org +:+ "/" +:+ b)).
  - intros H. inversion H. exists b. split; [now left|reflexivity].
  - intros H. destruct (IH H) as (base & Hin & ->). exists base. split; [now right|reflexivity].
Qed.

(** X15: when the description has no link, a repository is reported only
    if its address answered the probe: with confidence 0.65 the address
    built from the identifier, and with confidence 0.60, after that
    address failed and for an identifier with an organization only, the
    address built from the organization and the name up to its first
    hyphen, the lower-cased name or the name.  When no probe succeeds, or
    the first fails and the identifier has no organization, no repository
    is reported. *)
Theorem detect_repository_probes (self : session) (scraped_data : scraped_data) :
  findall_github (model_card_of scraped_data) = [] ->
  let model_id := model_id_of scraped_data in
  let guess := "https://github.com/" +:+ model_id in
  let org := Py.first (Py.split1 "/" model_id) in
  let name := Py.last (Py.split1 "/" model_id) in
  (let '(repository, repo_confidence) := _detect_repository self scraped_data in
   (repository = "" /\ repo_confidence = 0 # 100 /\
    _check_repo_exists self guess = false) \/
   (repository = guess /\ repo_confidence = 65 # 100 /\
    _check_repo_exists self guess = true) \/
   (repo_confidence = 60 # 100 /\
    _check_repo_exists self guess = false /\ Py.contains "/" model_id = true /\
    _check_repo_exists self repository = true /\
    exists base, In base [Py.first (Py.split "-" name); Py.lower name; name] /\
      repository = "https://github.com/" +:+ org +:+ "/" +:+ base)) /\
  (_check_repo_exists self guess = false -> Py.contains "/" model_id = false ->
     _detect_repository self scraped_data = ("", 0 # 100)) /\
  ((forall url, _check_repo_exists self url = false) ->
     _detect_repository self scraped_data = ("", 0 # 100)).
Proof.
  intros Hnone. cbv zeta. unfold _detect_repository. cbv zeta. rewrite Hnone.
  split; [|split].
  - destruct (_check_repo_exists self ("https://github.com/" +:+ model_id_of scraped_data))
      eqn:E; [right; left; repeat split|].
    destruct (Py.contains "/" (model_id_of scraped_data)) eqn:Hs;
      [|left; repeat split].
    destruct (first_existing self _ _) as [url|] eqn:F; [|left; repeat split].
    right; right.
    destruct (first_existing_shape _ _ _ _ F) as [_ Hc].
    destruct (first_existing_base _ _ _ _ F) as (base & Hin & ->).
    repeat split; try assumption. exists base. split; [exact Hin|reflexivity].
  - intros -> ->. reflexivity.
  - intros Hall. rewrite Hall.
    destruct (Py.contains "/" (model_id_of scraped_data)); [|reflexivity].
    cbn [first_existing]. cbv zeta. now rewrite !Hall.
Qed.

End RepositoryFacts.

(** ** The extracted metadata *)

Module MetadataFacts.
Import ModelScraper ScraperSpec MetadataSpec Occurs.

(** The fields of the extracted metadata, one by one. *)
Lemma extract_fields (self : session) (today : string) (scraped_data : scraped_data) :
  let md := _extract_model_metadata self today scraped_data in
  let model_id := model_id_of scraped_data in
  let model_name :=
    if Py.contains "/" model_id then Py.last (Py.split "/" model_id) else model_id in
  md_name md = model_name /\
  md_version md = default "1.0" (search_version model_name) /\
  md_producer md
    = Py.title (Py.replace "_" " " (Py.replace "-" " "
        (if Py.contains "/" model_id then Py.first (Py.split "/" model_id)
         else "Unknown"))) /\
  md_type md = pick_type "" (tags_of_info scraped_data) /\
  md_date md
    = (if Py.truthy (last_modified_of scraped_data)
       then Py.first (Py.split "T" (last_modified_of scraped_data)) else today) /\
  md_origin md = Py.lower model_name /\
  md_huggingface md = Some ("https://huggingface.co/" +:+ model_id) /\
  md_repository md
    = (if Py.truthy (fst (_detect_repository self scraped_data))
       then Some (fst (_detect_repository self scraped_data)) else None) /\
  md_repository_confidence md
    = (if Py.truthy (fst (_detect_repository self scraped_data))
       then Some (snd (_detect_repository self scraped_data)) else None).
Proof.
  cbv zeta. unfold _extract_model_metadata, tags_of_info, last_modified_of. cbv zeta.
  destruct (_detect_repository self scraped_data) as [repository repo_confidence].
  cbn [fst snd]. destruct (Py.truthy repository); repeat split; reflexivity.
Qed.

Lemma split_no_sep (sep : ascii) (s : string) :
  Py.contains (String sep "") s = false -> Py.split sep s = [s].
Proof. intros H. unfold Py.split. now rewrite PyFacts.split_go_no_sep. Qed.

Lemma first_split (sep : ascii) (a b : string) :
  Py.contains (String sep "") a = false ->
  Py.first (Py.split sep (a +:+ String sep b)) = a.
Proof. intros H. unfold Py.split. now rewrite YamlFacts.split_go_field. Qed.

(** X16: the name of the release is the trailing segment of the
    identifier, the origin is its lower-casing, and the hub link is the
    identifier after [https://huggingface.co/].  An identifier without
    organization is its own name and has the producer [Unknown]; otherwise
    the producer is made from the first segment, hyphens and underscores
    turned into spaces and the words capitalized. *)
Theorem extract_identity (self : session) (today : string) (scraped_data : scraped_data) :
  let md := _extract_model_metadata self today scraped_data in
  let model_id := model_id_of scraped_data in
  md_name md = Py.last (Py.split "/" model_id) /\
  md_origin md = Py.lower (md_name md) /\
  md_huggingface md = Some ("https://huggingface.co/" +:+ model_id) /\
  (Py.contains "/" model_id = false ->
     md_name md = model_id /\ md_producer md = "Unknown") /\
  (forall org rest, model_id = org +:+ "/" +:+ rest -> Py.contains "/" org = false ->
     md_producer md = Py.title (Py.replace "_" " " (Py.replace "-" " " org))) /\
  (forall prefix name, model_id = prefix +:+ "/" +:+ name ->
     Py.contains "/" name = false -> md_name md = name).
Proof.
  cbv zeta.
  destruct (extract_fields self today scraped_data)
    as (Hname & _ & Hprod & _ & _ & Horigin & Hhf & _).
  cbv zeta in *. rewrite Horigin, Hhf, Hname, Hprod.
  clear. generalize (model_id_of scraped_data). intros model_id.
  destruct (Py.contains "/" model_id) eqn:Hs.
  - split; [reflexivity|]. split; [reflexivity|]. split; [reflexivity|].
    split; [discriminate|]. split.
    + intros org rest -> Horg.
      change (org +:+ "/" +:+ rest) with (org +:+ String "/" rest).
      now rewrite first_split.
    + intros prefix name -> Hn.
      change (prefix +:+ "/" +:+ name) with (prefix +:+ String "/" name).
      now rewrite PyFacts.last_split.
  - rewrite (split_no_sep "/" model_id Hs).
    split; [reflexivity|]. split; [reflexivity|]. split; [reflexivity|].
    split; [split; reflexivity|]. split.
    + intros org rest E. exfalso. rewrite E in Hs.
      change (org +:+ "/" +:+ rest) with (org +:+ String "/" rest) in Hs.
      now rewrite PyFacts.contains_char_app_r in Hs.
    + intros prefix name E. exfalso. rewrite E in Hs.
      change (prefix +:+ "/" +:+ name) with (prefix +:+ String "/" name) in Hs.
      now rewrite PyFacts.contains_char_app_r in Hs.
Qed.

(** *** The version *)

Lemma dot_split (r1 : string) :
  exists dot r2,
    match r1 with
    | String "."%char rest' => (".", rest')
    | _ => ("", r1)
    end = (dot, r2) /\ r1 = dot +:+ r2.
Proof.
  destruct r1 as [|d r]; [exists "", ""; split; reflexivity|].
  destruct d as [[] [] [] [] [] [] [] []];
    first [ exists ".", r; split; reflexivity | eexists "", _; split; reflexivity ].
Qed.

Lemma suffix_split (r3 : string) :
  exists r4,
    r3 = match r3 with
         | String c _ =>
             if (Ascii.eqb c "B" || Ascii.eqb c "M" || Ascii.eqb c "K")%bool
             then String c "" else ""
         | EmptyString => ""
         end +:+ r4.
Proof.
  destruct r3 as [|c r]; [exists ""; reflexivity|].
  destruct (Ascii.eqb c "B" || Ascii.eqb c "M" || Ascii.eqb c "K")%bool;
    eexists; reflexivity.
Qed.

(** A match of the version pattern: it needs a digit first, and it is a
    prefix of the text. *)
Lemma match_version_cases (s : string) :
  match s with
  | String c s' =>
      if Py.is_digit c
      then exists v' rest, match_version s = Some (String c v') /\ s = String c v' +:+ rest
      else match_version s = None
  | EmptyString => match_version s = None
  end.
Proof.
  destruct s as [|c s]; [reflexivity|].
  destruct (Py.is_digit c) eqn:E.
  - unfold match_version. cbn [Py.span]. rewrite E.
    destruct (Py.span Py.is_digit s) as [w r1] eqn:H1.
    apply TextFacts.span_app in H1. subst s.
    destruct (dot_split r1) as (dot & r2 & Hd & ->). rewrite Hd.
    destruct (Py.span Py.is_digit r2) as [frac r3] eqn:H3.
    apply TextFacts.span_app in H3. subst r2.
    destruct (suffix_split r3) as [r4 H4].
    eexists _, r4. split; [reflexivity|].
    rewrite OccursFacts.append_cons. f_equal.
    rewrite !OccursFacts.append_assoc. do 3 f_equal. exact H4.
  - unfold match_version. cbn [Py.span]. now rewrite E.
Qed.

Lemma search_version_cases (s : string) :
  (has_digit s = false /\ search_version s = None) \/
  (exists a d v' b,
     search_version s = Some (String d v') /\ s = a +:+ String d v' +:+ b /\
     has_digit a = false /\ Py.is_digit d = true).
Proof.
  induction s as [|c s IH]; [left; split; reflexivity|].
  pose proof (match_version_cases (String c s)) as Hm. cbv beta iota in Hm.
  cbn [search_version has_digit].
  destruct (Py.is_digit c) eqn:E.
  - right. destruct Hm as (v' & rest & Hm & Hs). rewrite Hm.
    exists "", c, v', rest. repeat split; assumption.
  - rewrite Hm. simpl orb.
    destruct IH as [[H1 H2]|(a & d & v' & b & H1 & H2 & H3 & H4)].
    + left. split; assumption.
    + right. exists (String c a), d, v', b. rewrite H1. subst s.
      repeat split; try assumption. simpl. now rewrite E.
Qed.

Lemma has_digit_app (a b : string) :
  has_digit (a +:+ b) = (has_digit a || has_digit b)%bool.
Proof.
  induction a as [|c a IH]; [reflexivity|].
  rewrite OccursFacts.append_cons. simpl. rewrite IH. now rewrite orb_assoc.
Qed.

(** X17: the version is [1.0] exactly when it is not read from the name,
    and it is read from the name whenever the name has a digit: it is then
    the piece of the name that starts at its first digit. *)
Theorem extract_version (self : session) (today : string) (scraped_data : scraped_data) :
  let md := _extract_model_metadata self today scraped_data in
  (has_digit (md_name md) = false -> md_version md = "1.0") /\
  (has_digit (md_name md) = true ->
     exists before d rest after,
       md_version md = String d rest /\ Py.is_digit d = true /\
       md_name md = before +:+ md_version md +:+ after /\
       has_digit before = false).
Proof.
  cbv zeta.
  destruct (extract_fields self today scraped_data) as (Hname & Hversion & _).
  cbv zeta in *. rewrite Hversion, Hname.
  generalize (if Py.contains "/" (model_id_of scraped_data)
              then Py.last (Py.split "/" (model_id_of scraped_data))
              else model_id_of scraped_data).
  intros model_name.
  destruct (search_version_cases model_name)
    as [[H1 H2]|(a & d & v' & b & H1 & H2 & H3 & H4)].
  - rewrite H1, H2. split; [reflexivity|discriminate].
  - rewrite H1. simpl default. split.
    + intros Hno. exfalso. rewrite H2, !has_digit_app in Hno.
      simpl in Hno. rewrite H4 in Hno. simpl in Hno.
      now rewrite orb_true_r in Hno.
    + intros _. exists a, d, v', b. repeat split; assumption.
Qed.

(** *** The type *)

Lemma pick_type_cases (tags : list string) :
  (pick_type "" tags = "" /\ Forall (fun tag => typed_tag tag = false) tags) \/
  (exists before tag after,
     tags = before ++ tag :: after /\
     Forall (fun tag => typed_tag tag = false) before /\
     Dict.get tag type_mapping = Some (pick_type "" tags)).
Proof.
  induction tags as [|tag tags IH]; [left; split; [reflexivity|constructor]|].
  cbn [pick_type]. destruct (Dict.get tag type_mapping) as [t|] eqn:E.
  - right. exists [], tag, tags. repeat split; [constructor|assumption].
  - assert (Ht : typed_tag tag = false) by (unfold typed_tag; now rewrite E).
    destruct IH as [[H1 H2]|(before & tag' & after & -> & H2 & H3)].
    + left. split; [assumption|now constructor].
    + right. exists (tag :: before), tag', after.
      repeat split; [now constructor|assumption].
Qed.

Lemma type_mapping_values (tag t : string) :
  Dict.get tag type_mapping = Some t ->
  In t ["language"; "multimodal"; "image"; "vision"; "audio"].
Proof.
  unfold type_mapping. cbn [Dict.get].
  repeat match goal with
         | |- context [String.eqb ?a tag] => destruct (String.eqb a tag)
         end; intros H; inversion H; simpl; tauto.
Qed.

(** X18: the type is the table entry of the first tag of the model, in
    the order of its own tag list, that is a key of the type table; it is
    empty exactly when no tag is a key, and otherwise one of [language],
    [multimodal], [image], [vision] and [audio]. *)
Theorem extract_type (self : session) (today : string) (scraped_data : scraped_data) :
  let md := _extract_model_metadata self today scraped_data in
  let tags := tags_of_info scraped_data in
  (md_type md = "" <-> Forall (fun tag => typed_tag tag = false) tags) /\
  (md_type md <> "" ->
     exists before tag after,
       tags = before ++ tag :: after /\
       Forall (fun tag => typed_tag tag = false) before /\
       Dict.get tag type_mapping = Some (md_type md)) /\
  In (md_type md) [""; "language"; "multimodal"; "image"; "vision"; "audio"].
Proof.
  cbv zeta.
  destruct (extract_fields self today scraped_data) as (_ & _ & _ & Htype & _).
  cbv zeta in Htype. rewrite Htype.
  destruct (pick_type_cases (tags_of_info scraped_data))
    as [[H1 H2]|(before & tag & after & E & H2 & H3)].
  - rewrite H1. split; [tauto|]. split; [intros H; now elim H|now left].
  - pose proof (type_mapping_values _ _ H3) as Hv.
    split; [|split].
    + split.
      * intros H0. rewrite H0 in Hv. simpl in Hv. intuition discriminate.
      * intros Hall. exfalso. rewrite E in Hall.
        apply List.Forall_app in Hall. destruct Hall as [_ Hall].
        inversion Hall as [|? ? Ht _]. unfold typed_tag in Ht. now rewrite H3 in Ht.
    + intros _. exists before, tag, after. repeat split; assumption.
    + now right.
Qed.

(** *** The date *)

(** X19: the date of the release is the part of the modification time of
    the model before its first [T], the whole of it when it has no [T],
    and the day of the run when the model has no modification time or an
    empty one. *)
Theorem extract_date (self : session) (today : string) (scraped_data : scraped_data) :
  let md := _extract_model_metadata self today scraped_data in
  let last_modified := last_modified_of scraped_data in
  (last_modified = "" -> md_date md = today) /\
  (mi_lastModified (model_info_of scraped_data) = None -> md_date md = today) /\
  (forall day rest, last_modified = day +:+ "T" +:+ rest ->
     Py.contains "T" day = false -> md_date md = day) /\
  (last_modified <> "" -> Py.contains "T" last_modified = false ->
     md_date md = last_modified).
Proof.
  cbv zeta.
  destruct (extract_fields self today scraped_data) as (_ & _ & _ & _ & Hdate & _).
  cbv zeta in Hdate. rewrite Hdate.
  split; [intros E; now rewrite E|].
  split.
  { intros E. unfold last_modified_of. now rewrite E. }
  split.
  - intros day rest E Hday. rewrite E.
    change (day +:+ "T" +:+ rest) with (day +:+ String "T" rest).
    rewrite first_split by exact Hday.
    destruct day; reflexivity.
  - intros Hne Hno. rewrite (split_no_sep "T" _ Hno).
    destruct (last_modified_of scraped_data); [now elim Hne|reflexivity].
Qed.

End MetadataFacts.

Module FileFacts.

(** Writing a file sets its content and leaves every other path alone. *)
Lemma write_file_lookup (path text : string) (fs : Py.file_system) :
  Py.write_file path text fs !! path = Some text /\
  forall other, other <> path -> Py.write_file path text fs !! other = fs !! other.
Proof.
  unfold Py.write_file. split; [apply lookup_insert_eq|].
  intros other Hne. apply lookup_insert_ne. congruence.
Qed.

End FileFacts.

Module DraftFacts.
Import ModelScraper ScraperSpec YamlLayout.

Lemma field_lines_license md comps :
  field_lines "license" (yaml_lines md comps) = ["  license: {  }"].
Proof. YamlFacts.field_lines_by_layout "license". Qed.

Lemma field_lines_contact md comps :
  field_lines "contact" (yaml_lines md comps) = ["  contact: ''"].
Proof. YamlFacts.field_lines_by_layout "contact". Qed.

Lemma length_flat_map_component_lines (components : list component) :
  length (flat_map component_lines components) = (4 * length components)%nat.
Proof.
  induction components as [|comp components IH]; [reflexivity|].
  cbn [flat_map]. rewrite List.length_app, IH, YamlFacts.component_lines_eq.
  cbn [length]. lia.
Qed.

Lemma optional_line_some (key v : string) :
  v <> "" -> optional_line key (Some v) = ["  " +:+ key +:+ ": '" +:+ v +:+ "'"].
Proof. intros H. unfold optional_line. destruct v; [now elim H|reflexivity]. Qed.

(** X20: the draft generated from a scraped model always has the hub
    line with the identifier, has a repository line exactly when the
    repository detection reports an address, keeps the license of the
    release as the placeholder [{  }] and the contact empty whatever
    license is detected, and has four lines for each detected component
    after its sixteen or seventeen other lines.  The text does not depend
    on the output path; with a non-empty path that file holds the text and
    no other file changes, and without one nothing is written. *)
Theorem generate_yaml_draft (self : session) (today : string)
    (scraped_data : scraped_data) (output_path : option string) (fs : Py.file_system) :
  let yaml_output := fst (generate_yaml self today scraped_data output_path fs) in
  let fs' := snd (generate_yaml self today scraped_data output_path fs) in
  let lines :=
    yaml_lines (_extract_model_metadata self today scraped_data)
      (detect_components scraped_data) in
  let repository := fst (_detect_repository self scraped_data) in
  yaml_output = Py.join newline lines /\
  yaml_output = fst (generate_yaml self today scraped_data None fs) /\
  field_lines "huggingface" lines
    = ["  huggingface: 'https://huggingface.co/" +:+ model_id_of scraped_data +:+ "'"] /\
  field_lines "repository" lines
    = (if Py.truthy repository then ["  repository: '" +:+ repository +:+ "'"] else []) /\
  field_lines "license" lines = ["  license: {  }"] /\
  field_lines "contact" lines = ["  contact: ''"] /\
  length lines
    = ((if Py.truthy repository then 17 else 16)
       + 4 * length (detect_components scraped_data))%nat /\
  (forall path, output_path = Some path -> path <> "" ->
     fs' !! path = Some yaml_output /\
     forall other, other <> path -> fs' !! other = fs !! other) /\
  (output_path = None \/ output_path = Some "" -> fs' = fs).
Proof.
  cbv zeta.
  destruct (MetadataFacts.extract_fields self today scraped_data)
    as (_ & _ & _ & _ & _ & _ & Hhf & Hrepo & _).
  cbv zeta in Hhf, Hrepo.
  split; [reflexivity|]. split; [reflexivity|].
  split. { rewrite YamlFacts.field_lines_huggingface, Hhf. reflexivity. }
  split.
  { rewrite YamlFacts.field_lines_repository, Hrepo.
    destruct (Py.truthy (fst (_detect_repository self scraped_data))) eqn:E; [|reflexivity].
    apply optional_line_some. now apply YamlFacts.truthy_iff. }
  split; [apply field_lines_license|]. split; [apply field_lines_contact|].
  split.
  { rewrite YamlFacts.yaml_lines_layout. unfold release_lines.
    rewrite !List.length_app, length_flat_map_component_lines, Hhf, Hrepo.
    destruct (Py.truthy (fst (_detect_repository self scraped_data))) eqn:E.
    - rewrite optional_line_some by now apply YamlFacts.truthy_iff. reflexivity.
    - reflexivity. }
  split.
  - intros path -> Hne. unfold generate_yaml. cbn [fst snd].
    destruct path; [now elim Hne|]. cbn [Py.truthy]. apply FileFacts.write_file_lookup.
  - intros [->| ->]; reflexivity.
Qed.

(** X21: a run of the scraper whose primary fetch fails writes nothing
    and exits with status 1.  Any other run exits with status 0 and
    writes one file, named after the trailing segment of the requested
    identifier; the file holds the draft generated from the scraped data,
    whose release has that segment as its name and the requested
    identifier in its hub line. *)
Theorem main_writes_draft (self : session) (today : string)
    (output_file : string -> string) (model_id : string) (fs : Py.file_system) :
  let scraped_data := scrape_huggingface_model self model_id in
  let status := fst (main self today output_file model_id fs) in
  let fs' := snd (main self today output_file model_id fs) in
  let model_name := Py.last (Py.split "/" model_id) in
  let lines :=
    yaml_lines (_extract_model_metadata self today scraped_data)
      (detect_components scraped_data) in
  (is_empty scraped_data = true /\ status = 1 /\ fs' = fs) \/
  (is_empty scraped_data = false /\ status = 0 /\
   (output_file model_name <> "" ->
      fs' !! output_file model_name = Some (Py.join newline lines)) /\
   (forall other, other <> output_file model_name -> fs' !! other = fs !! other) /\
   field_lines "name" lines = ["  name: " +:+ model_name] /\
   field_lines "huggingface" lines
     = ["  huggingface: 'https://huggingface.co/" +:+ model_id +:+ "'"]).
Proof.
  cbv zeta. unfold main.
  destruct (is_empty (scrape_huggingface_model self model_id)) eqn:E.
  { left. repeat split; reflexivity. }
  right. split; [reflexivity|]. split; [reflexivity|].
  assert (Hid : model_id_of (scrape_huggingface_model self model_id) = model_id).
  { revert E. unfold scrape_huggingface_model.
    destruct (get_info self _) as [|status_code model_info]; [discriminate|].
    destruct (raises_for_status status_code); [discriminate|reflexivity]. }
  destruct (MetadataFacts.extract_fields self today (scrape_huggingface_model self model_id))
    as (Hname & _ & _ & _ & _ & _ & Hhf & _).
  cbv zeta in Hname, Hhf. rewrite Hid in Hname, Hhf.
  unfold generate_yaml. cbn [fst snd].
  split; [|split; [|split]].
  - intros Hne. destruct (output_file _); [now elim Hne|]. cbn [Py.truthy].
    apply FileFacts.write_file_lookup.
  - intros other Hne. destruct (Py.truthy (output_file _)); [|reflexivity].
    now apply FileFacts.write_file_lookup.
  - rewrite YamlFacts.field_lines_name, Hname.
    destruct (Py.contains "/" model_id) eqn:Hs; [reflexivity|].
    now rewrite (MetadataFacts.split_no_sep "/" model_id Hs).
  - rewrite YamlFacts.field_lines_huggingface, Hhf. reflexivity.
Qed.

End DraftFacts.

Module RunFacts.
Import MissingModelsFinder ListingSpec.

(** The loop ends at the latest at a page that fails or is empty. *)
Lemma fetch_pages_terminates (listing : nat -> page_result) (min_downloads limit : Z)
    (j : nat) :
  forall (fuel page : nat) (models : list hf_model),
    page_batch (listing (page + j)%nat) = None ->
    (j < fuel)%nat ->
    fetch_pages fuel listing min_downloads limit models page <> None.
Proof.
  induction j as [|j IH]; intros fuel page models Hbad Hfuel;
    (destruct fuel as [|fuel]; [lia|]); cbn [fetch_pages];
    (destruct (Z.of_nat (length models) <? limit); [|discriminate]).
  - rewrite Nat.add_0_r in Hbad. unfold page_batch in Hbad.
    destruct (listing page) as [|status_code batch]; [discriminate|].
    destruct (raises_for_status status_code); [discriminate|].
    destruct batch; [discriminate|discriminate Hbad].
  - destruct (listing page) as [|status_code batch]; [discriminate|].
    destruct (raises_for_status status_code); [discriminate|].
    destruct batch as [|model batch]; [discriminate|].
    apply IH; [|lia]. now replace (page + 1 + j)%nat with (page + S j)%nat by lia.
Qed.

(** X22: when some page of the listing fails or is empty, a run that may
    make more requests than the number of that page ends.  It prints the
    report of the fetched models that no record of the registry matches;
    with a non-empty output path that file holds the printed report and
    no other file changes, and without one nothing is written.  When the
    registry directory does not exist, every fetched model is reported
    against a registry of no model. *)
Theorem main_reports_missing (fuel k : nat) (models_dir : option (list yaml_file))
    (listing : nat -> page_result) (min_downloads limit : Z)
    (output : option string) (fs : Py.file_system) :
  page_batch (listing k) = None ->
  (k < fuel)%nat ->
  exists hf_models report fs',
    get_huggingface_models fuel listing min_downloads limit = Some hf_models /\
    main fuel models_dir listing min_downloads limit output fs = Some (report, fs') /\
    report
    = Py.join (String "010" "")
        (report_lines_of (find_missing hf_models (get_mot_models models_dir))
           (get_mot_models models_dir)) /\
    (forall path, output = Some path -> path <> "" ->
       fs' !! path = Some report /\
       forall other, other <> path -> fs' !! other = fs !! other) /\
    (output = None \/ output = Some "" -> fs' = fs) /\
    (models_dir = None ->
       report = Py.join (String "010" "") (report_lines_of hf_models [])).
Proof.
  intros Hbad Hfuel. unfold main.
  destruct (get_huggingface_models fuel listing min_downloads limit) as [hf_models|] eqn:E.
  2:{ exfalso. revert E. unfold get_huggingface_models.
      now apply (fetch_pages_terminates listing min_downloads limit k). }
  eexists hf_models, _, _. split; [reflexivity|].
  split; [unfold generate_report; reflexivity|].
  split; [reflexivity|]. split; [|split].
  - intros path -> Hne. destruct path; [now elim Hne|]. cbn [Py.truthy].
    apply FileFacts.write_file_lookup.
  - intros [->| ->]; reflexivity.
  - intros ->. cbn [get_mot_models]. now rewrite AnswerFacts.find_missing_nil.
Qed.

End RunFacts.

Module HubLinkFacts.
Import MissingModelsFinder ListingSpec.

Lemma replace_go_skip (old new p s : string) :
  Py.replace_go old new (String.length p) (p +:+ s) = Py.replace_go old new 0 s.
Proof.
  induction p as [|c p IH]; [reflexivity|].
  rewrite OccursFacts.append_cons. cbn [String.length Py.replace_go]. exact IH.
Qed.

Lemma replace_go_none (old new s : string) :
  Py.contains old s = false -> Py.replace_go old new 0 s = s.
Proof.
  induction s as [|c s IH]; [reflexivity|].
  cbn [Py.contains Py.replace_go].
  destruct (Py.startswith old (String c s)); [discriminate|].
  intros H. now rewrite IH.
Qed.

Lemma replace_leading (c : ascii) (old s : string) :
  Py.contains (String c old) s = false ->
  Py.replace (String c old) "" (String c old +:+ s) = s.
Proof.
  intros H. unfold Py.replace. rewrite OccursFacts.append_cons.
  cbn [Py.replace_go].
  rewrite <- (OccursFacts.append_cons c old s) at 1.
  rewrite TextFacts.startswith_app.
  cbn [String.length Nat.sub]. rewrite ?Nat.sub_0_r. rewrite replace_go_skip.
  change ("" +:+ Py.replace_go (String c old) "" 0 s)
    with (Py.replace_go (String c old) "" 0 s).
  now apply replace_go_none.
Qed.

(** Removing the address of the hub from a link gives the identifier. *)
Lemma replace_hub_prefix (model_id : string) :
  Py.contains "https://huggingface.co/" model_id = false ->
  Py.replace "https://huggingface.co/" "" ("https://huggingface.co/" +:+ model_id)
  = model_id.
Proof. apply (replace_leading "h" "ttps://huggingface.co/"). Qed.
Lemma lower_in_normalize (model_id : string) :
  Py.lower model_id ∈ normalize_model_id model_id.
Proof.
  unfold normalize_model_id. cbv zeta.
  destruct (Py.contains "/" model_id);
    repeat rewrite elem_of_union; rewrite ?elem_of_singleton; tauto.
Qed.

(** X23: a record loaded from a release whose hub link is the address of
    the hub followed by an identifier is found for every remote model
    with that identifier, whatever the case of its letters. *)
Theorem is_model_in_mot_by_hub_link (mot_models : list (string * mot_data))
    (stem : string) (R : mot_data) (model_name origin model_id remote_id : string)
    (hf_model : hf_model) :
  In (stem, R) mot_models ->
  mot_identifiers R
    = release_identifiers model_name origin ("https://huggingface.co/" +:+ model_id) ->
  Py.contains "https://huggingface.co/" model_id = false ->
  hf_id hf_model = Some remote_id ->
  Py.lower remote_id = Py.lower model_id ->
  fst (is_model_in_mot hf_model mot_models) = true.
Proof.
  intros Hin Hids Hno Hid Heq.
  assert (Hx : normalize_model_id remote_id ∩ mot_identifiers R ≠ ∅).
  { intros E. apply (not_elem_of_empty (C := gset string) (Py.lower model_id)).
    rewrite <- E. apply elem_of_intersection. split.
    - rewrite <- Heq. apply lower_in_normalize.
    - rewrite Hids. unfold release_identifiers. cbv zeta.
      change (Py.truthy ("https://huggingface.co/" +:+ model_id)) with true.
      cbv iota. rewrite (replace_hub_prefix model_id Hno).
      apply elem_of_union. right. now apply elem_of_singleton. }
  destruct (FinderFacts.first_intersecting _ _ _ _ Hin Hx)
    as (before & stem' & R' & after & -> & Hb & HR').
  unfold is_model_in_mot. rewrite Hid. simpl default. cbv zeta.
  now rewrite FinderFacts.first_match_split.
Qed.

End HubLinkFacts.

(** ** Worked runs *)

Module WorkedRuns.
Import MissingModelsFinder ModelScraper Examples Scenarios ListingSpec.

Lemma get_huggingface_models_pages_witness :
  get_huggingface_models 2 one_page 10000 1000
  = Some [remote "org/popular" 500000; remote "org/known" 50000].
Proof.
  apply (ListingFacts.get_huggingface_models_pages one_page 10000 1000 1 2).
  - intros i Hi. assert (i = 0)%nat as -> by lia. discriminate.
  - left. reflexivity.
  - lia.
Defined.

Lemma get_huggingface_models_bounds_witness :
  get_huggingface_models 2 one_page 10000 2 = Some (firstn 2 first_page) /\
  Forall (fun m => 10000 <= downloads_of m) (firstn 2 first_page) /\
  Z.of_nat (length (firstn 2 first_page)) <= Z.max 0 2.
Proof.
  assert (H : get_huggingface_models 2 one_page 10000 2 = Some (firstn 2 first_page))
    by reflexivity.
  split; [exact H|].
  destruct (ListingFacts.get_huggingface_models_bounds one_page 10000 2 2 _ H)
    as (H1 & H2 & _).
  split; assumption.
Defined.

Lemma get_mot_models_entries_witness :
  List.NoDup (map yf_stem mixed_files) /\
  get_mot_models (Some mixed_files) = [("Llama-2-7B", llama_record)].
Proof.
  assert (H : List.NoDup (map yf_stem mixed_files)).
  { repeat (apply List.NoDup_cons; [simpl; intuition discriminate|]).
    apply List.NoDup_nil. }
  split; [exact H|].
  destruct (LoaderFacts.get_mot_models_entries mixed_files H) as (_ & -> & _).
  reflexivity.
Defined.


Lemma is_model_in_mot_by_name_witness :
  fst (is_model_in_mot mirrored_llama (get_mot_models (Some two_llama_files))) = true.
Proof.
  apply (AnswerFacts.is_model_in_mot_by_name (get_mot_models (Some two_llama_files))
           "Llama-2-7B" llama_record "Llama-2-7B" "" "" "mirror" "llama_2_7b").
  - left. vm_compute. reflexivity.
  - reflexivity.
  - discriminate.
  - reflexivity.
  - reflexivity.
  - reflexivity.
Defined.

Lemma detect_repository_from_description_witness :
  findall_github (model_card_of linked) <> [] /\
  _detect_repository offline linked = _detect_repository all_found linked.
Proof.
  assert (H : findall_github (model_card_of linked) <> []) by (vm_compute; discriminate).
  split; [exact H|].
  apply (RepositoryFacts.detect_repository_from_description offline all_found linked H).
Defined.

Lemma detect_repository_probes_witness :
  findall_github (model_card_of safetensors_only) = [] /\
  _detect_repository offline safetensors_only = ("", 0 # 100).
Proof.
  assert (H : findall_github (model_card_of safetensors_only) = []) by reflexivity.
  split; [exact H|].
  pose proof (RepositoryFacts.detect_repository_probes offline safetensors_only H) as P.
  cbv zeta in P. destruct P as (_ & _ & P). apply P. reflexivity.
Defined.

Lemma main_reports_missing_witness :
  exists report,
    MissingModelsFinder.main 2%nat (Some two_llama_files) one_page 10000 1000 None ∅ = Some (report, ∅).
Proof.
  destruct (RunFacts.main_reports_missing 2 1 (Some two_llama_files) one_page
              10000 1000 None ∅ eq_refl ltac:(lia))
    as (hf_models & report & fs' & _ & Hmain & _ & _ & Hfs & _).
  exists report. rewrite Hmain, (Hfs (or_introl eq_refl)). reflexivity.
Defined.

Lemma is_model_in_mot_by_hub_link_witness :
  fst (is_model_in_mot shouting_mistral (get_mot_models (Some [mistral_file]))) = true.
Proof.
  apply (HubLinkFacts.is_model_in_mot_by_hub_link (get_mot_models (Some [mistral_file]))
           "mistral" mistral_record "Mistral 7B" "" "mistralai/Mistral-7B-v0.1"
           "MistralAI/MISTRAL-7B-v0.1").
  - left. vm_compute. reflexivity.
  - reflexivity.
  - reflexivity.
  - reflexivity.
  - reflexivity.
Defined.

End WorkedRuns.
